(** * Dashboard save/delete pipeline and GitLab mirror connector

    A shallow embedding of
      - pkg/login/social/social.go        (connector interface, registry)
      - pkg/login/social/gitlab_oauth.go  (GitLab connector)
      - pkg/services/dashboards/dashboard_service.go (dashboard service)
    followed by the properties of the specification, each stated over the
    embedded functions.

    Conventions.  A Go [string] is a byte sequence: Rocq's [string].  An
    [int64] that is only compared is a [Z].  A pointer that the code
    dereferences is an [option]; dereferencing [None] is a panic.  A Go
    function returning [(T, error)] returns a [res T]; a function returning a
    bare [error] returns an [option error].  Calls to collaborators that are
    not part of the three files go through a record of handlers over an
    abstract state of the outside world. *)

From Stdlib Require Import ZArith Ascii String List Bool Lia.
From Stdlib Require DecimalString.
From stdpp Require Import base option strings gmap list.

(** ** Errors, results and the execution monad *)

Inductive error : Type :=
| ErrDashboardTitleEmpty
| ErrDashboardFolderCannotHaveParent
| ErrDashboardFolderNameExists
| ErrDashboardInvalidUid
| ErrDashboardUidToLong
| ErrDashboardUpdateAccessDenied
| ErrDashboardCannotSaveProvisionedDashboard
| ErrDashboardCannotDeleteProvisionedDashboard
| ErrDashboardGitlabSync
| ErrMissingGroupMembership
| ErrWrap (message : string) (cause : error)
| ErrExternal (message : string).

(** The pair [(T, error)] a Go function returns. *)
Inductive res (A : Type) : Type :=
| Val (a : A)
| Err (e : error).
Arguments Val {A} a.
Arguments Err {A} e.

(** A call either returns or panics (nil dereference, index out of range). *)
Inductive outcome (A : Type) : Type :=
| Done (a : A)
| Panic.
Arguments Done {A} a.
Arguments Panic {A}.

Definition Go (St A : Type) : Type := St -> outcome A * St.

Definition ret {St A} (a : A) : Go St A := fun st => (Done a, st).

Definition panic {St A} : Go St A := fun st => (Panic, st).

Definition bind {St A B} (m : Go St A) (k : A -> Go St B) : Go St B :=
  fun st =>
    match m st with
    | (Done a, st') => k a st'
    | (Panic, st') => (Panic, st')
    end.

Notation "'do' x <- m ; k" := (bind m (fun x => k))
  (at level 10, x name, m at level 100, k at level 200).
Notation "'do' ' p <- m ; k" := (bind m (fun x => match x with p => k end))
  (at level 10, p pattern, m at level 100, k at level 200).
(** [if err != nil { return nil, err }] *)
Notation "'try' x <- m ; k" :=
  (bind m (fun r => match r with Err e => ret (Err e) | Val x => k end))
  (at level 10, x name, m at level 100, k at level 200).

(** ** The Go standard library functions the code calls *)

Module strings.

(** [asciiSpace] of package strings: tab, LF, VT, FF, CR and space. *)
Definition asciiSpace (c : ascii) : bool :=
  let n := N_of_ascii c in
  (((9 <=? n) && (n <=? 13)) || (n =? 32))%N.

(** The two-byte UTF-8 encodings of white space: U+0085 and U+00A0. *)
Definition space2 (c1 c2 : ascii) : bool :=
  let b1 := N_of_ascii c1 in
  let b2 := N_of_ascii c2 in
  ((b1 =? 194) && ((b2 =? 133) || (b2 =? 160)))%N.

(** The three-byte encodings: U+1680, U+2000..U+200A, U+2028, U+2029,
    U+202F, U+205F and U+3000. *)
Definition space3 (c1 c2 c3 : ascii) : bool :=
  let b1 := N_of_ascii c1 in
  let b2 := N_of_ascii c2 in
  let b3 := N_of_ascii c3 in
  (((b1 =? 225) && (b2 =? 154) && (b3 =? 128))
   || ((b1 =? 226) && (b2 =? 128)
       && (((128 <=? b3) && (b3 <=? 138)) || (b3 =? 168) || (b3 =? 169)
           || (b3 =? 175)))
   || ((b1 =? 226) && (b2 =? 129) && (b3 =? 159))
   || ((b1 =? 227) && (b2 =? 128) && (b3 =? 128)))%N.

(** The scan shared by both ends: drop from the front every run of bytes
    that is one byte accepted by [asciiSpace], two bytes accepted by [p2] or
    three bytes accepted by [p3]. *)
Fixpoint trimWith (p2 : ascii -> ascii -> bool) (p3 : ascii -> ascii -> ascii -> bool)
    (s : list ascii) : list ascii :=
  match s with
  | c1 :: r1 =>
      if asciiSpace c1 then trimWith p2 p3 r1 else
      match r1 with
      | c2 :: r2 =>
          if p2 c1 c2 then trimWith p2 p3 r2 else
          match r2 with
          | c3 :: r3 => if p3 c1 c2 c3 then trimWith p2 p3 r3 else s
          | [] => s
          end
      | [] => s
      end
  | [] => s
  end.

(** [TrimLeftFunc(s, unicode.IsSpace)]: drop white-space runes from the
    front.  Decoding a rune at the front of a byte sequence yields a
    white-space rune exactly when the sequence starts with one of the
    encodings above. *)
Definition trimLeft (s : list ascii) : list ascii := trimWith space2 space3 s.

(** [TrimRightFunc(s, unicode.IsSpace)]: the same scan from the back, on the
    reversed byte sequence with the encodings read backwards. *)
Definition trimLeftRev (s : list ascii) : list ascii :=
  trimWith (fun c1 c2 => space2 c2 c1) (fun c1 c2 c3 => space3 c3 c2 c1) s.

Definition trimRight (s : list ascii) : list ascii :=
  rev (trimLeftRev (rev s)).

(** [strings.TrimSpace]. *)
Definition TrimSpace (s : string) : string :=
  string_of_list_ascii (trimRight (trimLeft (list_ascii_of_string s))).

(** A byte sequence made of white-space runes only. *)
Inductive WhitespaceOnly : list ascii -> Prop :=
| ws_nil : WhitespaceOnly []
| ws_1 c r : asciiSpace c = true -> WhitespaceOnly r -> WhitespaceOnly (c :: r)
| ws_2 c1 c2 r :
    space2 c1 c2 = true -> WhitespaceOnly r -> WhitespaceOnly (c1 :: c2 :: r)
| ws_3 c1 c2 c3 r :
    space3 c1 c2 c3 = true -> WhitespaceOnly r ->
    WhitespaceOnly (c1 :: c2 :: c3 :: r).

(** Does the byte sequence start with a run the scan would drop? *)
Definition startsWith (p2 : ascii -> ascii -> bool)
    (p3 : ascii -> ascii -> ascii -> bool) (s : list ascii) : bool :=
  match s with
  | c1 :: r1 =>
      asciiSpace c1 ||
      match r1 with
      | c2 :: r2 =>
          p2 c1 c2 || match r2 with c3 :: _ => p3 c1 c2 c3 | [] => false end
      | [] => false
      end
  | [] => false
  end.

End strings.

Module regexp.

Definition dquote : string := String "034"%char EmptyString.

(** The literal tail of the pattern: [>; rel="next"]. *)
Definition relNext : string := ">; rel=" +:+ dquote +:+ "next" +:+ dquote.

(** Longest prefix without ['>'], and what follows it. *)
Fixpoint spanNotGt (s : string) : string * string :=
  match s with
  | String c rest =>
      if Ascii.eqb c ">"%char then (EmptyString, s)
      else let '(u, tl) := spanNotGt rest in (String c u, tl)
  | EmptyString => (EmptyString, EmptyString)
  end.

(** [regexp.MustCompile(`<([^>]+)>; rel="next"`).FindStringSubmatch]:
    the leftmost match, as the pair (matches[0], matches[1]).  From a given
    ['<'] the class [[^>]+] can only end at the first ['>'] that follows,
    so there is at most one match per start position. *)
Fixpoint FindStringSubmatch (s : string) : option (string * string) :=
  match s with
  | String c rest =>
      if Ascii.eqb c "<"%char then
        let '(u, tl) := spanNotGt rest in
        if negb (String.eqb u EmptyString) && String.prefix relNext tl
        then Some ("<" +:+ u +:+ relNext, u)
        else FindStringSubmatch rest
      else FindStringSubmatch rest
  | EmptyString => None
  end.

(** No byte of the string is ['>']. *)
Fixpoint noGt (s : string) : bool :=
  match s with
  | String c rest => negb (Ascii.eqb c ">"%char) && noGt rest
  | EmptyString => true
  end.

(** The header value [<url>; rel="next"]. *)
Definition linkNext (url : string) : string := "<" +:+ url +:+ relNext.

End regexp.

(** ** pkg/login/social *)

Module social.

(** social.go: [type DashboardAction string] and its three constants. *)
Definition DashboardAction : Type := string.
Definition UpdateDashboard : DashboardAction := "update".
Definition CreateDashboard : DashboardAction := "create".
Definition DeleteDashboard : DashboardAction := "delete".

Record UpdateDashboardOptions : Type := {
  opt_Action : DashboardAction;
  opt_Message : string;
  opt_Title : string;
  opt_Name : string;
  opt_Dashboard : string;
  opt_Folder : string;
  opt_OrgId : Z
}.

(** gitlab_oauth.go *)
Record GrafanaGitlabRepo : Type := {
  repo_OrgId : Z;
  repo_RepoId : Z;
  repo_Branch : string;
  repo_DashboardsPath : string;
  repo_Url : string
}.

Record SocialGitlab : Type := {
  allowedDomains : list string;
  allowedGroups : list string;
  apiUrl : string;
  allowSignup : bool;
  repos : list GrafanaGitlabRepo
}.

(** The commit API of the go-gitlab client. *)
Inductive FileAction : Type :=
| FileCreate | FileDelete | FileMove | FileUpdate | FileChmod.

Record CommitAction : Type := {
  ca_Action : FileAction;
  ca_Content : string;
  ca_FilePath : string
}.

Record CreateCommitOptions : Type := {
  cc_Branch : string;
  cc_CommitMessage : string;
  cc_Actions : list CommitAction
}.

(** The response of [HttpGet]; [http.Header] is [map[string][]string]. *)
Record HttpGetResponse : Type := {
  Body : string;
  Headers : gmap string (list string)
}.

(** The element type [json.Unmarshal] fills in [GetGroupsPage]. *)
Record Group : Type := { FullPath : string }.

(** Modelled from the spec: the package's [HttpGet] and the GitLab client
    are not among the three files.  Section 6: a GET returns a body and
    response headers or fails; the commit call creates one commit with the
    caller's token against a base URL and repository id, or fails.  Both
    move the state [S] of the outside world (the [http.Client] is part of
    it).  The library functions [json.Unmarshal] and [path.Join] are taken
    as they come. *)
Record Remote (S : Type) : Type := {
  HttpGet : string -> S -> res HttpGetResponse * S;
  CreateCommit :
    string -> string -> Z -> CreateCommitOptions -> S -> option error * S;
  json_Unmarshal : string -> res (list Group);
  path_Join : list string -> string
}.
Arguments HttpGet {S} _ _ _.
Arguments CreateCommit {S} _ _ _ _ _ _.
Arguments json_Unmarshal {S} _ _.
Arguments path_Join {S} _ _.

(** A call of a collaborator: it returns, and moves the outside world. *)
Definition call {S A} (h : S -> A * S) : Go S A :=
  fun st => let '(a, st') := h st in (Done a, st').

(** The part of [SocialConnector] the dashboard service uses. *)
Record SocialConnector (S : Type) : Type := {
  conn_UpdateDashboard : UpdateDashboardOptions -> string -> Go S (option error)
}.
Arguments conn_UpdateDashboard {S} _ _ _.

(** [func (s SocialBase) UpdateDashboard]: the default, a no-op. *)
Definition SocialBase_UpdateDashboard {S}
    (options : UpdateDashboardOptions) (token : string) : Go S (option error) :=
  ret None.

Definition getRepo (s : SocialGitlab) (orgId : Z) : option GrafanaGitlabRepo :=
  List.find (fun repo => Z.eqb (repo_OrgId repo) orgId) (repos s).

Definition getGitlabAction (action : DashboardAction) : FileAction :=
  if String.eqb action UpdateDashboard then FileUpdate
  else if String.eqb action CreateDashboard then FileCreate
  else if String.eqb action DeleteDashboard then FileDelete
  else FileUpdate.

Definition createCommitMessage (options : UpdateDashboardOptions) : string :=
  let action := opt_Action options in
  if String.eqb action CreateDashboard then
    "Create " +:+ opt_Title options +:+ " dashboard"
  else if String.eqb action DeleteDashboard then
    "Delete " +:+ opt_Title options +:+ " dashboard"
  else if String.eqb action UpdateDashboard then
    "Update " +:+ opt_Title options +:+ " dashboard" +:+ String "010"%char
      (String "010"%char (opt_Message options))
  else "".

Definition IsSignupAllowed (s : SocialGitlab) : bool := allowSignup s.

(** The two nested loops of [IsGroupMember]. *)
Fixpoint anyGroupIs (allowedGroup : string) (groups : list string) : bool :=
  match groups with
  | group :: groups' =>
      if String.eqb group allowedGroup then true
      else anyGroupIs allowedGroup groups'
  | [] => false
  end.

Fixpoint anyAllowed (allowed : list string) (groups : list string) : bool :=
  match allowed with
  | allowedGroup :: allowed' =>
      if anyGroupIs allowedGroup groups then true
      else anyAllowed allowed' groups
  | [] => false
  end.

Definition IsGroupMember (s : SocialGitlab) (groups : list string) : bool :=
  if Nat.eqb (List.length (allowedGroups s)) 0 then true
  else anyAllowed (allowedGroups s) groups.

Section Connector.
Context {S : Type} (remote : Remote S).

Definition SocialGitlab_UpdateDashboard (s : SocialGitlab)
    (options : UpdateDashboardOptions) (token : string) : Go S (option error) :=
  let org_id := opt_OrgId options in
  let repo := getRepo s org_id in
  let message := createCommitMessage options in
  let fileName := opt_Name options +:+ ".json" in
  match repo with
  | None => panic
  | Some repo =>
      let filePath :=
        path_Join remote [repo_DashboardsPath repo; opt_Folder options; fileName] in
      let commit := {|
        cc_Branch := repo_Branch repo;
        cc_CommitMessage := message;
        cc_Actions := [ {| ca_Action := getGitlabAction (opt_Action options);
                           ca_Content := opt_Dashboard options;
                           ca_FilePath := filePath |} ] |} in
      do err <- call (CreateCommit remote (repo_Url repo) token (repo_RepoId repo) commit);
      match err with
      | Some _ => ret (Some ErrDashboardGitlabSync)
      | None => ret None
      end
  end.

(** [GetGroupsPage]: the page ([None] is the nil slice) and the link to
    the next one. *)
Definition GetGroupsPage (s : SocialGitlab) (url : string)
    : Go S (option (list string) * string) :=
  let next := "" in
  if String.eqb url "" then ret (None, next) else
  do response <- call (HttpGet remote url);
  match response with
  | Err _ => ret (None, next)
  | Val response =>
      match json_Unmarshal remote (Body response) with
      | Err _ => ret (None, next)
      | Val groups =>
          let fullPaths := map FullPath groups in
          do next <-
            match Headers response !! "Link" with
            | Some link =>
                match link with
                | link0 :: _ =>
                    match regexp.FindStringSubmatch link0 with
                    | Some matches => ret (snd matches)
                    | None => ret next
                    end
                | [] => panic
                end
            | None => ret next
            end;
          ret (Some fullPaths, next)
      end
  end.

(** The loop of [GetGroups].  Nothing bounds the number of pages a server
    can chain, so the loop runs on fuel: [None] is fuel exhausted. *)
Fixpoint GetGroups_loop (fuel : nat) (s : SocialGitlab) (groups : list string)
    (page : option (list string)) (url : string) {struct fuel}
    : Go S (option (list string)) :=
  match page with
  | None => ret (Some groups)
  | Some page =>
      match fuel with
      | O => ret None
      | Datatypes.S fuel' =>
          let groups := groups ++ page in
          do '(page, url) <- GetGroupsPage s url;
          GetGroups_loop fuel' s groups page url
      end
  end.

Definition GetGroups (fuel : nat) (s : SocialGitlab) : Go S (option (list string)) :=
  let groups := [] in
  do '(page, url) <- GetGroupsPage s (apiUrl s +:+ "/groups");
  GetGroups_loop fuel s groups page url.

(** The connector values [NewOAuthService] stores in [SocialMap]. *)
Definition SocialGitlab_connector (s : SocialGitlab) : SocialConnector S :=
  {| conn_UpdateDashboard := SocialGitlab_UpdateDashboard s |}.

Definition SocialBase_connector : SocialConnector S :=
  {| conn_UpdateDashboard := SocialBase_UpdateDashboard |}.

End Connector.

(** The link to the next page as [GetGroupsPage] reads it off a response;
    [None] when indexing the header's values panics. *)
Definition nextOf (response : HttpGetResponse) : option string :=
  match Headers response !! "Link" with
  | Some (link0 :: _) =>
      Some match regexp.FindStringSubmatch link0 with
           | Some matches => snd matches
           | None => ""
           end
  | Some [] => None
  | None => Some ""
  end.

(** [Pages remote url st ps st']: starting at [url] in state [st] the server
    hands out the pages [ps], each linking to the next, and the exchange
    leaves the world in [st'].  The chain ends at an empty link, at a
    request that fails, or at a body that does not parse. *)
Inductive Pages {S : Type} (remote : Remote S)
    : string -> S -> list (list string) -> S -> Prop :=
| pages_no_link st : Pages remote "" st [] st
| pages_http_error url st e st' :
    url <> "" -> HttpGet remote url st = (Err e, st') ->
    Pages remote url st [] st'
| pages_parse_error url st response e st' :
    url <> "" -> HttpGet remote url st = (Val response, st') ->
    json_Unmarshal remote (Body response) = Err e ->
    Pages remote url st [] st'
| pages_page url st response groups next st1 ps st' :
    url <> "" -> HttpGet remote url st = (Val response, st1) ->
    json_Unmarshal remote (Body response) = Val groups ->
    nextOf response = Some next ->
    Pages remote next st1 ps st' ->
    Pages remote url st (map FullPath groups :: ps) st'.

End social.

(** ** pkg/models: the declarations the dashboard service uses *)

Module models.

(** Modelled from the spec: the JSON payload type (package simplejson) is
    not among the three files.  Section 3 calls [Data] an arbitrary JSON
    payload and 4.1 step 1 writes the title into it under key "title": a
    JSON object, with [Set] an insertion. *)
#[local] Unset Elimination Schemes.
Inductive Json : Type :=
| JNull
| JBool (b : bool)
| JNumber (n : Z)
| JString (s : string)
| JArray (xs : list Json)
| JObject (fields : gmap string Json).
#[local] Set Elimination Schemes.

Definition Json_Set (key : string) (val : Json) (data : gmap string Json)
    : gmap string Json :=
  <[key := val]> data.

Definition RoleType : Type := string.
Definition ROLE_ADMIN : RoleType := "Admin".

Record SignedInUser : Type := {
  UserId : Z;
  user_OrgId : Z;
  OrgRole : RoleType;
  Token : string;
  AuthModule : string
}.

Record Dashboard : Type := {
  Id : Z;
  Uid : string;
  dash_OrgId : Z;
  Title : string;
  FolderId : Z;
  IsFolder : bool;
  Version : Z;
  PluginId : string;
  Slug : string;
  Data : gmap string Json
}.

Definition withTitle (dash : Dashboard) (title : string) : Dashboard :=
  {| Id := Id dash; Uid := Uid dash; dash_OrgId := dash_OrgId dash;
     Title := title; FolderId := FolderId dash; IsFolder := IsFolder dash;
     Version := Version dash; PluginId := PluginId dash; Slug := Slug dash;
     Data := Data dash |}.

Definition withData (dash : Dashboard) (data : gmap string Json) : Dashboard :=
  {| Id := Id dash; Uid := Uid dash; dash_OrgId := dash_OrgId dash;
     Title := Title dash; FolderId := FolderId dash; IsFolder := IsFolder dash;
     Version := Version dash; PluginId := PluginId dash; Slug := Slug dash;
     Data := data |}.

Definition withUid (dash : Dashboard) (uid : string) : Dashboard :=
  {| Id := Id dash; Uid := uid; dash_OrgId := dash_OrgId dash;
     Title := Title dash; FolderId := FolderId dash; IsFolder := IsFolder dash;
     Version := Version dash; PluginId := PluginId dash; Slug := Slug dash;
     Data := Data dash |}.

(** Modelled from the spec: [Dashboard.SetUid] is declared outside the
    three files.  4.1 step 1 trims the Uid and keeps payload and structured
    fields in step: the uid goes to the [Uid] field and to the payload
    under key "uid". *)
Definition SetUid (dash : Dashboard) (uid : string) : Dashboard :=
  withData (withUid dash uid) (Json_Set "uid" (JString uid) (Data dash)).

(** Modelled from the spec: [GetDashboardIdForSavePermissionCheck] is
    declared outside the three files.  4.1 step 10: the dashboard's own id,
    or its folder id if the dashboard itself is new. *)
Definition GetDashboardIdForSavePermissionCheck (dash : Dashboard) : Z :=
  if Z.eqb (Id dash) 0 then FolderId dash else Id dash.

Record DashboardProvisioning : Type := {
  prov_DashboardId : Z;
  prov_Name : string;
  prov_ExternalId : string;
  prov_CheckSum : string
}.

Record ValidateDashboardBeforeSaveResult : Type := {
  IsParentFolderChanged : bool
}.

(** A [time.Time] as the distance from the zero instant. *)
Definition Time : Type := Z.
Definition IsZero (t : Time) : bool := Z.eqb t 0.

Record SaveDashboardCommand : Type := {
  cmd_Dashboard : gmap string Json;
  cmd_Message : string;
  cmd_OrgId : Z;
  cmd_Overwrite : bool;
  cmd_UserId : Z;
  cmd_FolderId : Z;
  cmd_IsFolder : bool;
  cmd_PluginId : string;
  cmd_UpdatedAt : Time;
  cmd_Result : option Dashboard
}.

Definition withUpdatedAt (cmd : SaveDashboardCommand) (t : Time) : SaveDashboardCommand :=
  {| cmd_Dashboard := cmd_Dashboard cmd; cmd_Message := cmd_Message cmd;
     cmd_OrgId := cmd_OrgId cmd; cmd_Overwrite := cmd_Overwrite cmd;
     cmd_UserId := cmd_UserId cmd; cmd_FolderId := cmd_FolderId cmd;
     cmd_IsFolder := cmd_IsFolder cmd; cmd_PluginId := cmd_PluginId cmd;
     cmd_UpdatedAt := t; cmd_Result := cmd_Result cmd |}.

Definition withResult (cmd : SaveDashboardCommand) (r : option Dashboard)
    : SaveDashboardCommand :=
  {| cmd_Dashboard := cmd_Dashboard cmd; cmd_Message := cmd_Message cmd;
     cmd_OrgId := cmd_OrgId cmd; cmd_Overwrite := cmd_Overwrite cmd;
     cmd_UserId := cmd_UserId cmd; cmd_FolderId := cmd_FolderId cmd;
     cmd_IsFolder := cmd_IsFolder cmd; cmd_PluginId := cmd_PluginId cmd;
     cmd_UpdatedAt := cmd_UpdatedAt cmd; cmd_Result := r |}.

(** The messages the service hands to [bus.Dispatch], with the fields it
    fills in. *)
Inductive Msg : Type :=
| GetProvisionedDashboardDataQuery (Name : string)
| GetProvisionedDashboardDataByIdQuery (DashboardId : Z)
| ValidateDashboardAlertsCommand
    (OrgId : Z) (Dashboard : Dashboard) (User : option SignedInUser)
| ValidateDashboardBeforeSaveCommand
    (OrgId : Z) (Dashboard : Dashboard) (Overwrite : bool)
| SaveDashboardCmd (cmd : SaveDashboardCommand)
| SaveProvisionedDashboardCommand
    (DashboardCmd : SaveDashboardCommand) (DashboardProvisioning : DashboardProvisioning)
| UpdateDashboardAlertsCommand
    (OrgId : Z) (Dashboard : option Dashboard) (User : option SignedInUser)
| DeleteDashboardCommand (OrgId : Z) (Id : Z)
| GetDashboardQuery (Id : Z)
| UnprovisionDashboardCommand (Id : Z).

End models.

(** ** pkg/services/dashboards *)

Module dashboards.
Import models.

Record SaveDashboardDTO : Type := {
  dto_OrgId : Z;
  dto_UpdatedAt : Time;
  dto_User : option SignedInUser;
  dto_Message : string;
  dto_Overwrite : bool;
  dto_Dashboard : option Dashboard
}.

Definition withUser (dto : SaveDashboardDTO) (user : option SignedInUser)
    : SaveDashboardDTO :=
  {| dto_OrgId := dto_OrgId dto; dto_UpdatedAt := dto_UpdatedAt dto;
     dto_User := user; dto_Message := dto_Message dto;
     dto_Overwrite := dto_Overwrite dto; dto_Dashboard := dto_Dashboard dto |}.

(** The request once a build has written through its dashboard pointer. *)
Definition requestAfter (dto : SaveDashboardDTO) (dash : Dashboard)
    : SaveDashboardDTO :=
  {| dto_OrgId := dto_OrgId dto; dto_UpdatedAt := dto_UpdatedAt dto;
     dto_User := dto_User dto; dto_Message := dto_Message dto;
     dto_Overwrite := dto_Overwrite dto; dto_Dashboard := Some dash |}.

(** Modelled from the spec: the command bus, the guardian and the helpers of
    package util are not among the three files.  Section 2: the bus executes
    a command and populates a result or returns an error; the guardian
    answers whether the user may save a resource.  Each handler reads its
    message and moves the state [S] of the outside world; [IsValidShortUID],
    [strings.EqualFold], [json.MarshalIndent] and the constant
    [RootFolderName] are taken as they come. *)
Record Collaborators (S : Type) : Type := {
  bus_GetProvisionedDashboardData :
    string -> S -> res (list DashboardProvisioning) * S;
  bus_GetProvisionedDashboardDataById :
    Z -> S -> res (option DashboardProvisioning) * S;
  bus_ValidateDashboardAlerts :
    Z -> Dashboard -> option SignedInUser -> S -> option error * S;
  bus_ValidateDashboardBeforeSave :
    Z -> Dashboard -> bool -> S ->
    res (option ValidateDashboardBeforeSaveResult) * S;
  bus_SaveDashboard : SaveDashboardCommand -> S -> res (option Dashboard) * S;
  bus_SaveProvisionedDashboard :
    SaveDashboardCommand -> DashboardProvisioning -> S ->
    res (option Dashboard) * S;
  bus_UpdateDashboardAlerts :
    Z -> option Dashboard -> option SignedInUser -> S -> option error * S;
  bus_DeleteDashboard : Z -> Z -> S -> option error * S;
  bus_GetDashboard : Z -> S -> res (option Dashboard) * S;
  bus_UnprovisionDashboard : Z -> S -> option error * S;
  guardian_CanSave : Z -> Z -> option SignedInUser -> S -> (bool * option error) * S;
  IsValidShortUID : string -> bool;
  EqualFold : string -> string -> bool;
  RootFolderName : string;
  json_MarshalIndent : gmap string Json -> res string;
  (** [social.SocialMap], as [NewOAuthService] left it. *)
  SocialMap : gmap string (social.SocialConnector S)
}.
Arguments bus_GetProvisionedDashboardData {S} _ _ _.
Arguments bus_GetProvisionedDashboardDataById {S} _ _ _.
Arguments bus_ValidateDashboardAlerts {S} _ _ _ _ _.
Arguments bus_ValidateDashboardBeforeSave {S} _ _ _ _ _.
Arguments bus_SaveDashboard {S} _ _ _.
Arguments bus_SaveProvisionedDashboard {S} _ _ _ _.
Arguments bus_UpdateDashboardAlerts {S} _ _ _ _ _.
Arguments bus_DeleteDashboard {S} _ _ _ _.
Arguments bus_GetDashboard {S} _ _ _.
Arguments bus_UnprovisionDashboard {S} _ _ _.
Arguments guardian_CanSave {S} _ _ _ _ _.
Arguments IsValidShortUID {S} _ _.
Arguments EqualFold {S} _ _ _.
Arguments RootFolderName {S} _.
Arguments json_MarshalIndent {S} _ _.
Arguments SocialMap {S} _.

(** What a run leaves behind for an observer, in the order it happened. *)
Inductive Event : Type :=
| EvDispatch (msg : Msg)
| EvGuardian (resourceId orgId : Z) (user : option SignedInUser)
| EvMirror (options : social.UpdateDashboardOptions) (token : string).

Record World (S : Type) : Type := {
  outside : S;
  trace : list Event
}.
Arguments outside {S} _.
Arguments trace {S} _.
Arguments Build_World {S} _ _.

Section Service.
Context {S : Type} (env : Collaborators S).

Definition M (A : Type) : Type := Go (World S) A.

Definition emit (e : Event) : M unit :=
  fun w => (Done tt, {| outside := outside w; trace := trace w ++ [e] |}).

(** A call of a collaborator that returns. *)
Definition callOut {A} (h : S -> A * S) : M A :=
  fun w => let '(a, s') := h (outside w) in
           (Done a, {| outside := s'; trace := trace w |}).

(** A call into package social, which can panic. *)
Definition callSocial {A} (m : Go S A) : M A :=
  fun w => let '(o, s') := m (outside w) in
           (o, {| outside := s'; trace := trace w |}).

(** [bus.Dispatch(msg)], answered by handler [h]. *)
Definition Dispatch {A} (msg : Msg) (h : S -> A * S) : M A :=
  do _ <- emit (EvDispatch msg); callOut h.

(** [guardian.New(id, orgId, user).CanSave()] *)
Definition CanSave (id orgId : Z) (user : option SignedInUser)
    : M (bool * option error) :=
  do _ <- emit (EvGuardian id orgId user);
  callOut (guardian_CanSave env id orgId user).

Definition GetProvisionedDashboardData (name : string)
    : M (res (list DashboardProvisioning)) :=
  try result <- Dispatch (GetProvisionedDashboardDataQuery name)
                  (bus_GetProvisionedDashboardData env name);
  ret (Val result).

Definition GetProvisionedDashboardDataByDashboardId (dashboardId : Z)
    : M (res (option DashboardProvisioning)) :=
  try result <- Dispatch (GetProvisionedDashboardDataByIdQuery dashboardId)
                  (bus_GetProvisionedDashboardDataById env dashboardId);
  ret (Val result).

(** [buildSaveDashboardCommand].  [dto.Dashboard] is a pointer and the
    function writes through it: the result pairs the dashboard as the call
    leaves it with the returned [(cmd, err)]. *)
Definition buildSaveDashboardCommand (dto : SaveDashboardDTO)
    (validateAlerts validateProvisionedDashboard : bool)
    : M (Dashboard * res SaveDashboardCommand) :=
  match dto_Dashboard dto with
  | None => panic
  | Some dash =>
  let dash := withTitle dash (strings.TrimSpace (Title dash)) in
  let dash := withData dash (Json_Set "title" (JString (Title dash)) (Data dash)) in
  let dash := SetUid dash (strings.TrimSpace (Uid dash)) in
  do r <-
   (if String.eqb (Title dash) "" then ret (Err ErrDashboardTitleEmpty) else
    if IsFolder dash && Z.ltb 0 (FolderId dash)
    then ret (Err ErrDashboardFolderCannotHaveParent) else
    if IsFolder dash && EqualFold env (Title dash) (RootFolderName env)
    then ret (Err ErrDashboardFolderNameExists) else
    if negb (IsValidShortUID env (Uid dash)) then ret (Err ErrDashboardInvalidUid)
    else if Nat.ltb 40 (String.length (Uid dash)) then ret (Err ErrDashboardUidToLong)
    else
    do err <-
      (if validateAlerts
       then Dispatch (ValidateDashboardAlertsCommand (dto_OrgId dto) dash (dto_User dto))
              (bus_ValidateDashboardAlerts env (dto_OrgId dto) dash (dto_User dto))
       else ret None);
    match err with Some err => ret (Err err) | None =>
    try validateBeforeSaveResult <-
      Dispatch (ValidateDashboardBeforeSaveCommand (dto_OrgId dto) dash (dto_Overwrite dto))
        (bus_ValidateDashboardBeforeSave env (dto_OrgId dto) dash (dto_Overwrite dto));
    match validateBeforeSaveResult with
    | None => panic
    | Some result =>
    do err <-
      (if IsParentFolderChanged result then
         do '(canSave, err) <- CanSave (FolderId dash) (dto_OrgId dto) (dto_User dto);
         match err with
         | Some err => ret (Some err)
         | None => if negb canSave then ret (Some ErrDashboardUpdateAccessDenied)
                   else ret None
         end
       else ret None);
    match err with Some err => ret (Err err) | None =>
    do err <-
      (if validateProvisionedDashboard then
         do provisionedData <- GetProvisionedDashboardDataByDashboardId (Id dash);
         match provisionedData with
         | Err err => ret (Some err)
         | Val (Some _) => ret (Some ErrDashboardCannotSaveProvisionedDashboard)
         | Val None => ret None
         end
       else ret None);
    match err with Some err => ret (Err err) | None =>
    do '(canSave, err) <-
      CanSave (GetDashboardIdForSavePermissionCheck dash) (dto_OrgId dto) (dto_User dto);
    match err with Some err => ret (Err err) | None =>
    if negb canSave then ret (Err ErrDashboardUpdateAccessDenied) else
    match dto_User dto with
    | None => panic
    | Some user =>
    let cmd := {|
      cmd_Dashboard := Data dash;
      cmd_Message := dto_Message dto;
      cmd_OrgId := dto_OrgId dto;
      cmd_Overwrite := dto_Overwrite dto;
      cmd_UserId := UserId user;
      cmd_FolderId := FolderId dash;
      cmd_IsFolder := IsFolder dash;
      cmd_PluginId := PluginId dash;
      cmd_UpdatedAt := 0%Z;
      cmd_Result := None |} in
    let cmd := if negb (IsZero (dto_UpdatedAt dto))
               then withUpdatedAt cmd (dto_UpdatedAt dto) else cmd in
    ret (Val cmd)
    end end end end end end);
  ret (dash, r)
  end.

Definition updateAlerting (cmd : SaveDashboardCommand) (dto : SaveDashboardDTO)
    : M (option error) :=
  Dispatch (UpdateDashboardAlertsCommand (dto_OrgId dto) (cmd_Result cmd) (dto_User dto))
    (bus_UpdateDashboardAlerts env (dto_OrgId dto) (cmd_Result cmd) (dto_User dto)).

(** [SaveProvisionedDashboard].  [dto] is a pointer and the first
    statement assigns [dto.User]: the result pairs the request as the call
    leaves it, the new user and the dashboard as the build left it, with the
    returned values. *)
Definition SaveProvisionedDashboard (dto : SaveDashboardDTO)
    (provisioning : DashboardProvisioning)
    : M (SaveDashboardDTO * res (option Dashboard)) :=
  let dto := withUser dto (Some {|
    UserId := 0; OrgRole := ROLE_ADMIN; user_OrgId := dto_OrgId dto;
    Token := ""; AuthModule := "" |}) in
  do '(dash, r) <- buildSaveDashboardCommand dto true false;
  let dto := requestAfter dto dash in
  do r <-
   (match r with Err err => ret (Err err) | Val cmd =>
    (* dashboard *)
    try result <- Dispatch (SaveProvisionedDashboardCommand cmd provisioning)
                    (bus_SaveProvisionedDashboard env cmd provisioning);
    let cmd := withResult cmd result in
    (* alerts *)
    do err <- updateAlerting cmd dto;
    match err with Some err => ret (Err err) | None =>
    ret (Val (cmd_Result cmd))
    end end);
  ret (dto, r).

(** [SaveFolderForProvisionedDashboards], with the request as the call
    leaves it. *)
Definition SaveFolderForProvisionedDashboards (dto : SaveDashboardDTO)
    : M (SaveDashboardDTO * res (option Dashboard)) :=
  let dto := withUser dto (Some {|
    UserId := 0; OrgRole := ROLE_ADMIN; user_OrgId := 0;
    Token := ""; AuthModule := "" |}) in
  do '(dash, r) <- buildSaveDashboardCommand dto false false;
  let dto := requestAfter dto dash in
  do r <-
   (match r with Err err => ret (Err err) | Val cmd =>
    try result <- Dispatch (SaveDashboardCmd cmd) (bus_SaveDashboard env cmd);
    let cmd := withResult cmd result in
    do err <- updateAlerting cmd dto;
    match err with Some err => ret (Err err) | None =>
    ret (Val (cmd_Result cmd))
    end end);
  ret (dto, r).

Definition getPreviousDashboard (newDashboard : Dashboard) : M (option Dashboard) :=
  if Z.eqb (Version newDashboard) 0 then ret None else
  do r <- Dispatch (GetDashboardQuery (Id newDashboard))
            (bus_GetDashboard env (Id newDashboard));
  match r with
  | Err _ => ret None
  | Val result => ret result
  end.

Definition getDashboardFolder (dashboard : Dashboard) : M string :=
  if Z.eqb (FolderId dashboard) 0 then ret "General" else
  do r <- Dispatch (GetDashboardQuery (FolderId dashboard))
            (bus_GetDashboard env (FolderId dashboard));
  match r with
  | Err _ => ret "unknown"
  | Val None => panic
  | Val (Some folder) => ret (Title folder)
  end.

Definition updateDashboard (dashboard : Dashboard) (action : social.DashboardAction)
    (user : SignedInUser) (message : string) : M (option error) :=
  let authModule := AuthModule user in
  let connect := SocialMap env !! authModule in
  match json_MarshalIndent env (Data dashboard) with
  | Err err => ret (Some err)
  | Val dashboardModel =>
      do folderName <- getDashboardFolder dashboard;
      let updateOptions := {|
        social.opt_Dashboard := dashboardModel;
        social.opt_Message := message;
        social.opt_OrgId := dash_OrgId dashboard;
        social.opt_Action := action;
        social.opt_Title := Title dashboard;
        social.opt_Folder := folderName;
        social.opt_Name := Slug dashboard |} in
      match connect with
      | None => panic
      | Some connect =>
          do _ <- emit (EvMirror updateOptions (Token user));
          callSocial (social.conn_UpdateDashboard connect updateOptions (Token user))
      end
  end.

(** [SaveDashboard]: after the build, [dto.Dashboard] is the dashboard the
    build left behind. *)
Definition SaveDashboard (dto : SaveDashboardDTO) : M (res (option Dashboard)) :=
  do '(dash, r) <- buildSaveDashboardCommand dto true true;
  match r with Err err => ret (Err err) | Val cmd =>
  match dto_User dto with
  | None => panic
  | Some user =>
  do err <-
    (if negb (String.eqb (Token user) "") then
       let newDashboard := dash in
       do previousDashboard <- getPreviousDashboard newDashboard;
       match previousDashboard with
       | Some previousDashboard =>
           if negb (Z.eqb (FolderId previousDashboard) (FolderId dash)) then
             do _ <- updateDashboard previousDashboard social.DeleteDashboard user "";
             updateDashboard newDashboard social.CreateDashboard user ""
           else
             updateDashboard newDashboard social.UpdateDashboard user (dto_Message dto)
       | None => updateDashboard newDashboard social.CreateDashboard user ""
       end
     else ret None);
  match err with Some err => ret (Err err) | None =>
  try result <- Dispatch (SaveDashboardCmd cmd) (bus_SaveDashboard env cmd);
  let cmd := withResult cmd result in
  do err <- updateAlerting cmd dto;
  match err with Some err => ret (Err err) | None =>
  ret (Val (cmd_Result cmd))
  end end end end.

Definition deleteDashboard (dashboardId orgId : Z)
    (validateProvisionedDashboard : bool) : M (option error) :=
  do err <-
    (if validateProvisionedDashboard then
       do provisionedData <- GetProvisionedDashboardDataByDashboardId dashboardId;
       match provisionedData with
       | Err err => ret (Some (ErrWrap "failed to check if dashboard is provisioned" err))
       | Val (Some _) => ret (Some ErrDashboardCannotDeleteProvisionedDashboard)
       | Val None => ret None
       end
     else ret None);
  match err with Some err => ret (Some err) | None =>
  Dispatch (DeleteDashboardCommand orgId dashboardId)
    (bus_DeleteDashboard env orgId dashboardId)
  end.

Definition DeleteDashboard (dashboardId orgId : Z) : M (option error) :=
  deleteDashboard dashboardId orgId true.

Definition DeleteProvisionedDashboard (dashboardId orgId : Z) : M (option error) :=
  deleteDashboard dashboardId orgId false.

Definition ImportDashboard (dto : SaveDashboardDTO) : M (res (option Dashboard)) :=
  do '(dash, r) <- buildSaveDashboardCommand dto false true;
  match r with Err err => ret (Err err) | Val cmd =>
  match dto_User dto with
  | None => panic
  | Some user =>
  do err <-
    (if negb (String.eqb (Token user) "") then
       let newDashboard := dash in
       updateDashboard newDashboard social.CreateDashboard user (dto_Message dto)
     else ret (Some ErrDashboardGitlabSync));
  match err with Some err => ret (Err err) | None =>
  try result <- Dispatch (SaveDashboardCmd cmd) (bus_SaveDashboard env cmd);
  let cmd := withResult cmd result in
  ret (Val (cmd_Result cmd))
  end end end.

Definition UnprovisionDashboard (dashboardId : Z) : M (option error) :=
  Dispatch (UnprovisionDashboardCommand dashboardId)
    (bus_UnprovisionDashboard env dashboardId).

End Service.

(** *** Vocabulary of the properties *)

(** The event hands a save to the persistence layer. *)
Definition isPersist (e : Event) : bool :=
  match e with
  | EvDispatch (SaveDashboardCmd _) => true
  | EvDispatch (SaveProvisionedDashboardCommand _ _) => true
  | _ => false
  end.

(** The mirror operation an event stands for, if any. *)
Definition mirrorOf (e : Event) : option (social.UpdateDashboardOptions * string) :=
  match e with
  | EvMirror options token => Some (options, token)
  | _ => None
  end.


(** The events a command build can leave: the two validations, the
    provisioning lookup and the guardian checks, all for the request's org
    and acting user. *)
Definition buildEvent (dto : SaveDashboardDTO) (e : Event) : Prop :=
  match e with
  | EvDispatch (ValidateDashboardAlertsCommand orgId _ user) =>
      orgId = dto_OrgId dto /\ user = dto_User dto
  | EvDispatch (ValidateDashboardBeforeSaveCommand orgId _ _) =>
      orgId = dto_OrgId dto
  | EvDispatch (GetProvisionedDashboardDataByIdQuery _) => True
  | EvGuardian _ orgId user => orgId = dto_OrgId dto /\ user = dto_User dto
  | _ => False
  end.

(** What a successful build guarantees about the dashboard it leaves behind
    and the command it returns. *)
Definition built {S} (env : Collaborators S) (dto : SaveDashboardDTO)
    (dash' : Dashboard) (cmd : SaveDashboardCommand) : Prop :=
  exists dash user,
    dto_Dashboard dto = Some dash /\ dto_User dto = Some user /\
    Title dash' = strings.TrimSpace (Title dash) /\
    Uid dash' = strings.TrimSpace (Uid dash) /\
    Data dash' !! "title" = Some (JString (Title dash')) /\
    Title dash' <> "" /\
    IsValidShortUID env (Uid dash') = true /\
    (String.length (Uid dash') <= 40)%nat /\
    FolderId dash' = FolderId dash /\ Version dash' = Version dash /\
    Id dash' = Id dash /\ Slug dash' = Slug dash /\
    cmd_Dashboard cmd = Data dash' /\
    cmd_UserId cmd = UserId user /\
    cmd_Result cmd = None.

(** The user every collaborator of a run sees: the validations, the guardian
    and the alert update receive [user], a dispatched save carries its id,
    and no mirror operation happens. *)
Definition actsAs (user : SignedInUser) (e : Event) : Prop :=
  match e with
  | EvDispatch (ValidateDashboardAlertsCommand _ _ u) => u = Some user
  | EvDispatch (UpdateDashboardAlertsCommand _ _ u) => u = Some user
  | EvGuardian _ _ u => u = Some user
  | EvDispatch (SaveDashboardCmd cmd) => cmd_UserId cmd = UserId user
  | EvDispatch (SaveProvisionedDashboardCommand cmd _) => cmd_UserId cmd = UserId user
  | EvMirror _ _ => False
  | _ => True
  end.




(** Events that neither persist nor mirror anything. *)
Definition quiet (e : Event) : Prop := isPersist e = false /\ mirrorOf e = None.

(** The synthetic admin of the provisioning paths. *)
Definition syntheticAdmin (orgId : Z) : SignedInUser :=
  {| UserId := 0; OrgRole := ROLE_ADMIN; user_OrgId := orgId;
     Token := ""; AuthModule := "" |}.

Section Steps.
Context {S : Type} (env : Collaborators S).

(** What [SaveDashboard] does once the mirror step has answered [err]. *)
Definition saveTail (dto : SaveDashboardDTO) (cmd : SaveDashboardCommand)
    (err : option error) : M (res (option Dashboard)) :=
  match err with Some err => ret (Err err) | None =>
  try result <- Dispatch (SaveDashboardCmd cmd) (bus_SaveDashboard env cmd);
  let cmd := withResult cmd result in
  do err <- updateAlerting env cmd dto;
  match err with Some err => ret (Err err) | None =>
  ret (Val (cmd_Result cmd))
  end end.

(** The mirror step of [SaveDashboard], given the previous version. *)
Definition mirrorStep (dto : SaveDashboardDTO) (dash : Dashboard)
    (user : SignedInUser) (previousDashboard : option Dashboard)
    : M (option error) :=
  match previousDashboard with
  | Some previousDashboard =>
      if negb (Z.eqb (FolderId previousDashboard) (FolderId dash)) then
        do _ <- updateDashboard env previousDashboard social.DeleteDashboard user "";
        updateDashboard env dash social.CreateDashboard user ""
      else
        updateDashboard env dash social.UpdateDashboard user (dto_Message dto)
  | None => updateDashboard env dash social.CreateDashboard user ""
  end.

End Steps.

End dashboards.

(** ** pkg/login/social, continued: [UserInfo] of the GitLab connector *)

Module userinfo.
Import social.

(** social.go *)
Record BasicUserInfo : Type := {
  bui_Id : string;
  bui_Name : string;
  bui_Email : string;
  bui_Login : string;
  bui_Company : string;
  bui_Role : string;
  bui_Groups : list string
}.

(** The anonymous struct [UserInfo] decodes the current user into. *)
Record UserData : Type := {
  data_Id : Z;
  data_Username : string;
  data_Email : string;
  data_Name : string;
  data_State : string
}.

(** [fmt.Sprintf("%d", n)] *)
Definition Sprintf_d (n : Z) : string :=
  DecimalString.NilZero.string_of_int (Z.to_int n).

Section UserInfo.
Context {S : Type} (remote : Remote S).
(** [json.Unmarshal] into the user struct, and the [Error()] method of the
    errors the collaborators return. *)
Variable json_Unmarshal_user : string -> res UserData.
Variable Error : error -> string.

(** [UserInfo].  The group listing runs on fuel as [GetGroups] does: [None]
    is fuel exhausted.  The [oauth2.Token] argument is not used by the body;
    the [http.Client] is part of the outside world. *)
Definition UserInfo (fuel : nat) (s : SocialGitlab)
    : Go S (option (res BasicUserInfo)) :=
  do response <- call (HttpGet remote (apiUrl s +:+ "/user"));
  match response with
  | Err err =>
      ret (Some (Err (ErrExternal ("Error getting user info: " +:+ Error err))))
  | Val response =>
      match json_Unmarshal_user (Body response) with
      | Err err =>
          ret (Some (Err (ErrExternal ("Error getting user info: " +:+ Error err))))
      | Val data =>
          if negb (String.eqb (data_State data) "active") then
            ret (Some (Err (ErrExternal
                   ("User " +:+ data_Username data +:+ " is inactive"))))
          else
          do groups <- GetGroups remote fuel s;
          match groups with
          | None => ret None
          | Some groups =>
              let userInfo := {|
                bui_Id := Sprintf_d (data_Id data);
                bui_Name := data_Name data;
                bui_Login := data_Username data;
                bui_Email := data_Email data;
                bui_Company := "";
                bui_Role := "";
                bui_Groups := groups |} in
              if negb (IsGroupMember s groups)
              then ret (Some (Err ErrMissingGroupMembership))
              else ret (Some (Val userInfo))
          end
      end
  end.

End UserInfo.

End userinfo.

(** ** pkg/login/social, continued: the provider registry of social.go *)

Module registry.
Import social.

(** [strings.TrimSuffix] *)
Definition TrimSuffix (s suffix : string) : string :=
  let l := list_ascii_of_string s in
  let x := list_ascii_of_string suffix in
  let n := (length l - length x)%nat in
  if Nat.leb (length x) (length l) && bool_decide (drop n l = x)
  then string_of_list_ascii (take n l) else s.

Definition grafanaCom : string := "grafana_com".

(** The package variables [SocialBaseUrl] and [allOauthes] as initialised;
    nothing in the three files assigns them. *)
Definition SocialBaseUrl : string := "/login/".
Definition allOauthes : list string :=
  ["github"; "gitlab"; "google"; "generic_oauth"; "grafananet"; grafanaCom].

(** Modelled from the spec: the settings package and the ini file behind it
    are not among the three files.  Section 6 lists the configuration values
    consumed.  A section maps a key to its raw string, the empty string for a
    missing key; [Section] can answer nil.  How a raw string reads as a bool
    or as numbers, and how [util.SplitString] splits, is taken as it comes. *)
Definition IniSection : Type := string -> string.

Record File : Type := {
  Section_ : string -> option IniSection;
  ChildSections : string -> list IniSection
}.

Record Ini : Type := {
  MustBool : string -> bool;
  Ints : string -> list Z;
  Int64 : string -> Z;
  Int : string -> Z;
  SplitString : string -> list string
}.

(** [Key(k).MustString(def)] *)
Definition MustString (raw def : string) : string :=
  if String.eqb raw "" then def else raw.

Record Settings : Type := {
  Raw : File;
  AppUrl : string;
  GrafanaComUrl : string
}.

Record Cfg : Type := { cfg_Raw : option File }.

(** [setting.OAuthInfo] *)
Record OAuthInfo : Type := {
  ClientId : string;
  ClientSecret : string;
  Scopes : list string;
  AuthUrl : string;
  TokenUrl : string;
  ApiUrl : string;
  Enabled : bool;
  EmailAttributeName : string;
  EmailAttributePath : string;
  AllowedDomains : list string;
  HostedDomain : string;
  AllowSignup : bool;
  Name : string;
  TlsClientCert : string;
  TlsClientKey : string;
  TlsClientCa : string;
  TlsSkipVerify : bool;
  SendClientCredentialsViaPost : bool
}.

(** [oauth2.Config] with its [Endpoint] flattened. *)
Record Config : Type := {
  cfg_ClientID : string;
  cfg_ClientSecret : string;
  cfg_AuthURL : string;
  cfg_TokenURL : string;
  cfg_RedirectURL : string;
  cfg_Scopes : list string
}.

(** [SocialBase]; the logger is known by its name. *)
Record SocialBase : Type := {
  base_Config : Config;
  base_log : string
}.

(** The connectors [NewOAuthService] builds, with the fields it sets. *)
Inductive Connector : Type :=
| Github (base : SocialBase) (allowedDomains : list string) (apiUrl : string)
    (allowSignup : bool) (teamIds : list Z) (allowedOrganizations : list string)
| Gitlab (base : SocialBase) (connector : SocialGitlab)
| Google (base : SocialBase) (allowedDomains : list string)
    (hostedDomain apiUrl : string) (allowSignup : bool)
| GenericOAuth (base : SocialBase) (allowedDomains : list string) (apiUrl : string)
    (allowSignup : bool) (emailAttributeName emailAttributePath : string)
    (teamIds : list Z) (allowedOrganizations : list string)
| GrafanaCom (base : SocialBase) (url : string) (allowSignup : bool)
    (allowedOrganizations : list string).

(** The package-level state [NewOAuthService] writes: [SocialMap],
    [setting.OAuthService.OAuthInfos], and the token URLs handed to
    [oauth2.RegisterBrokenAuthHeaderProvider]. *)
Record Globals : Type := {
  SocialMap : gmap string Connector;
  OAuthInfos : gmap string OAuthInfo;
  brokenAuthHeaderProviders : list string
}.

Definition setSocial (g : Globals) (name : string) (c : Connector) : Globals :=
  {| SocialMap := <[name := c]> (SocialMap g); OAuthInfos := OAuthInfos g;
     brokenAuthHeaderProviders := brokenAuthHeaderProviders g |}.

Definition setInfo (g : Globals) (name : string) (info : OAuthInfo) : Globals :=
  {| SocialMap := SocialMap g; OAuthInfos := <[name := info]> (OAuthInfos g);
     brokenAuthHeaderProviders := brokenAuthHeaderProviders g |}.

Definition registerBroken (g : Globals) (tokenURL : string) : Globals :=
  {| SocialMap := SocialMap g; OAuthInfos := OAuthInfos g;
     brokenAuthHeaderProviders := brokenAuthHeaderProviders g ++ [tokenURL] |}.

Section Registry.
Context (ini : Ini) (st : Settings).

(** The [setting.OAuthInfo] literal read from a section. *)
Definition readInfo (name : string) (sec : IniSection) : OAuthInfo :=
  {| ClientId := sec "client_id";
     ClientSecret := sec "client_secret";
     Scopes := SplitString ini (sec "scopes");
     AuthUrl := sec "auth_url";
     TokenUrl := sec "token_url";
     ApiUrl := sec "api_url";
     Enabled := MustBool ini (sec "enabled");
     EmailAttributeName := sec "email_attribute_name";
     EmailAttributePath := sec "email_attribute_path";
     AllowedDomains := SplitString ini (sec "allowed_domains");
     HostedDomain := sec "hosted_domain";
     AllowSignup := MustBool ini (sec "allow_sign_up");
     Name := MustString (sec "name") name;
     TlsClientCert := sec "tls_client_cert";
     TlsClientKey := sec "tls_client_key";
     TlsClientCa := sec "tls_client_ca";
     TlsSkipVerify := MustBool ini (sec "tls_skip_verify_insecure");
     SendClientCredentialsViaPost :=
       MustBool ini (sec "send_client_credentials_via_post") |}.

(** The [GrafanaGitlabRepo] literal read from a child section. *)
Definition readRepo (repoSetting : IniSection) : GrafanaGitlabRepo :=
  let org_id := Int64 ini (repoSetting "org_id") in
  let repo_id := Int ini (repoSetting "repo_id") in
  {| repo_Branch := repoSetting "branch";
     repo_OrgId := org_id;
     repo_RepoId := repo_id;
     repo_DashboardsPath := repoSetting "dashboards_path";
     repo_Url := repoSetting "url" |}.

(** One turn of the loop of [NewOAuthService]. *)
Definition registerProvider (name : string) (g : Globals) : outcome Globals :=
  match Section_ (Raw st) ("auth." +:+ name) with
  | None => Panic
  | Some sec =>
  let info := readInfo name sec in
  if negb (Enabled info) then Done g else
  let g := if SendClientCredentialsViaPost info
           then registerBroken g (TokenUrl info) else g in
  let name := if String.eqb name "grafananet" then grafanaCom else name in
  let g := setInfo g name info in
  let config := {|
    cfg_ClientID := ClientId info;
    cfg_ClientSecret := ClientSecret info;
    cfg_AuthURL := AuthUrl info;
    cfg_TokenURL := TokenUrl info;
    cfg_RedirectURL := TrimSuffix (AppUrl st) "/" +:+ SocialBaseUrl +:+ name;
    cfg_Scopes := Scopes info |} in
  let logger := "oauth." +:+ name in
  let base := {| base_Config := config; base_log := logger |} in
  (* GitHub. *)
  let g := if String.eqb name "github" then
    setSocial g "github"
      (Github base (AllowedDomains info) (ApiUrl info) (AllowSignup info)
         (Ints ini (sec "team_ids"))
         (SplitString ini (sec "allowed_organizations")))
    else g in
  (* GitLab. *)
  let g := if String.eqb name "gitlab" then
    let reposSettings := ChildSections (Raw st) ("auth." +:+ name +:+ ".repo") in
    let repos := map readRepo reposSettings in
    setSocial g "gitlab"
      (Gitlab base
         {| allowedDomains := AllowedDomains info;
            apiUrl := ApiUrl info;
            allowSignup := AllowSignup info;
            allowedGroups := SplitString ini (sec "allowed_groups");
            repos := repos |})
    else g in
  (* Google. *)
  let g := if String.eqb name "google" then
    setSocial g "google"
      (Google base (AllowedDomains info) (HostedDomain info) (ApiUrl info)
         (AllowSignup info))
    else g in
  (* Generic - Uses the same scheme as Github. *)
  let g := if String.eqb name "generic_oauth" then
    setSocial g "generic_oauth"
      (GenericOAuth base (AllowedDomains info) (ApiUrl info) (AllowSignup info)
         (EmailAttributeName info) (EmailAttributePath info)
         (Ints ini (sec "team_ids"))
         (SplitString ini (sec "allowed_organizations")))
    else g in
  let g := if String.eqb name grafanaCom then
    let config := {|
      cfg_ClientID := ClientId info;
      cfg_ClientSecret := ClientSecret info;
      cfg_AuthURL := GrafanaComUrl st +:+ "/oauth2/authorize";
      cfg_TokenURL := GrafanaComUrl st +:+ "/api/oauth2/token";
      cfg_RedirectURL := TrimSuffix (AppUrl st) "/" +:+ SocialBaseUrl +:+ name;
      cfg_Scopes := Scopes info |} in
    setSocial g grafanaCom
      (GrafanaCom {| base_Config := config; base_log := logger |}
         (GrafanaComUrl st) (AllowSignup info)
         (SplitString ini (sec "allowed_organizations")))
    else g in
  Done g
  end.

Fixpoint registerAll (names : list string) (g : Globals) : outcome Globals :=
  match names with
  | [] => Done g
  | name :: names' =>
      match registerProvider name g with
      | Done g' => registerAll names' g'
      | Panic => Panic
      end
  end.

(** [NewOAuthService]: the infos start from a fresh map, [SocialMap] and the
    registered token URLs from what they were. *)
Definition NewOAuthService (g : Globals) : outcome Globals :=
  let g := {| SocialMap := SocialMap g; OAuthInfos := ∅;
              brokenAuthHeaderProviders := brokenAuthHeaderProviders g |} in
  registerAll allOauthes g.

End Registry.

(** [GetOAuthProviders] *)
Definition GetOAuthProviders (ini : Ini) (cfg : option Cfg) : gmap string bool :=
  let result : gmap string bool := ∅ in
  match cfg with
  | None => result
  | Some cfg =>
      match cfg_Raw cfg with
      | None => result
      | Some raw =>
          fold_left
            (fun result name =>
               let name := if String.eqb name "grafananet" then grafanaCom else name in
               match Section_ raw ("auth." +:+ name) with
               | None => result
               | Some sec => <[name := MustBool ini (sec "enabled")]> result
               end)
            allOauthes result
      end
  end.

End registry.

(** ** pkg/services/dashboards, continued: [FakeDashboardService] *)

Module fake.
Import models dashboards.

Record FakeDashboardService : Type := {
  SaveDashboardResult : option Dashboard;
  SaveDashboardError : option error;
  SavedDashboards : list SaveDashboardDTO
}.

(** [SaveDashboard]: the receiver as the call leaves it, and the two
    returned values.  The request is a non-nil pointer; its dashboard may be
    nil. *)
Definition SaveDashboard (s : FakeDashboardService) (dto : SaveDashboardDTO)
    : FakeDashboardService * (option Dashboard * option error) :=
  let s := {| SaveDashboardResult := SaveDashboardResult s;
              SaveDashboardError := SaveDashboardError s;
              SavedDashboards := SavedDashboards s ++ [dto] |} in
  let s :=
    match SaveDashboardResult s, SaveDashboardError s with
    | None, None =>
        {| SaveDashboardResult := dto_Dashboard dto;
           SaveDashboardError := SaveDashboardError s;
           SavedDashboards := SavedDashboards s |}
    | _, _ => s
    end in
  (s, (SaveDashboardResult s, SaveDashboardError s)).

Definition ImportDashboard (s : FakeDashboardService) (dto : SaveDashboardDTO)
    : FakeDashboardService * (option Dashboard * option error) :=
  SaveDashboard s dto.

(** The index at which the loop of [DeleteDashboard] breaks, if it does;
    reading the id of an entry without dashboard panics. *)
Fixpoint findSaved (saved : list SaveDashboardDTO) (index : nat)
    (dashboardId orgId : Z) : outcome (option nat) :=
  match saved with
  | [] => Done None
  | dash :: saved' =>
      match dto_Dashboard dash with
      | None => Panic
      | Some d =>
          if Z.eqb (Id d) dashboardId && Z.eqb (dto_OrgId dash) orgId
          then Done (Some index)
          else findSaved saved' (Datatypes.S index) dashboardId orgId
      end
  end.

Definition DeleteDashboard (s : FakeDashboardService) (dashboardId orgId : Z)
    : outcome (FakeDashboardService * option error) :=
  match findSaved (SavedDashboards s) 0 dashboardId orgId with
  | Panic => Panic
  | Done None => Done (s, None)
  | Done (Some index) =>
      Done ({| SaveDashboardResult := SaveDashboardResult s;
               SaveDashboardError := SaveDashboardError s;
               SavedDashboards :=
                 take index (SavedDashboards s)
                 ++ drop (Datatypes.S index) (SavedDashboards s) |}, None)
  end.

End fake.

(** ** Vocabulary of the further properties *)

Module more.
Import social models dashboards.

(** The options with another caller message. *)
Definition withMessage (options : UpdateDashboardOptions) (message : string)
    : UpdateDashboardOptions :=
  {| opt_Action := opt_Action options; opt_Message := message;
     opt_Title := opt_Title options; opt_Name := opt_Name options;
     opt_Dashboard := opt_Dashboard options; opt_Folder := opt_Folder options;
     opt_OrgId := opt_OrgId options |}.

(** The request with another dashboard. *)
Definition withDashboard (dto : SaveDashboardDTO) (dash : Dashboard)
    : SaveDashboardDTO :=
  {| dto_OrgId := dto_OrgId dto; dto_UpdatedAt := dto_UpdatedAt dto;
     dto_User := dto_User dto; dto_Message := dto_Message dto;
     dto_Overwrite := dto_Overwrite dto; dto_Dashboard := Some dash |}.

(** The dashboard as the first three statements of
    [buildSaveDashboardCommand] leave it. *)
Definition normalized (dash : Dashboard) : Dashboard :=
  SetUid
    (withData (withTitle dash (strings.TrimSpace (Title dash)))
       (Json_Set "title" (JString (strings.TrimSpace (Title dash))) (Data dash)))
    (strings.TrimSpace (Uid dash)).

(** The event is a dispatch of the provisioning lookup. *)
Definition isProvisioningLookup (e : Event) : bool :=
  match e with
  | EvDispatch (GetProvisionedDashboardDataByIdQuery _) => true
  | _ => false
  end.

(** The event is a dispatch of a dashboard lookup. *)
Definition isDashboardLookup (e : Event) : bool :=
  match e with
  | EvDispatch (GetDashboardQuery _) => true
  | _ => false
  end.

(** The event is an alert validation or an alert update. *)
Definition isAlerting (e : Event) : bool :=
  match e with
  | EvDispatch (ValidateDashboardAlertsCommand _ _ _) => true
  | EvDispatch (UpdateDashboardAlertsCommand _ _ _) => true
  | _ => false
  end.

(** The names a connector can be registered under. *)
Definition providerNames : gset string :=
  {[ "github"; "gitlab"; "google"; "generic_oauth"; "grafana_com" ]}.

(** The key a name of [allOauthes] is registered under. *)
Definition registeredAs (name : string) : string :=
  if String.eqb name "grafananet" then registry.grafanaCom else name.

(** A saved request is the one [DeleteDashboard] of the fake looks for. *)
Definition savedAs (dashboardId orgId : Z) (dto : SaveDashboardDTO) : Prop :=
  exists d, dto_Dashboard dto = Some d /\ Id d = dashboardId /\ dto_OrgId dto = orgId.

(** A saved request has a dashboard, and is not the one looked for. *)
Definition savedOther (dashboardId orgId : Z) (dto : SaveDashboardDTO) : Prop :=
  exists d, dto_Dashboard dto = Some d /\ ~ (Id d = dashboardId /\ dto_OrgId dto = orgId).

End more.

(** ** A concrete installation

    One GitLab connector with a repository for org 1, a server that hands
    out the groups in three pages, and a bus with a stored dashboard 5 in the
    General folder, a folder 7 and a provisioned dashboard 9.  The outside
    world is the list of commit messages GitLab has accepted; GitLab refuses
    to delete a file. *)

Module Scenario.
Import models dashboards social.

Definition Outside : Type := list string.

Definition groupsUrl : string := "https://gitlab.example/api/v4/groups".
Definition page2 : string := "https://gitlab.example/api/v4/groups?page=2".
Definition page3 : string := "https://gitlab.example/api/v4/groups?page=3".

Definition server (url : string) (st : Outside) : res HttpGetResponse * Outside :=
  if String.eqb url groupsUrl then
    (Val {| Body := "page 1";
            Headers := {[ "Link" := [regexp.linkNext page2] ]} |}, st)
  else if String.eqb url page2 then
    (Val {| Body := "page 2";
            Headers := {[ "Link" := [regexp.linkNext page3 +:+ ", <"
                                     +:+ groupsUrl +:+ ">; rel=first"] ]} |}, st)
  else if String.eqb url page3 then
    (Val {| Body := "page 3"; Headers := ∅ |}, st)
  else (Err (ErrExternal "404 Not Found"), st).

Definition parse (body : string) : res (list Group) :=
  if String.eqb body "page 1"
  then Val [ {| FullPath := "ops" |}; {| FullPath := "ops/infra" |} ]
  else if String.eqb body "page 2" then Val [ {| FullPath := "dev" |} ]
  else if String.eqb body "page 3" then Val [ {| FullPath := "ops" |} ]
  else Err (ErrExternal "invalid character").

Definition commit (url token : string) (repoId : Z) (c : CreateCommitOptions)
    (st : Outside) : option error * Outside :=
  if existsb (fun a => match ca_Action a with FileDelete => true | _ => false end)
       (cc_Actions c)
  then (Some (ErrExternal "400 A file with this name does not exist"), st)
  else (None, st ++ [cc_CommitMessage c]).

Definition remote : Remote Outside :=
  {| HttpGet := server; CreateCommit := commit; json_Unmarshal := parse;
     path_Join := String.concat "/" |}.

Definition gitlab : SocialGitlab :=
  {| allowedDomains := []; allowedGroups := ["ops"];
     apiUrl := "https://gitlab.example/api/v4"; allowSignup := true;
     repos := [ {| repo_OrgId := 1; repo_RepoId := 42; repo_Branch := "master";
                   repo_DashboardsPath := "dashboards";
                   repo_Url := "https://gitlab.example/api/v4" |} ] |}.

(** A connector without an allow-list. *)
Definition openGitlab : SocialGitlab :=
  {| allowedDomains := []; allowedGroups := [];
     apiUrl := "https://gitlab.example/api/v4"; allowSignup := true;
     repos := [] |}.

Definition shortUIDChar (c : ascii) : bool :=
  let n := N_of_ascii c in
  (((48 <=? n) && (n <=? 57)) || ((65 <=? n) && (n <=? 90))
   || ((97 <=? n) && (n <=? 122)) || (n =? 45) || (n =? 95))%N.

Definition shortUID (s : string) : bool :=
  forallb shortUIDChar (list_ascii_of_string s).

Definition stored (id folderId version : Z) (title slug : string)
    (isFolder : bool) : Dashboard :=
  {| Id := id; Uid := slug; dash_OrgId := 1; Title := title; FolderId := folderId;
     IsFolder := isFolder; Version := version; PluginId := ""; Slug := slug;
     Data := {[ "title" := JString title ]} |}.

Definition previous : Dashboard := stored 5 0 1 "CPU" "cpu" false.
Definition folder : Dashboard := stored 7 0 1 "Ops" "ops" true.
Definition saved : Dashboard := stored 5 7 3 "CPU" "cpu" false.

Definition provisioning : DashboardProvisioning :=
  {| prov_DashboardId := 9; prov_Name := "default";
     prov_ExternalId := "/etc/dashboards/disk.json"; prov_CheckSum := "c0ffee" |}.

Definition env : Collaborators Outside :=
  {| bus_GetProvisionedDashboardData := fun _ st => (Val [provisioning], st);
     bus_GetProvisionedDashboardDataById := fun id st =>
       (Val (if Z.eqb id 9 then Some provisioning else None), st);
     bus_ValidateDashboardAlerts := fun _ _ _ st => (None, st);
     bus_ValidateDashboardBeforeSave := fun _ _ _ st =>
       (Val (Some {| IsParentFolderChanged := false |}), st);
     bus_SaveDashboard := fun _ st => (Val (Some saved), st);
     bus_SaveProvisionedDashboard := fun _ _ st => (Val (Some saved), st);
     bus_UpdateDashboardAlerts := fun _ _ _ st => (None, st);
     bus_DeleteDashboard := fun _ _ st => (None, st);
     bus_GetDashboard := fun id st =>
       (if Z.eqb id 5 then Val (Some previous)
        else if Z.eqb id 7 then Val (Some folder)
        else Err (ErrExternal "Dashboard not found"), st);
     bus_UnprovisionDashboard := fun _ st => (None, st);
     guardian_CanSave := fun _ _ _ st => ((true, None), st);
     IsValidShortUID := shortUID;
     EqualFold := String.eqb;
     RootFolderName := "General";
     json_MarshalIndent := fun _ => Val "{}";
     SocialMap := {[ "gitlab" := SocialGitlab_connector remote gitlab ]} |}.

(** An editor signed in through GitLab, one signed in through a module no
    connector is registered for, and one without external identity. *)
Definition editor : SignedInUser :=
  {| UserId := 3; user_OrgId := 1; OrgRole := "Editor";
     Token := "oauth-token"; AuthModule := "gitlab" |}.

Definition ldapEditor : SignedInUser :=
  {| UserId := 4; user_OrgId := 1; OrgRole := "Editor";
     Token := "ldap-token"; AuthModule := "ldap" |}.

Definition localEditor : SignedInUser :=
  {| UserId := 6; user_OrgId := 1; OrgRole := "Editor";
     Token := ""; AuthModule := "" |}.

Definition incoming (uid title : string) (folderId version : Z) : Dashboard :=
  {| Id := 5; Uid := uid; dash_OrgId := 1; Title := title; FolderId := folderId;
     IsFolder := false; Version := version; PluginId := ""; Slug := "cpu";
     Data := ∅ |}.

Definition request (user : SignedInUser) (dash : Dashboard) : SaveDashboardDTO :=
  {| dto_OrgId := 1; dto_UpdatedAt := 0%Z; dto_User := Some user;
     dto_Message := "move to Ops"; dto_Overwrite := false;
     dto_Dashboard := Some dash |}.

(** Dashboard 5, sent back with untrimmed title and uid, now in folder 7. *)
Definition moved : Dashboard := incoming " cpu-1 " " CPU " 7 2.

(** What a build of [request user moved] leaves behind. *)
Definition builtDashboard : Dashboard :=
  {| Id := 5; Uid := "cpu-1"; dash_OrgId := 1; Title := "CPU"; FolderId := 7;
     IsFolder := false; Version := 2; PluginId := ""; Slug := "cpu";
     Data := <[ "uid" := JString "cpu-1" ]> {[ "title" := JString "CPU" ]} |}.

Definition builtCommand (user : SignedInUser) : SaveDashboardCommand :=
  {| cmd_Dashboard := Data builtDashboard; cmd_Message := "move to Ops";
     cmd_OrgId := 1; cmd_Overwrite := false; cmd_UserId := UserId user;
     cmd_FolderId := 7; cmd_IsFolder := false; cmd_PluginId := "";
     cmd_UpdatedAt := 0%Z; cmd_Result := None |}.

Definition builtTrace (user : SignedInUser) (validateAlerts : bool) : list Event :=
  (if validateAlerts
   then [EvDispatch (ValidateDashboardAlertsCommand 1 builtDashboard (Some user))]
   else [])
  ++ [EvDispatch (ValidateDashboardBeforeSaveCommand 1 builtDashboard false);
      EvDispatch (GetProvisionedDashboardDataByIdQuery 5);
      EvGuardian 5 1 (Some user)].

Definition world0 : World Outside := {| outside := []; trace := [] |}.

Definition builtWorld (user : SignedInUser) (validateAlerts : bool) : World Outside :=
  {| outside := []; trace := builtTrace user validateAlerts |}.

(** The two mirror operations of the move, as the connector receives them. *)
Definition deleteOld : UpdateDashboardOptions :=
  {| opt_Action := DeleteDashboard; opt_Message := ""; opt_Title := "CPU";
     opt_Name := "cpu"; opt_Dashboard := "{}"; opt_Folder := "General";
     opt_OrgId := 1 |}.

Definition createNew : UpdateDashboardOptions :=
  {| opt_Action := CreateDashboard; opt_Message := ""; opt_Title := "CPU";
     opt_Name := "cpu"; opt_Dashboard := "{}"; opt_Folder := "Ops";
     opt_OrgId := 1 |}.

(** A mirror operation for org 2, which has no repository. *)
Definition createForOrg2 : UpdateDashboardOptions :=
  {| opt_Action := CreateDashboard; opt_Message := ""; opt_Title := "CPU";
     opt_Name := "cpu"; opt_Dashboard := "{}"; opt_Folder := "General";
     opt_OrgId := 2 |}.

End Scenario.

(** ** Further installations

    Variations of the installation above: connectors with several
    repositories, servers that answer for the current user, installations
    whose guardian refuses, whose dashboards are all provisioned, whose
    database is locked or whose repository is read-only, a configuration
    file, and a fake service with a history. *)

Module Cases.
Import models dashboards social Scenario.

(** *** The GitLab connector *)

Definition otherOrgRepo : GrafanaGitlabRepo :=
  {| repo_OrgId := 2; repo_RepoId := 41; repo_Branch := "master";
     repo_DashboardsPath := "dashboards"; repo_Url := "https://gitlab.example/api/v4" |}.

Definition mainRepo : GrafanaGitlabRepo :=
  {| repo_OrgId := 1; repo_RepoId := 42; repo_Branch := "master";
     repo_DashboardsPath := "dashboards"; repo_Url := "https://gitlab.example/api/v4" |}.

Definition shadowedRepo : GrafanaGitlabRepo :=
  {| repo_OrgId := 1; repo_RepoId := 43; repo_Branch := "backup";
     repo_DashboardsPath := "old"; repo_Url := "https://gitlab.example/api/v4" |}.

(** A connector with two mappings for org 1. *)
Definition twoRepos : SocialGitlab :=
  {| allowedDomains := []; allowedGroups := [];
     apiUrl := "https://gitlab.example/api/v4"; allowSignup := true;
     repos := [otherOrgRepo; mainRepo; shadowedRepo] |}.

(** A mirror operation whose action is none of the three constants. *)
Definition archive : UpdateDashboardOptions :=
  {| opt_Action := "archive"; opt_Message := "end of life"; opt_Title := "CPU";
     opt_Name := "cpu"; opt_Dashboard := "{}"; opt_Folder := "General";
     opt_OrgId := 1 |}.

(** The commit [createNew] becomes for org 1. *)
Definition createNewCommit : CreateCommitOptions :=
  {| cc_Branch := "master"; cc_CommitMessage := "Create CPU dashboard";
     cc_Actions := [ {| ca_Action := FileCreate; ca_Content := "{}";
                        ca_FilePath := "dashboards/Ops/cpu.json" |} ] |}.

(** The second page of the server, and a page whose [Link] header names no
    URL at all. *)
Definition secondPage : HttpGetResponse :=
  {| Body := "page 2";
     Headers := {[ "Link" := [regexp.linkNext page3 +:+ ", <"
                              +:+ groupsUrl +:+ ">; rel=first"] ]} |}.

Definition unlinkedPage : HttpGetResponse :=
  {| Body := "page 3"; Headers := {[ "Link" := ["rel=last"; regexp.linkNext page2] ]} |}.

(** A page that names itself as the next one. *)
Definition selfLinkedPage : HttpGetResponse :=
  {| Body := "page 1"; Headers := {[ "Link" := [regexp.linkNext groupsUrl] ]} |}.

(** A server that answers every request with the same response. *)
Definition fixedRemote (response : HttpGetResponse) : Remote Outside :=
  {| HttpGet := fun _ st => (Val response, st); CreateCommit := commit;
     json_Unmarshal := parse; path_Join := String.concat "/" |}.

(** A repository that accepts no commit. *)
Definition readOnlyRemote : Remote Outside :=
  {| HttpGet := server;
     CreateCommit := fun _ _ _ _ st => (Some (ErrExternal "403 Forbidden"), st);
     json_Unmarshal := parse; path_Join := String.concat "/" |}.

(** *** The current user *)

(** The production server knows user 3, the staging server a blocked user
    8, and the old server user 3 but no groups. *)
Definition userServer (url : string) (st : Outside) : res HttpGetResponse * Outside :=
  if String.eqb url "https://gitlab.example/api/v4/user" then
    (Val {| Body := "user 3"; Headers := ∅ |}, st)
  else if String.eqb url "https://staging.example/api/v4/user" then
    (Val {| Body := "user 8"; Headers := ∅ |}, st)
  else if String.eqb url "https://old.example/api/v3/user" then
    (Val {| Body := "user 3"; Headers := ∅ |}, st)
  else server url st.

Definition ann : userinfo.UserData :=
  {| userinfo.data_Id := 3; userinfo.data_Username := "ann";
     userinfo.data_Email := "ann@example.org"; userinfo.data_Name := "Ann";
     userinfo.data_State := "active" |}.

Definition bob : userinfo.UserData :=
  {| userinfo.data_Id := 8; userinfo.data_Username := "bob";
     userinfo.data_Email := "bob@example.org"; userinfo.data_Name := "Bob";
     userinfo.data_State := "blocked" |}.

Definition parseUser (body : string) : res userinfo.UserData :=
  if String.eqb body "user 3" then Val ann
  else if String.eqb body "user 8" then Val bob
  else Err (ErrExternal "invalid character").

Definition errorText (e : error) : string :=
  match e with
  | ErrExternal message => message
  | ErrWrap message _ => message
  | _ => "error"
  end.

Definition userRemote : Remote Outside :=
  {| HttpGet := userServer; CreateCommit := commit; json_Unmarshal := parse;
     path_Join := String.concat "/" |}.

Definition stagingGitlab : SocialGitlab :=
  {| allowedDomains := []; allowedGroups := ["ops"];
     apiUrl := "https://staging.example/api/v4"; allowSignup := true; repos := [] |}.

Definition oldGitlab : SocialGitlab :=
  {| allowedDomains := []; allowedGroups := ["ops"];
     apiUrl := "https://old.example/api/v3"; allowSignup := true; repos := [] |}.

Definition oldOpenGitlab : SocialGitlab :=
  {| allowedDomains := []; allowedGroups := [];
     apiUrl := "https://old.example/api/v3"; allowSignup := true; repos := [] |}.

(** What [UserInfo] answers for user 3 on the production server. *)
Definition annInfo : userinfo.BasicUserInfo :=
  {| userinfo.bui_Id := "3"; userinfo.bui_Name := "Ann";
     userinfo.bui_Email := "ann@example.org"; userinfo.bui_Login := "ann";
     userinfo.bui_Company := ""; userinfo.bui_Role := "";
     userinfo.bui_Groups := ["ops"; "ops/infra"; "dev"; "ops"] |}.

(** *** The fake service *)

Definition freshFake : fake.FakeDashboardService :=
  {| fake.SaveDashboardResult := None; fake.SaveDashboardError := None;
     fake.SavedDashboards := [] |}.

Definition usedFake : fake.FakeDashboardService :=
  {| fake.SaveDashboardResult := Some folder; fake.SaveDashboardError := None;
     fake.SavedDashboards :=
       [request editor folder; request editor previous; request ldapEditor previous] |}.

Definition disk : Dashboard := stored 11 0 1 "Disk" "disk" false.

(** *** The configuration file *)

Definition number (raw : string) : Z :=
  if String.eqb raw "1" then 1 else if String.eqb raw "42" then 42 else 0.

Definition ini : registry.Ini :=
  {| registry.MustBool := fun raw => String.eqb raw "true";
     registry.Ints := fun _ => [];
     registry.Int64 := number;
     registry.Int := number;
     registry.SplitString := fun raw => if String.eqb raw "" then [] else [raw] |}.

Definition gitlabSection : registry.IniSection :=
  fun key =>
    if String.eqb key "enabled" then "true"
    else if String.eqb key "allow_sign_up" then "true"
    else if String.eqb key "api_url" then "https://gitlab.example/api/v4"
    else if String.eqb key "allowed_groups" then "ops"
    else "".

Definition legacySection : registry.IniSection :=
  fun key => if String.eqb key "enabled" then "true" else "".

Definition emptySection : registry.IniSection := fun _ => "".

Definition repoSection : registry.IniSection :=
  fun key =>
    if String.eqb key "org_id" then "1"
    else if String.eqb key "repo_id" then "42"
    else if String.eqb key "branch" then "master"
    else if String.eqb key "dashboards_path" then "dashboards"
    else if String.eqb key "url" then "https://gitlab.example/api/v4"
    else "".

Definition sectionOf (name : string) : registry.IniSection :=
  if String.eqb name "auth.gitlab" then gitlabSection
  else if String.eqb name "auth.grafananet" then legacySection
  else emptySection.

(** [auth.gitlab] and the legacy [auth.grafananet] are enabled, the other
    four sections are there and empty. *)
Definition file : registry.File :=
  {| registry.Section_ := fun name => Some (sectionOf name);
     registry.ChildSections := fun name =>
       if String.eqb name "auth.gitlab.repo" then [repoSection] else [] |}.

Definition settings (appUrl : string) : registry.Settings :=
  {| registry.Raw := file; registry.AppUrl := appUrl;
     registry.GrafanaComUrl := "https://grafana.com" |}.

Definition noGlobals : registry.Globals :=
  {| registry.SocialMap := ∅; registry.OAuthInfos := ∅;
     registry.brokenAuthHeaderProviders := [] |}.

Definition oauthConfig (name authUrl tokenUrl : string) : registry.SocialBase :=
  {| registry.base_Config :=
       {| registry.cfg_ClientID := ""; registry.cfg_ClientSecret := "";
          registry.cfg_AuthURL := authUrl; registry.cfg_TokenURL := tokenUrl;
          registry.cfg_RedirectURL := "https://grafana.example/login/" +:+ name;
          registry.cfg_Scopes := [] |};
     registry.base_log := "oauth." +:+ name |}.

(** What [NewOAuthService] leaves behind for this file. *)
Definition registered : registry.Globals :=
  {| registry.SocialMap :=
       {[ "gitlab" :=
            registry.Gitlab (oauthConfig "gitlab" "" "")
              {| allowedDomains := []; allowedGroups := ["ops"];
                 apiUrl := "https://gitlab.example/api/v4"; allowSignup := true;
                 repos := [mainRepo] |};
          "grafana_com" :=
            registry.GrafanaCom
              (oauthConfig "grafana_com" "https://grafana.com/oauth2/authorize"
                 "https://grafana.com/api/oauth2/token")
              "https://grafana.com" false [] ]};
     registry.OAuthInfos :=
       {[ "gitlab" := registry.readInfo ini "gitlab" gitlabSection;
          "grafana_com" := registry.readInfo ini "grafananet" legacySection ]};
     registry.brokenAuthHeaderProviders := [] |}.

(** *** The dashboard service *)

(** The installation above with another repository behind the connector, a
    guardian that answers [canSave], every dashboard provisioned or not, and
    the database locked or not. *)
Definition installation (remote : Remote Outside)
    (canSave allProvisioned dbLocked : bool) : Collaborators Outside :=
  {| bus_GetProvisionedDashboardData := bus_GetProvisionedDashboardData env;
     bus_GetProvisionedDashboardDataById := fun id st =>
       if allProvisioned then (Val (Some provisioning), st)
       else bus_GetProvisionedDashboardDataById env id st;
     bus_ValidateDashboardAlerts := bus_ValidateDashboardAlerts env;
     bus_ValidateDashboardBeforeSave := bus_ValidateDashboardBeforeSave env;
     bus_SaveDashboard := fun cmd st =>
       if dbLocked then (Err (ErrExternal "database is locked"), st)
       else bus_SaveDashboard env cmd st;
     bus_SaveProvisionedDashboard := bus_SaveProvisionedDashboard env;
     bus_UpdateDashboardAlerts := bus_UpdateDashboardAlerts env;
     bus_DeleteDashboard := bus_DeleteDashboard env;
     bus_GetDashboard := bus_GetDashboard env;
     bus_UnprovisionDashboard := bus_UnprovisionDashboard env;
     guardian_CanSave := fun _ _ _ st => ((canSave, None), st);
     IsValidShortUID := shortUID;
     EqualFold := String.eqb;
     RootFolderName := "General";
     json_MarshalIndent := fun _ => Val "{}";
     SocialMap := {[ "gitlab" := SocialGitlab_connector remote gitlab ]} |}.

Definition denying : Collaborators Outside := installation remote false false false.
Definition allProvisioned : Collaborators Outside := installation remote true true false.
Definition lockedDb : Collaborators Outside := installation remote true false true.
Definition readOnly : Collaborators Outside := installation readOnlyRemote true false false.

(** A folder that names folder 7 as its parent, a dashboard without title,
    and a new dashboard for the General folder. *)
Definition teamFolder : Dashboard := stored 8 7 0 "Team" "team" true.
Definition untitled : Dashboard := incoming "cpu-1" "  " 0 0.
Definition brandNew : Dashboard := incoming "cpu-1" "CPU" 0 0.

(** What a build of [request user brandNew] leaves behind. *)
Definition brandNewCommand (user : SignedInUser) : SaveDashboardCommand :=
  {| cmd_Dashboard := Data (more.normalized brandNew); cmd_Message := "move to Ops";
     cmd_OrgId := 1; cmd_Overwrite := false; cmd_UserId := UserId user;
     cmd_FolderId := 0; cmd_IsFolder := false; cmd_PluginId := "";
     cmd_UpdatedAt := 0%Z; cmd_Result := None |}.

Definition brandNewTrace (user : SignedInUser) : list Event :=
  [EvDispatch (ValidateDashboardAlertsCommand 1 (more.normalized brandNew) (Some user));
   EvDispatch (ValidateDashboardBeforeSaveCommand 1 (more.normalized brandNew) false);
   EvDispatch (GetProvisionedDashboardDataByIdQuery 5);
   EvGuardian 5 1 (Some user)].






(** The mirror operations of a first save of [brandNew] and of an import of
    [moved]. *)
Definition createBrandNew : UpdateDashboardOptions :=
  {| opt_Action := CreateDashboard; opt_Message := ""; opt_Title := "CPU";
     opt_Name := "cpu"; opt_Dashboard := "{}"; opt_Folder := "General";
     opt_OrgId := 1 |}.

Definition importMoved : UpdateDashboardOptions :=
  {| opt_Action := CreateDashboard; opt_Message := "move to Ops"; opt_Title := "CPU";
     opt_Name := "cpu"; opt_Dashboard := "{}"; opt_Folder := "Ops";
     opt_OrgId := 1 |}.

End Cases.

(** * Properties *)

(** ** White-space trimming *)

Module StringsFacts.
Import strings.

Lemma trimWith_fixed p2 p3 s :
  startsWith p2 p3 s = false -> trimWith p2 p3 s = s.
Proof.
  destruct s as [|c1 [|c2 [|c3 r]]]; simpl; intros H;
    repeat (apply orb_false_elim in H; destruct H as [? H]);
    repeat match goal with E : _ = false |- _ => rewrite E; clear E end;
    reflexivity.
Qed.

Lemma trimWith_suffix p2 p3 s :
  exists x, s = x ++ trimWith p2 p3 s /\
            startsWith p2 p3 (trimWith p2 p3 s) = false.
Proof.
  remember (length s) as n eqn:Hn. revert s Hn.
  induction n as [n IH] using lt_wf_ind. intros s Hn.
  destruct s as [|c1 r1]; [exists []; split; reflexivity|].
  simpl trimWith. destruct (asciiSpace c1) eqn:E1.
  { destruct (IH (length r1)) with (s := r1) as (x & Hx & Hs);
      [simpl in Hn; lia | reflexivity |].
    exists (c1 :: x). split; [simpl; congruence | exact Hs]. }
  destruct r1 as [|c2 r2].
  { exists []. split; [reflexivity|]. simpl. rewrite E1. reflexivity. }
  destruct (p2 c1 c2) eqn:E2.
  { destruct (IH (length r2)) with (s := r2) as (x & Hx & Hs);
      [simpl in Hn; lia | reflexivity |].
    exists (c1 :: c2 :: x). split; [simpl; congruence | exact Hs]. }
  destruct r2 as [|c3 r3].
  { exists []. split; [reflexivity|]. simpl. rewrite E1, E2. reflexivity. }
  destruct (p3 c1 c2 c3) eqn:E3.
  { destruct (IH (length r3)) with (s := r3) as (x & Hx & Hs);
      [simpl in Hn; lia | reflexivity |].
    exists (c1 :: c2 :: c3 :: x). split; [simpl; congruence | exact Hs]. }
  exists []. split; [reflexivity|]. simpl. rewrite E1, E2, E3. reflexivity.
Qed.

Lemma trimWith_idem p2 p3 s :
  trimWith p2 p3 (trimWith p2 p3 s) = trimWith p2 p3 s.
Proof.
  destruct (trimWith_suffix p2 p3 s) as (x & _ & H).
  apply trimWith_fixed, H.
Qed.

(** A prefix of a sequence that starts with no white space starts with none. *)
Lemma startsWith_prefix p2 p3 u x :
  startsWith p2 p3 (u ++ x) = false -> startsWith p2 p3 u = false.
Proof.
  destruct u as [|c1 [|c2 [|c3 r]]]; simpl; try reflexivity; intros H.
  - destruct x as [|c2 [|c3 r]]; simpl in H;
      repeat (apply orb_false_elim in H; destruct H as [? H]);
      rewrite orb_false_r; assumption.
  - destruct x as [|c3 r]; simpl in H;
      repeat (apply orb_false_elim in H; destruct H as [? H]);
      repeat match goal with E : _ = false |- _ => rewrite E; clear E end;
      reflexivity.
  - exact H.
Qed.

Lemma trimRight_prefix s : exists x, s = trimRight s ++ x.
Proof.
  unfold trimRight, trimLeftRev.
  destruct (trimWith_suffix (fun c1 c2 => space2 c2 c1)
              (fun c1 c2 c3 => space3 c3 c2 c1) (rev s)) as (x & Hx & _).
  exists (rev x). rewrite <- rev_app_distr, <- Hx. symmetry. apply rev_involutive.
Qed.

Lemma trimRight_idem s : trimRight (trimRight s) = trimRight s.
Proof.
  unfold trimRight, trimLeftRev. rewrite rev_involutive, trimWith_idem. reflexivity.
Qed.

(** Trimming the back of a sequence leaves its front free of white space. *)
Lemma trimLeft_trimRight s :
  trimLeft (trimRight (trimLeft s)) = trimRight (trimLeft s).
Proof.
  unfold trimLeft at 1. apply trimWith_fixed.
  destruct (trimRight_prefix (trimLeft s)) as (x & Hx).
  apply startsWith_prefix with (x := x). rewrite <- Hx.
  unfold trimLeft. destruct (trimWith_suffix space2 space3 s) as (y & _ & H).
  exact H.
Qed.

Lemma TrimSpace_idem s : TrimSpace (TrimSpace s) = TrimSpace s.
Proof.
  unfold TrimSpace. rewrite list_ascii_of_string_of_list_ascii.
  rewrite trimLeft_trimRight, trimRight_idem. reflexivity.
Qed.

Lemma space2_not_ascii c1 c2 : space2 c1 c2 = true -> asciiSpace c1 = false.
Proof.
  unfold space2, asciiSpace. intros H.
  apply andb_true_iff in H as [H _]. apply N.eqb_eq in H. rewrite H. reflexivity.
Qed.

Lemma space3_not_ascii c1 c2 c3 :
  space3 c1 c2 c3 = true -> asciiSpace c1 = false /\ space2 c1 c2 = false.
Proof.
  unfold space3, space2, asciiSpace. intros H.
  assert (Hc : N_of_ascii c1 = 225%N \/ N_of_ascii c1 = 226%N \/ N_of_ascii c1 = 227%N).
  { repeat (apply orb_true_iff in H as [H|H]);
      repeat (apply andb_true_iff in H as [H ?]); apply N.eqb_eq in H; auto. }
  destruct Hc as [Hc|[Hc|Hc]]; rewrite Hc; split; reflexivity.
Qed.

Lemma trimLeft_WhitespaceOnly s : WhitespaceOnly s -> trimLeft s = [].
Proof.
  unfold trimLeft. induction 1 as [|c r Hc _ IH|c1 c2 r H2 _ IH|c1 c2 c3 r H3 _ IH].
  - reflexivity.
  - simpl. rewrite Hc. exact IH.
  - simpl. rewrite (space2_not_ascii _ _ H2), H2. exact IH.
  - destruct (space3_not_ascii _ _ _ H3) as [Ha Hb].
    simpl. rewrite Ha, Hb, H3. exact IH.
Qed.

(** A string of white-space runes trims to the empty string. *)
Lemma TrimSpace_WhitespaceOnly s :
  WhitespaceOnly (list_ascii_of_string s) -> TrimSpace s = "".
Proof.
  intros H. unfold TrimSpace. rewrite (trimLeft_WhitespaceOnly _ H). reflexivity.
Qed.

End StringsFacts.

(** ** The next-page pattern *)

Module RegexpFacts.
Import regexp.

Lemma append_cons (x : ascii) (a b : string) :
  String x a +:+ b = String x (a +:+ b).
Proof. reflexivity. Qed.

Lemma append_assoc (a b c : string) : (a +:+ b) +:+ c = a +:+ (b +:+ c).
Proof.
  induction a as [|x a IH]; [reflexivity|].
  rewrite !append_cons, IH. reflexivity.
Qed.

Lemma spanNotGt_stops u rest :
  noGt u = true ->
  spanNotGt (u +:+ String ">"%char rest) = (u, String ">"%char rest).
Proof.
  induction u as [|c u IH]; intros H; [reflexivity|].
  simpl in H. apply andb_true_iff in H as [Hc Hu]. apply negb_true_iff in Hc.
  rewrite append_cons. simpl. rewrite Hc, (IH Hu). reflexivity.
Qed.

Lemma prefix_app (p s : string) : String.prefix p (p +:+ s) = true.
Proof.
  induction p as [|c p IH]; [destruct s; reflexivity|].
  rewrite append_cons. simpl.
  destruct (ascii_dec c c) as [_|Hne]; [exact IH | congruence].
Qed.

Lemma FindStringSubmatch_lt rest :
  FindStringSubmatch (String "<"%char rest) =
  let '(u, tl) := spanNotGt rest in
  if negb (String.eqb u EmptyString) && String.prefix relNext tl
  then Some ("<" +:+ u +:+ relNext, u)
  else FindStringSubmatch rest.
Proof. reflexivity. Qed.

Lemma relNext_head post :
  exists tl, relNext +:+ post = String ">"%char tl.
Proof. eexists. reflexivity. Qed.

(** A header that starts with a well-formed next link yields its URL. *)
Lemma FindStringSubmatch_linkNext u post :
  u <> "" -> noGt u = true ->
  FindStringSubmatch (linkNext u +:+ post) = Some (linkNext u, u).
Proof.
  intros Hne Hgt. unfold linkNext.
  rewrite !append_assoc.
  change ("<" +:+ u +:+ relNext +:+ post)
    with (String "<"%char (u +:+ relNext +:+ post)).
  rewrite FindStringSubmatch_lt.
  destruct (relNext_head post) as [tl Htl].
  rewrite Htl, (spanNotGt_stops _ _ Hgt), <- Htl, prefix_app.
  destruct (String.eqb_spec u ""); [contradiction | reflexivity].
Qed.

Lemma prefix_true (p s : string) :
  String.prefix p s = true -> exists post, s = p +:+ post.
Proof.
  revert s. induction p as [|c p IH]; intros s H; [exists s; reflexivity|].
  destruct s as [|d s]; [discriminate|]. simpl in H.
  destruct (ascii_dec c d) as [->|_]; [|discriminate].
  destruct (IH s H) as [post ->]. exists post. reflexivity.
Qed.

Lemma spanNotGt_spec s u tl :
  spanNotGt s = (u, tl) -> s = u +:+ tl /\ noGt u = true.
Proof.
  revert u tl. induction s as [|c s IH]; simpl; intros u tl H.
  - inversion H. split; reflexivity.
  - destruct (Ascii.eqb c ">"%char) eqn:Ec.
    + inversion H. split; reflexivity.
    + destruct (spanNotGt s) as [u0 tl0]. inversion H; subst.
      destruct (IH u0 tl eq_refl) as [-> Hgt].
      split; [reflexivity|]. simpl. rewrite Ec, Hgt. reflexivity.
Qed.

(** Whatever the matcher returns is an occurrence of the pattern: a ['<'],
    a non-empty run without ['>'] as the submatch, and the literal tail. *)
Lemma FindStringSubmatch_sound s m u :
  FindStringSubmatch s = Some (m, u) ->
  m = linkNext u /\ u <> "" /\ noGt u = true /\
  exists pre post, s = pre +:+ m +:+ post.
Proof.
  induction s as [|c s IH]; [discriminate|].
  destruct (Ascii.eqb c "<"%char) eqn:Ec.
  - apply Ascii.eqb_eq in Ec. subst c. rewrite FindStringSubmatch_lt.
    destruct (spanNotGt s) as [u0 tl] eqn:Hs.
    destruct (negb (String.eqb u0 "") && String.prefix relNext tl) eqn:Hc.
    + intros H. inversion H; subst. clear H.
      apply andb_true_iff in Hc as [Hne Hp].
      apply negb_true_iff, String.eqb_neq in Hne.
      apply spanNotGt_spec in Hs as [-> Hgt].
      apply prefix_true in Hp as [post ->].
      split_and!; try done.
      exists "", post. unfold linkNext.
      rewrite !append_assoc. reflexivity.
    + intros H. destruct (IH H) as (Hm & Hne & Hgt & pre & post & ->).
      split_and!; try done. exists (String "<"%char pre), post. reflexivity.
  - intros H. simpl in H. rewrite Ec in H.
    destruct (IH H) as (Hm & Hne & Hgt & pre & post & ->).
    split_and!; try done. exists (String c pre), post. reflexivity.
Qed.

End RegexpFacts.

(** ** The GitLab connector *)

Module SocialFacts.
Import social.

Lemma anyGroupIs_In allowedGroup groups :
  anyGroupIs allowedGroup groups = true <-> In allowedGroup groups.
Proof.
  induction groups as [|g groups IH]; simpl; [split; [discriminate | tauto]|].
  destruct (String.eqb_spec g allowedGroup) as [->|Hne].
  - split; auto.
  - rewrite IH. split; [auto | intros [H|H]; [congruence | exact H]].
Qed.

Lemma anyAllowed_In allowed groups :
  anyAllowed allowed groups = true <->
  exists g, In g groups /\ In g allowed.
Proof.
  induction allowed as [|a allowed IH]; simpl.
  - split; [discriminate | intros (g & _ & [])].
  - destruct (anyGroupIs a groups) eqn:E.
    + apply anyGroupIs_In in E. split; [intros _; exists a; auto | reflexivity].
    + rewrite IH. split.
      * intros (g & Hg & Ha). exists g; auto.
      * intros (g & Hg & [<-|Ha]); [|exists g; auto].
        apply anyGroupIs_In in Hg. congruence.
Qed.

(** C6.  With no allow-list configured [IsGroupMember] admits every group
    list, the empty one included; with a non-empty allow-list it answers
    true exactly when one of the user's groups equals an allowed group. *)
Theorem IsGroupMember_spec (s : SocialGitlab) (groups : list string) :
  (allowedGroups s = [] -> IsGroupMember s groups = true) /\
  (allowedGroups s <> [] ->
   (IsGroupMember s groups = true <->
    exists g, In g groups /\ In g (allowedGroups s))).
Proof.
  unfold IsGroupMember. split.
  - intros ->. reflexivity.
  - intros Hne. destruct (allowedGroups s) as [|a allowed] eqn:E; [contradiction|].
    cbn [length Nat.eqb]. apply anyAllowed_In.
Qed.

Lemma getRepo_None s orgId :
  getRepo s orgId = None <->
  forall repo, In repo (repos s) -> repo_OrgId repo <> orgId.
Proof.
  unfold getRepo. split.
  - intros H repo Hin Heq.
    apply (find_none _ _ H) in Hin. apply Z.eqb_neq in Hin. contradiction.
  - intros H. induction (repos s) as [|r rs IH]; [reflexivity|]. simpl.
    destruct (Z.eqb_spec (repo_OrgId r) orgId) as [Heq|_].
    + exfalso. apply (H r); [left; reflexivity | exact Heq].
    + apply IH. intros repo Hin. apply H. right. exact Hin.
Qed.

Section Connector.
Context {S : Type} (remote : Remote S).

(** C2.  For an org id without a repository mapping [getRepo] answers nil
    and [UpdateDashboard] dereferences it: the call panics, before any
    request leaves, instead of returning the sync-failure error. *)
Theorem UpdateDashboard_missing_mapping_panics
    (s : SocialGitlab) (options : UpdateDashboardOptions) (token : string) (st : S) :
  (forall repo, In repo (repos s) -> repo_OrgId repo <> opt_OrgId options) ->
  SocialGitlab_UpdateDashboard remote s options token st = (Panic, st).
Proof.
  intros H. apply getRepo_None in H.
  unfold SocialGitlab_UpdateDashboard. rewrite H. reflexivity.
Qed.

Lemma eqb_empty_false url : url <> "" -> String.eqb url "" = false.
Proof. intros H. destruct (String.eqb_spec url ""); [contradiction | reflexivity]. Qed.

Lemma GetGroupsPage_page s url st response groups next st1 :
  url <> "" -> HttpGet remote url st = (Val response, st1) ->
  json_Unmarshal remote (Body response) = Val groups ->
  nextOf response = Some next ->
  GetGroupsPage remote s url st = (Done (Some (map FullPath groups), next), st1).
Proof.
  intros Hurl Hget Hjson Hnext. unfold GetGroupsPage, bind, call, nextOf in *.
  rewrite (eqb_empty_false _ Hurl), Hget, Hjson.
  destruct (Headers response !! "Link") as [[|link0 link]|];
    [discriminate | |]; injection Hnext as <-.
  - destruct (regexp.FindStringSubmatch link0); reflexivity.
  - reflexivity.
Qed.

Lemma GetGroupsPage_stops s url st ps st' :
  Pages remote url st ps st' -> ps = [] ->
  exists next, GetGroupsPage remote s url st = (Done (None, next), st').
Proof.
  intros H Hps. unfold GetGroupsPage, bind, call.
  destruct H as [st|url st e st' Hurl Hget|url st response e st' Hurl Hget Hjson|];
    [| | |discriminate]; exists "".
  - reflexivity.
  - rewrite (eqb_empty_false _ Hurl), Hget. reflexivity.
  - rewrite (eqb_empty_false _ Hurl), Hget, Hjson. reflexivity.
Qed.

Lemma GetGroups_loop_nil s url st st' fuel groups :
  Pages remote url st [] st' ->
  (do '(page, url) <- GetGroupsPage remote s url;
   GetGroups_loop remote fuel s groups page url) st
  = (Done (Some (groups ++ concat [])), st').
Proof.
  intros H. destruct (GetGroupsPage_stops s _ _ _ _ H eq_refl) as [next Hp].
  unfold bind. rewrite Hp. destruct fuel; simpl; rewrite app_nil_r; reflexivity.
Qed.

(** The loop, entered with [groups] already gathered, gathers the chain. *)
Lemma GetGroups_loop_pages s url st ps st' :
  Pages remote url st ps st' ->
  forall fuel groups, length ps <= fuel ->
  (do '(page, url) <- GetGroupsPage remote s url;
   GetGroups_loop remote fuel s groups page url) st
  = (Done (Some (groups ++ concat ps)), st').
Proof.
  induction 1 as [st|url st e st' Hurl Hget|url st response e st' Hurl Hget Hjson
                 |url st response grps next st1 ps st' Hurl Hget Hjson Hnext _ IH];
    intros fuel groups Hfuel.
  - apply GetGroups_loop_nil. constructor.
  - apply GetGroups_loop_nil. econstructor; eassumption.
  - apply GetGroups_loop_nil. eapply pages_parse_error; eassumption.
  - unfold bind at 1.
    rewrite (GetGroupsPage_page s _ _ _ _ _ _ Hurl Hget Hjson Hnext).
    destruct fuel as [|fuel]; [simpl in Hfuel; lia|].
    cbn [GetGroups_loop].
    rewrite (IH fuel (groups ++ map FullPath grps)); [|simpl in Hfuel; lia].
    simpl. rewrite <- app_assoc. reflexivity.
Qed.

Lemma GetGroups_pages s st ps st' fuel :
  Pages remote (apiUrl s +:+ "/groups") st ps st' -> length ps <= fuel ->
  GetGroups remote fuel s st = (Done (Some (concat ps)), st').
Proof.
  intros H Hfuel. unfold GetGroups.
  apply (GetGroups_loop_pages s _ _ _ _ H fuel [] Hfuel).
Qed.

Lemma groups_url_nonempty (api : string) : api +:+ "/groups" <> "".
Proof. destruct api; intros H; inversion H. Qed.

Lemma nextOf_linkNext response url post rest :
  url <> "" -> regexp.noGt url = true ->
  Headers response !! "Link" = Some ((regexp.linkNext url +:+ post) :: rest) ->
  nextOf response = Some url.
Proof.
  intros Hne Hgt Hlink. unfold nextOf. rewrite Hlink.
  rewrite (RegexpFacts.FindStringSubmatch_linkNext _ _ Hne Hgt). reflexivity.
Qed.

(** C7.  [GetGroups] returns the full paths of the pages the server hands
    out, page after page and in the order of each page, duplicates kept.  It
    starts at [apiUrl/groups], goes on to the URL the [Link] header gives
    with [<URL>; rel="next"], and stops at a response without such a link,
    at a request that fails or at a body that does not parse.  For three
    pages, the first two linking on and the third without a [Link] header,
    the result is the three pages' paths one after the other. *)
Theorem GetGroups_follows_next_links (s : SocialGitlab) :
  (forall st ps st' fuel,
     Pages remote (apiUrl s +:+ "/groups") st ps st' -> length ps <= fuel ->
     GetGroups remote fuel s st = (Done (Some (concat ps)), st')) /\
  (forall st0 st1 st2 st3 r1 r2 r3 g1 g2 g3 url2 url3 post2 post3 rest2 rest3 fuel,
     HttpGet remote (apiUrl s +:+ "/groups") st0 = (Val r1, st1) ->
     json_Unmarshal remote (Body r1) = Val g1 ->
     Headers r1 !! "Link" = Some ((regexp.linkNext url2 +:+ post2) :: rest2) ->
     url2 <> "" -> regexp.noGt url2 = true ->
     HttpGet remote url2 st1 = (Val r2, st2) ->
     json_Unmarshal remote (Body r2) = Val g2 ->
     Headers r2 !! "Link" = Some ((regexp.linkNext url3 +:+ post3) :: rest3) ->
     url3 <> "" -> regexp.noGt url3 = true ->
     HttpGet remote url3 st2 = (Val r3, st3) ->
     json_Unmarshal remote (Body r3) = Val g3 ->
     Headers r3 !! "Link" = None ->
     3 <= fuel ->
     GetGroups remote fuel s st0 =
     (Done (Some (map FullPath g1 ++ map FullPath g2 ++ map FullPath g3)), st3)).
Proof.
  split.
  - intros st ps st' fuel H Hfuel. exact (GetGroups_pages s st ps st' fuel H Hfuel).
  - intros st0 st1 st2 st3 r1 r2 r3 g1 g2 g3 url2 url3 post2 post3 rest2 rest3 fuel
      Hg1 Hj1 Hl1 Hn2 Hgt2 Hg2 Hj2 Hl2 Hn3 Hgt3 Hg3 Hj3 Hl3 Hfuel.
    assert (HP : Pages remote (apiUrl s +:+ "/groups") st0
                   [map FullPath g1; map FullPath g2; map FullPath g3] st3).
    { eapply pages_page; [apply groups_url_nonempty | exact Hg1 | exact Hj1
                         | exact (nextOf_linkNext _ _ _ _ Hn2 Hgt2 Hl1) |].
      eapply pages_page; [exact Hn2 | exact Hg2 | exact Hj2
                         | exact (nextOf_linkNext _ _ _ _ Hn3 Hgt3 Hl2) |].
      eapply pages_page; [exact Hn3 | exact Hg3 | exact Hj3 | | apply pages_no_link].
      unfold nextOf. rewrite Hl3. reflexivity. }
    rewrite (GetGroups_pages s _ _ _ fuel HP Hfuel). simpl.
    rewrite app_nil_r. reflexivity.
Qed.

End Connector.

End SocialFacts.

(** ** The dashboard service *)

Module DashboardFacts.
Import models dashboards.

(** Unfold the plumbing of the execution monad. *)
Ltac unfold_go :=
  unfold GetProvisionedDashboardDataByDashboardId, updateAlerting, Dispatch,
    CanSave, emit, callOut, callSocial, bind, ret, panic in *.

(** Read the fields of an updated record. *)
Ltac read_fields :=
  cbn [Id Uid dash_OrgId Title FolderId IsFolder Version PluginId Slug Data
       withTitle withData withUid SetUid
       cmd_Dashboard cmd_Message cmd_OrgId cmd_Overwrite cmd_UserId cmd_FolderId
       cmd_IsFolder cmd_PluginId cmd_UpdatedAt cmd_Result withUpdatedAt withResult
       dto_OrgId dto_UpdatedAt dto_User dto_Message dto_Overwrite dto_Dashboard
       withUser outside trace fst snd] in *.

(** Case-split on whatever the run in hypothesis [H] branches on, innermost
    scrutinee first. *)
Ltac split_run H :=
  repeat (cbv beta iota in H; read_fields;
          match type of H with
          | context [match ?x with _ => _ end] =>
              lazymatch x with
              | context [match _ with _ => _ end] => fail
              | _ => destruct x eqn:?
              end
          end).

(** Close a goal about the events appended to a trace. *)
Ltac close_trace :=
  simpl; rewrite <- ?app_assoc; simpl;
  first [ exists []; split; [symmetry; apply app_nil_r|]
        | eexists; split; [reflexivity|] ].

Section Service.
Context {S : Type} (env : Collaborators S).

Lemma lookup_title_after_uid (data : gmap string Json) (title uid : string) :
  Json_Set "uid" (JString uid) (Json_Set "title" (JString title) data) !! "title"
  = Some (JString title).
Proof.
  unfold Json_Set. rewrite lookup_insert_ne by discriminate.
  apply lookup_insert_eq.
Qed.

Lemma build_spec dto validateAlerts validateProvisioned w o w' :
  buildSaveDashboardCommand env dto validateAlerts validateProvisioned w = (o, w') ->
  exists evs, trace w' = trace w ++ evs /\ Forall (buildEvent dto) evs /\
    match o with
    | Done (dash', Val cmd) => built env dto dash' cmd
    | _ => True
    end.
Proof.
  intros H. unfold buildSaveDashboardCommand in H. unfold_go.
  split_run H; inversion H; subst; clear H.
  all: close_trace; (split; [repeat constructor; simpl; auto|]); try exact I.
  all: eexists _, _; split_and!; try eassumption; try reflexivity; read_fields.
  all: try apply lookup_title_after_uid.
  all: try (apply String.eqb_neq; assumption).
  all: try (apply negb_false_iff; assumption).
  all: try (apply Nat.ltb_ge; assumption).
  all: destruct (negb (IsZero (dto_UpdatedAt dto))); reflexivity.
Qed.

Lemma buildEvent_quiet dto e : buildEvent dto e -> quiet e.
Proof.
  destruct e as [[]| |]; simpl; intros H; try contradiction; split; reflexivity.
Qed.




Lemma getPreviousDashboard_trace newDashboard w o w' :
  getPreviousDashboard env newDashboard w = (o, w') ->
  o <> Panic /\ exists evs, trace w' = trace w ++ evs /\ Forall quiet evs.
Proof.
  intros H. unfold getPreviousDashboard in H. unfold_go.
  split_run H; inversion H; subst; clear H; (split; [discriminate|]); close_trace;
    repeat constructor.
Qed.

Lemma getDashboardFolder_trace dashboard w o w' :
  getDashboardFolder env dashboard w = (o, w') ->
  exists evs, trace w' = trace w ++ evs /\ Forall quiet evs.
Proof.
  intros H. unfold getDashboardFolder in H. unfold_go.
  split_run H; inversion H; subst; clear H; close_trace; repeat constructor.
Qed.



(** Without a registered connector a mirror step that gets past the
    marshalling panics. *)
Lemma updateDashboard_unregistered dashboard action user message w :
  SocialMap env !! AuthModule user = None ->
  (exists m, json_MarshalIndent env (Data dashboard) = Val m) ->
  exists w', updateDashboard env dashboard action user message w = (Panic, w').
Proof.
  intros Hreg [m Hm]. unfold updateDashboard. rewrite Hreg, Hm.
  unfold bind. destruct (getDashboardFolder env dashboard w) as [[folder|] w1];
    eexists; reflexivity.
Qed.

(** C4.  When the build succeeds and the acting user has no external
    token, [ImportDashboard] fails with the sync-required error; the run ends
    where the build ended, and nothing the build did was a persistence
    dispatch or a mirror operation. *)
Theorem ImportDashboard_requires_token dto w dash cmd w' user :
  buildSaveDashboardCommand env dto false true w = (Done (dash, Val cmd), w') ->
  dto_User dto = Some user -> Token user = "" ->
  ImportDashboard env dto w = (Done (Err ErrDashboardGitlabSync), w') /\
  exists evs, trace w' = trace w ++ evs /\
              Forall (fun e => isPersist e = false /\ mirrorOf e = None) evs.
Proof.
  intros Hb Hu Ht. split.
  - unfold ImportDashboard, bind. rewrite Hb, Hu, Ht. reflexivity.
  - apply build_spec in Hb as (evs & Htr & Hev & _).
    exists evs. split; [exact Htr|].
    eapply Forall_impl; [exact Hev|]. apply buildEvent_quiet.
Qed.

(** C8.  If a provisioning record exists for the id, the plain delete
    returns the cannot-delete-provisioned error and its only dispatch is the
    provisioning lookup; the override path does no lookup for any id: its
    only dispatch is the delete command, whose answer it returns. *)
Theorem DeleteDashboard_provisioned dashboardId orgId w :
  (forall provisioning s',
     bus_GetProvisionedDashboardDataById env dashboardId (outside w)
       = (Val (Some provisioning), s') ->
     DeleteDashboard env dashboardId orgId w =
       (Done (Some ErrDashboardCannotDeleteProvisionedDashboard),
        {| outside := s';
           trace := trace w ++ [EvDispatch (GetProvisionedDashboardDataByIdQuery dashboardId)] |})) /\
  DeleteProvisionedDashboard env dashboardId orgId w =
    (let '(err, s') := bus_DeleteDashboard env orgId dashboardId (outside w) in
     (Done err,
      {| outside := s';
         trace := trace w ++ [EvDispatch (DeleteDashboardCommand orgId dashboardId)] |})).
Proof.
  split.
  - intros provisioning s' H.
    unfold DeleteDashboard, deleteDashboard. unfold_go. simpl. rewrite H. reflexivity.
  - unfold DeleteProvisionedDashboard, deleteDashboard. unfold_go. simpl.
    destruct (bus_DeleteDashboard env orgId dashboardId (outside w)); reflexivity.
Qed.

(** C10.  The mirror step looks the connector up by the user's auth module
    and drops the lookup's success flag.  If the auth module is not
    registered, a step that gets past the marshalling panics; so do a save
    and an import that reach the step. *)
Theorem updateDashboard_needs_registered_connector :
  (forall dashboard action user message w,
     SocialMap env !! AuthModule user = None ->
     (exists m, json_MarshalIndent env (Data dashboard) = Val m) ->
     fst (updateDashboard env dashboard action user message w) = Panic) /\
  (forall dto w dash cmd w1 user,
     buildSaveDashboardCommand env dto true true w = (Done (dash, Val cmd), w1) ->
     dto_User dto = Some user -> Token user <> "" ->
     SocialMap env !! AuthModule user = None ->
     (forall data, exists m, json_MarshalIndent env data = Val m) ->
     fst (SaveDashboard env dto w) = Panic) /\
  (forall dto w dash cmd w1 user,
     buildSaveDashboardCommand env dto false true w = (Done (dash, Val cmd), w1) ->
     dto_User dto = Some user -> Token user <> "" ->
     SocialMap env !! AuthModule user = None ->
     (forall data, exists m, json_MarshalIndent env data = Val m) ->
     fst (ImportDashboard env dto w) = Panic).
Proof.
  split_and!.
  - intros dashboard action user message w Hreg Hm.
    destruct (updateDashboard_unregistered dashboard action user message w Hreg Hm)
      as [w' ->]. reflexivity.
  - intros dto w dash cmd w1 user Hb Hu Ht Hreg Hm.
    apply String.eqb_neq in Ht.
    unfold SaveDashboard. unfold bind at 1. rewrite Hb, Hu, Ht. cbn [negb].
    unfold bind at 1. unfold bind at 1.
    destruct (getPreviousDashboard env dash w1) as [[prev|] w2] eqn:Hp;
      [|apply getPreviousDashboard_trace in Hp as [[] _]; reflexivity].
    destruct prev as [prev|].
    + destruct (negb (FolderId prev =? FolderId dash)%Z).
      * unfold bind at 1.
        destruct (updateDashboard_unregistered prev social.DeleteDashboard user "" w2
                    Hreg (Hm _)) as [w' ->]. reflexivity.
      * destruct (updateDashboard_unregistered dash social.UpdateDashboard user
                    (dto_Message dto) w2 Hreg (Hm _)) as [w' ->]. reflexivity.
    + destruct (updateDashboard_unregistered dash social.CreateDashboard user "" w2
                  Hreg (Hm _)) as [w' ->]. reflexivity.
  - intros dto w dash cmd w1 user Hb Hu Ht Hreg Hm.
    apply String.eqb_neq in Ht.
    unfold ImportDashboard. unfold bind at 1. rewrite Hb, Hu, Ht. cbn [negb].
    unfold bind at 1.
    destruct (updateDashboard_unregistered dash social.CreateDashboard user
                (dto_Message dto) w1 Hreg (Hm _)) as [w' ->]. reflexivity.
Qed.

Lemma SaveDashboard_after_build dto w dash cmd w1 user prev w2 :
  buildSaveDashboardCommand env dto true true w = (Done (dash, Val cmd), w1) ->
  dto_User dto = Some user -> Token user <> "" ->
  getPreviousDashboard env dash w1 = (Done prev, w2) ->
  SaveDashboard env dto w = bind (mirrorStep env dto dash user prev) (saveTail env dto cmd) w2.
Proof.
  intros Hb Hu Ht Hp. apply String.eqb_neq in Ht.
  unfold SaveDashboard. unfold bind at 1. rewrite Hb, Hu, Ht. cbn [negb].
  unfold bind at 1. unfold bind at 1. rewrite Hp. reflexivity.
Qed.




Lemma buildEvent_actsAs dto user e :
  dto_User dto = Some user -> buildEvent dto e -> actsAs user e.
Proof.
  intros Hu. destruct e as [[]| |]; simpl; try tauto; intros [_ ->]; exact Hu.
Qed.

Lemma built_UserId dto dash cmd user :
  built env dto dash cmd -> dto_User dto = Some user -> cmd_UserId cmd = UserId user.
Proof.
  intros (d & u & _ & Hu & H) Hu'. rewrite Hu in Hu'. injection Hu' as <-.
  destruct H as (_ & _ & _ & _ & _ & _ & _ & _ & _ & _ & _ & H & _). exact H.
Qed.

Lemma SaveProvisionedDashboard_actsAs dto provisioning w :
  exists evs,
    trace (snd (SaveProvisionedDashboard env dto provisioning w)) = trace w ++ evs /\
    Forall (actsAs (syntheticAdmin (dto_OrgId dto))) evs.
Proof.
  destruct (SaveProvisionedDashboard env dto provisioning w) as [o w'] eqn:H.
  unfold SaveProvisionedDashboard in H. unfold_go.
  split_run H; inversion H; subst; clear H;
    match goal with
    | Hb : buildSaveDashboardCommand _ _ _ _ _ = _ |- _ =>
        apply build_spec in Hb as (evs & Htr & Hev & Hbuilt)
    end;
    simpl in Htr; simpl; rewrite Htr, <- ?app_assoc; simpl;
    (eexists; split; [reflexivity|]);
    rewrite ?Forall_app; split_and?;
    try (eapply Forall_impl; [exact Hev|];
         intros ?; apply buildEvent_actsAs; reflexivity);
    repeat first [apply List.Forall_nil | apply List.Forall_cons];
    simpl; try reflexivity;
    exact (built_UserId _ _ _ (syntheticAdmin _) Hbuilt eq_refl).
Qed.

Lemma SaveFolderForProvisionedDashboards_actsAs dto w :
  exists evs,
    trace (snd (SaveFolderForProvisionedDashboards env dto w)) = trace w ++ evs /\
    Forall (actsAs (syntheticAdmin 0)) evs.
Proof.
  destruct (SaveFolderForProvisionedDashboards env dto w) as [o w'] eqn:H.
  unfold SaveFolderForProvisionedDashboards in H. unfold_go.
  split_run H; inversion H; subst; clear H;
    match goal with
    | Hb : buildSaveDashboardCommand _ _ _ _ _ = _ |- _ =>
        apply build_spec in Hb as (evs & Htr & Hev & Hbuilt)
    end;
    simpl in Htr; simpl; rewrite Htr, <- ?app_assoc; simpl;
    (eexists; split; [reflexivity|]);
    rewrite ?Forall_app; split_and?;
    try (eapply Forall_impl; [exact Hev|];
         intros ?; apply buildEvent_actsAs; reflexivity);
    repeat first [apply List.Forall_nil | apply List.Forall_cons];
    simpl; try reflexivity;
    exact (built_UserId _ _ _ (syntheticAdmin _) Hbuilt eq_refl).
Qed.

(** The events of a build that returns a command, in order. *)
Lemma build_success_trace dto validateAlerts validateProvisioned w dash' cmd w' :
  buildSaveDashboardCommand env dto validateAlerts validateProvisioned w
    = (Done (dash', Val cmd), w') ->
  exists folderCheck,
    (folderCheck = [] \/
     folderCheck = [EvGuardian (FolderId dash') (dto_OrgId dto) (dto_User dto)]) /\
    trace w' = trace w ++
      (if validateAlerts
       then [EvDispatch (ValidateDashboardAlertsCommand (dto_OrgId dto) dash'
                           (dto_User dto))]
       else []) ++
      [EvDispatch (ValidateDashboardBeforeSaveCommand (dto_OrgId dto) dash'
                     (dto_Overwrite dto))] ++
      folderCheck ++
      (if validateProvisioned
       then [EvDispatch (GetProvisionedDashboardDataByIdQuery (Id dash'))]
       else []) ++
      [EvGuardian (GetDashboardIdForSavePermissionCheck dash') (dto_OrgId dto)
         (dto_User dto)].
Proof.
  intros H. unfold buildSaveDashboardCommand in H. unfold_go.
  split_run H; inversion H; subst; clear H.
  all: first
    [ exists []; split; [left; reflexivity|];
      simpl; rewrite <- ?app_assoc; reflexivity
    | eexists [_]; split; [right; reflexivity|];
      simpl; rewrite <- ?app_assoc; reflexivity ].
Qed.

(** C9.  [SaveProvisionedDashboard] replaces the request's user by the
    synthetic admin with zero id, empty token and the request's org: the
    request's own user is never read, the request is left carrying the
    synthetic admin, every collaborator of a run is given it, and no run has
    a mirror operation.  A run that returns a dashboard has asked the alert
    validation and the guardian on behalf of the synthetic admin, has
    dispatched a save command with user id 0 and has updated the alerts for
    the synthetic admin, in this order and with nothing else but the
    pre-save validation and the folder check in between.
    [SaveFolderForProvisionedDashboards] does the same, without the alert
    validation, with a synthetic admin whose org is left at zero while the
    collaborators are still given the request's org. *)
Theorem provisioned_saves_act_as_synthetic_admin dto provisioning w :
  let admin := {| UserId := 0; OrgRole := ROLE_ADMIN; user_OrgId := dto_OrgId dto;
                  Token := ""; AuthModule := "" |} in
  let admin0 := {| UserId := 0; OrgRole := ROLE_ADMIN; user_OrgId := 0;
                   Token := ""; AuthModule := "" |} in
  (forall user,
     SaveProvisionedDashboard env (withUser dto user) provisioning w
     = SaveProvisionedDashboard env dto provisioning w) /\
  (exists evs,
     trace (snd (SaveProvisionedDashboard env dto provisioning w)) = trace w ++ evs /\
     Forall (actsAs admin) evs) /\
  (forall dto' r w',
     SaveProvisionedDashboard env dto provisioning w = (Done (dto', r), w') ->
     exists dash, dto' = requestAfter (withUser dto (Some admin)) dash) /\
  (forall dto' result w',
     SaveProvisionedDashboard env dto provisioning w = (Done (dto', Val result), w') ->
     exists dash cmd folderCheck,
       dto_Dashboard dto' = Some dash /\ cmd_UserId cmd = 0%Z /\
       (folderCheck = [] \/
        folderCheck = [EvGuardian (FolderId dash) (dto_OrgId dto) (Some admin)]) /\
       trace w' = trace w ++
         [EvDispatch (ValidateDashboardAlertsCommand (dto_OrgId dto) dash (Some admin));
          EvDispatch (ValidateDashboardBeforeSaveCommand (dto_OrgId dto) dash
                        (dto_Overwrite dto))] ++
         folderCheck ++
         [EvGuardian (GetDashboardIdForSavePermissionCheck dash) (dto_OrgId dto)
            (Some admin);
          EvDispatch (SaveProvisionedDashboardCommand cmd provisioning);
          EvDispatch (UpdateDashboardAlertsCommand (dto_OrgId dto) result
                        (Some admin))]) /\
  (forall user,
     SaveFolderForProvisionedDashboards env (withUser dto user) w
     = SaveFolderForProvisionedDashboards env dto w) /\
  (exists evs,
     trace (snd (SaveFolderForProvisionedDashboards env dto w)) = trace w ++ evs /\
     Forall (actsAs admin0) evs) /\
  (forall dto' r w',
     SaveFolderForProvisionedDashboards env dto w = (Done (dto', r), w') ->
     exists dash, dto' = requestAfter (withUser dto (Some admin0)) dash) /\
  (forall dto' result w',
     SaveFolderForProvisionedDashboards env dto w = (Done (dto', Val result), w') ->
     exists dash cmd folderCheck,
       dto_Dashboard dto' = Some dash /\ cmd_UserId cmd = 0%Z /\
       (folderCheck = [] \/
        folderCheck = [EvGuardian (FolderId dash) (dto_OrgId dto) (Some admin0)]) /\
       trace w' = trace w ++
         [EvDispatch (ValidateDashboardBeforeSaveCommand (dto_OrgId dto) dash
                        (dto_Overwrite dto))] ++
         folderCheck ++
         [EvGuardian (GetDashboardIdForSavePermissionCheck dash) (dto_OrgId dto)
            (Some admin0);
          EvDispatch (SaveDashboardCmd cmd);
          EvDispatch (UpdateDashboardAlertsCommand (dto_OrgId dto) result
                        (Some admin0))]).
Proof.
  intros admin admin0. split_and!.
  - reflexivity.
  - apply SaveProvisionedDashboard_actsAs.
  - intros dto' r w' H. unfold SaveProvisionedDashboard in H. unfold bind at 1 in H.
    destruct (buildSaveDashboardCommand env _ true false w) as [[[dash rb]|] w1];
      [|discriminate].
    exists dash. unfold_go. split_run H; inversion H; reflexivity.
  - intros dto' result w' H. unfold SaveProvisionedDashboard in H.
    unfold bind at 1 in H.
    destruct (buildSaveDashboardCommand env _ true false w) as [[[dash rb]|] w1] eqn:Hb;
      [|discriminate].
    destruct rb as [cmd|e]; [|unfold_go; inversion H].
    pose proof (build_spec _ _ _ _ _ _ Hb) as (_ & _ & _ & Hbuilt).
    apply build_success_trace in Hb as (fc & Hfc & Htr).
    exists dash, cmd, fc. unfold_go.
    split_run H; inversion H; subst; clear H.
    split_and!; [reflexivity | exact (built_UserId _ _ _ admin Hbuilt eq_refl)
                | exact Hfc |].
    simpl. simpl in Htr. rewrite Htr, <- ?app_assoc. simpl.
    rewrite <- ?app_assoc. reflexivity.
  - reflexivity.
  - apply SaveFolderForProvisionedDashboards_actsAs.
  - intros dto' r w' H. unfold SaveFolderForProvisionedDashboards in H.
    unfold bind at 1 in H.
    destruct (buildSaveDashboardCommand env _ false false w) as [[[dash rb]|] w1];
      [|discriminate].
    exists dash. unfold_go. split_run H; inversion H; reflexivity.
  - intros dto' result w' H. unfold SaveFolderForProvisionedDashboards in H.
    unfold bind at 1 in H.
    destruct (buildSaveDashboardCommand env _ false false w) as [[[dash rb]|] w1] eqn:Hb;
      [|discriminate].
    destruct rb as [cmd|e]; [|unfold_go; inversion H].
    pose proof (build_spec _ _ _ _ _ _ Hb) as (_ & _ & _ & Hbuilt).
    apply build_success_trace in Hb as (fc & Hfc & Htr).
    exists dash, cmd, fc. unfold_go.
    split_run H; inversion H; subst; clear H.
    split_and!; [reflexivity | exact (built_UserId _ _ _ admin0 Hbuilt eq_refl)
                | exact Hfc |].
    simpl. simpl in Htr. rewrite Htr, <- ?app_assoc. simpl.
    rewrite <- ?app_assoc. reflexivity.
Qed.

(** C3.  After a successful build the dashboard's Title is the trimmed
    title of the request, is not empty, and is the string stored under
    "title" in the payload the command carries; its Uid is the trimmed uid,
    has the short-id shape and at most 40 bytes.  A uid that fails the shape
    check is rejected as invalid whatever its length, the length error being
    left to uids of valid shape.  A title made of white space only fails the
    build with the empty-title error before anything is dispatched. *)
Theorem buildSaveDashboardCommand_validates :
  (forall dto validateAlerts validateProvisioned w dash' cmd w',
     buildSaveDashboardCommand env dto validateAlerts validateProvisioned w
       = (Done (dash', Val cmd), w') ->
     exists dash,
       dto_Dashboard dto = Some dash /\
       Title dash' = strings.TrimSpace (Title dash) /\
       strings.TrimSpace (Title dash') = Title dash' /\
       Title dash' <> "" /\
       Data dash' !! "title" = Some (JString (Title dash')) /\
       cmd_Dashboard cmd = Data dash' /\
       Uid dash' = strings.TrimSpace (Uid dash) /\
       IsValidShortUID env (Uid dash') = true /\
       (String.length (Uid dash') <= 40)%nat) /\
  (forall dto validateAlerts validateProvisioned w dash,
     dto_Dashboard dto = Some dash ->
     strings.TrimSpace (Title dash) <> "" ->
     IsFolder dash && Z.ltb 0 (FolderId dash) = false ->
     IsFolder dash && EqualFold env (strings.TrimSpace (Title dash)) (RootFolderName env)
       = false ->
     (IsValidShortUID env (strings.TrimSpace (Uid dash)) = false ->
      exists dash',
        buildSaveDashboardCommand env dto validateAlerts validateProvisioned w
        = (Done (dash', Err ErrDashboardInvalidUid), w)) /\
     (IsValidShortUID env (strings.TrimSpace (Uid dash)) = true ->
      (40 < String.length (strings.TrimSpace (Uid dash)))%nat ->
      exists dash',
        buildSaveDashboardCommand env dto validateAlerts validateProvisioned w
        = (Done (dash', Err ErrDashboardUidToLong), w))) /\
  (forall dto validateAlerts validateProvisioned w dash,
     dto_Dashboard dto = Some dash ->
     strings.WhitespaceOnly (list_ascii_of_string (Title dash)) ->
     exists dash',
       buildSaveDashboardCommand env dto validateAlerts validateProvisioned w
       = (Done (dash', Err ErrDashboardTitleEmpty), w)).
Proof.
  split_and!.
  - intros dto va vp w dash' cmd w' H.
    apply build_spec in H as (_ & _ & _ & H).
    destruct H as (dash & user & Hd & _ & Ht & Hu & Hl & Hne & Hv & Hlen & _ & _ & _ & _
                   & Hc & _).
    exists dash. split_and!; try assumption.
    rewrite Ht. apply StringsFacts.TrimSpace_idem.
  - intros dto va vp w dash Hd Ht Hf1 Hf2. apply String.eqb_neq in Ht.
    split.
    + intros Hv. unfold buildSaveDashboardCommand. rewrite Hd. unfold_go.
      read_fields. rewrite Ht, Hf1, Hf2, Hv. eexists. reflexivity.
    + intros Hv Hlen. apply Nat.ltb_lt in Hlen.
      unfold buildSaveDashboardCommand. rewrite Hd. unfold_go.
      read_fields. rewrite Ht, Hf1, Hf2, Hv, Hlen. eexists. reflexivity.
  - intros dto va vp w dash Hd Hws.
    apply StringsFacts.TrimSpace_WhitespaceOnly in Hws.
    unfold buildSaveDashboardCommand. rewrite Hd. unfold_go.
    read_fields. rewrite Hws. eexists. reflexivity.
Qed.

(** When the mirror step as a whole answers an error, the save returns it
    and stops there: nothing more is dispatched. *)
Lemma SaveDashboard_mirror_error_aborts dto w dash cmd w1 user prev w2 e w3 :
  buildSaveDashboardCommand env dto true true w = (Done (dash, Val cmd), w1) ->
  dto_User dto = Some user -> Token user <> "" ->
  getPreviousDashboard env dash w1 = (Done prev, w2) ->
  mirrorStep env dto dash user prev w2 = (Done (Some e), w3) ->
  SaveDashboard env dto w = (Done (Err e), w3).
Proof.
  intros Hb Hu Ht Hp Hs.
  rewrite (SaveDashboard_after_build _ _ _ _ _ _ _ _ Hb Hu Ht Hp).
  unfold bind. rewrite Hs. reflexivity.
Qed.

End Service.

End DashboardFacts.


(** ** Further properties of the GitLab connector *)

Module SocialMore.
Import social more.

(** X1.  [getRepo] answers the first mapping for the org, whatever follows
    it: a later mapping for the same org is never used. *)
Theorem getRepo_first_match (s : SocialGitlab) (orgId : Z) (repo : GrafanaGitlabRepo) :
  getRepo s orgId = Some repo <->
  exists pre post,
    repos s = pre ++ repo :: post /\ repo_OrgId repo = orgId /\
    forall r, In r pre -> repo_OrgId r <> orgId.
Proof.
  unfold getRepo. generalize (repos s) as l. intros l. split.
  - induction l as [|r l IH]; simpl; [discriminate|].
    destruct (Z.eqb_spec (repo_OrgId r) orgId) as [Heq|Hne].
    + intros H. injection H as <-. exists [], l. split_and!; [reflexivity|exact Heq|].
      intros r0 [].
    + intros H. destruct (IH H) as (pre & post & -> & Heq & Hpre).
      exists (r :: pre), post. split_and!; [reflexivity|exact Heq|].
      intros r0 [<-|Hin]; [exact Hne | exact (Hpre r0 Hin)].
  - intros (pre & post & -> & Heq & Hpre).
    induction pre as [|r pre IH]; simpl.
    + apply Z.eqb_eq in Heq. rewrite Heq. reflexivity.
    + destruct (Z.eqb_spec (repo_OrgId r) orgId) as [Hr|_].
      * exfalso. apply (Hpre r); [left; reflexivity | exact Hr].
      * apply IH. intros r0 Hin. apply Hpre. right. exact Hin.
Qed.

(** X2.  An action that is none of the three constants is committed as a
    file update with an empty commit message. *)
Theorem unknown_action_is_update_without_message (options : UpdateDashboardOptions) :
  opt_Action options <> UpdateDashboard ->
  opt_Action options <> CreateDashboard ->
  opt_Action options <> DeleteDashboard ->
  getGitlabAction (opt_Action options) = FileUpdate /\
  createCommitMessage options = "".
Proof.
  intros Hu Hc Hd. unfold getGitlabAction, createCommitMessage.
  apply String.eqb_neq in Hu, Hc, Hd. rewrite Hu, Hc, Hd. split; reflexivity.
Qed.

Section Connector.
Context {S : Type} (remote : Remote S).

(** X3.  For a create and for a delete the caller's message never reaches
    GitLab: the call is the same whatever the message. *)
Theorem UpdateDashboard_ignores_message_unless_update
    (s : SocialGitlab) (options : UpdateDashboardOptions) (message token : string) :
  opt_Action options = CreateDashboard \/ opt_Action options = DeleteDashboard ->
  SocialGitlab_UpdateDashboard remote s (withMessage options message) token
  = SocialGitlab_UpdateDashboard remote s options token.
Proof.
  intros H. unfold SocialGitlab_UpdateDashboard, createCommitMessage, withMessage.
  cbn [opt_Action opt_Message opt_Title opt_Name opt_Dashboard opt_Folder opt_OrgId].
  destruct H as [-> | ->]; reflexivity.
Qed.

(** X4.  With a mapping for the org, [UpdateDashboard] does not panic and
    returns nil or the one opaque sync error, nil exactly when the commit
    call made with the mapping's URL and repository id succeeds; the cause
    of a failure is dropped. *)
Theorem UpdateDashboard_with_mapping
    (s : SocialGitlab) (options : UpdateDashboardOptions) (token : string) (st : S)
    (repo : GrafanaGitlabRepo) :
  getRepo s (opt_OrgId options) = Some repo ->
  exists commit,
    SocialGitlab_UpdateDashboard remote s options token st =
    (let '(err, st') :=
       CreateCommit remote (repo_Url repo) token (repo_RepoId repo) commit st in
     (Done match err with Some _ => Some ErrDashboardGitlabSync | None => None end,
      st')) /\
    cc_Branch commit = repo_Branch repo /\
    cc_CommitMessage commit = createCommitMessage options /\
    exists action, cc_Actions commit = [action] /\
                   ca_Action action = getGitlabAction (opt_Action options) /\
                   ca_Content action = opt_Dashboard options /\
                   ca_FilePath action =
                     path_Join remote [repo_DashboardsPath repo; opt_Folder options;
                                       opt_Name options +:+ ".json"].
Proof.
  intros H. unfold SocialGitlab_UpdateDashboard. rewrite H.
  exists {| cc_Branch := repo_Branch repo;
            cc_CommitMessage := createCommitMessage options;
            cc_Actions := [ {| ca_Action := getGitlabAction (opt_Action options);
                               ca_Content := opt_Dashboard options;
                               ca_FilePath :=
                                 path_Join remote
                                   [repo_DashboardsPath repo; opt_Folder options;
                                    opt_Name options +:+ ".json"] |} ] |}.
  split.
  - unfold bind, call, ret.
    match goal with |- context [CreateCommit remote ?a ?b ?c ?d st] =>
      destruct (CreateCommit remote a b c d st) as [[e|] st'] end; reflexivity.
  - split_and!; [reflexivity | reflexivity |].
    eexists; split_and!; reflexivity.
Qed.

Lemma FindStringSubmatch_complete pre u post :
  u <> "" -> regexp.noGt u = true ->
  exists m u', regexp.FindStringSubmatch (pre +:+ regexp.linkNext u +:+ post)
               = Some (m, u').
Proof.
  intros Hne Hgt. induction pre as [|c pre IH].
  - change ("" +:+ regexp.linkNext u +:+ post) with (regexp.linkNext u +:+ post).
    rewrite (RegexpFacts.FindStringSubmatch_linkNext _ _ Hne Hgt). eauto.
  - rewrite RegexpFacts.append_cons. destruct IH as (m & u' & IH).
    destruct (Ascii.eqb c "<"%char) eqn:Ec.
    + apply Ascii.eqb_eq in Ec. subst c. rewrite RegexpFacts.FindStringSubmatch_lt.
      destruct (regexp.spanNotGt _) as [u0 tl].
      destruct (negb (String.eqb u0 "") && String.prefix regexp.relNext tl); eauto.
    + simpl. rewrite Ec. eauto.
Qed.

Lemma FindStringSubmatch_without_lt l0 :
  (forall pre post, l0 <> pre +:+ String "<"%char post) ->
  regexp.FindStringSubmatch l0 = None.
Proof.
  intros H. destruct (regexp.FindStringSubmatch l0) as [[m u]|] eqn:E; [|reflexivity].
  apply RegexpFacts.FindStringSubmatch_sound in E as (-> & _ & _ & pre & post & E).
  exfalso. apply (H pre (u +:+ regexp.relNext +:+ post)). rewrite E.
  unfold regexp.linkNext. rewrite !RegexpFacts.append_assoc. reflexivity.
Qed.

(** X5.  Of the [Link] header only the first value is read.  A well-formed
    next link anywhere in it makes the page link on; if it holds no ['<'],
    the page is the last one, whatever the other values of the header
    say. *)
Theorem GetGroupsPage_reads_first_link_value
    (s : SocialGitlab) (url : string) (st st1 : S) (response : HttpGetResponse)
    (groups : list Group) (link0 : string) (others : list string) :
  url <> "" -> HttpGet remote url st = (Val response, st1) ->
  json_Unmarshal remote (Body response) = Val groups ->
  Headers response !! "Link" = Some (link0 :: others) ->
  (forall pre u post,
     link0 = pre +:+ regexp.linkNext u +:+ post -> u <> "" -> regexp.noGt u = true ->
     exists next, next <> "" /\
       GetGroupsPage remote s url st = (Done (Some (map FullPath groups), next), st1)) /\
  ((forall pre post, link0 <> pre +:+ String "<"%char post) ->
   GetGroupsPage remote s url st = (Done (Some (map FullPath groups), ""), st1)).
Proof.
  intros Hurl Hget Hjson Hlink. split.
  - intros pre u post -> Hne Hgt.
    destruct (FindStringSubmatch_complete pre u post Hne Hgt) as (m & u' & Hf).
    exists u'. split.
    + apply RegexpFacts.FindStringSubmatch_sound in Hf. tauto.
    + apply (SocialFacts.GetGroupsPage_page remote s _ _ _ _ _ _ Hurl Hget Hjson).
      unfold nextOf. rewrite Hlink, Hf. reflexivity.
  - intros Hno.
    apply (SocialFacts.GetGroupsPage_page remote s _ _ _ _ _ _ Hurl Hget Hjson).
    unfold nextOf. rewrite Hlink, (FindStringSubmatch_without_lt _ Hno). reflexivity.
Qed.

Lemma GetGroups_loop_cycle s url st response grps :
  url <> "" -> HttpGet remote url st = (Val response, st) ->
  json_Unmarshal remote (Body response) = Val grps ->
  nextOf response = Some url ->
  forall fuel groups page,
    GetGroups_loop remote fuel s groups (Some page) url st = (Done None, st).
Proof.
  intros Hurl Hget Hjson Hnext. induction fuel as [|fuel IH]; intros groups page.
  - reflexivity.
  - cbn [GetGroups_loop]. unfold bind.
    rewrite (SocialFacts.GetGroupsPage_page remote s _ _ _ _ _ _ Hurl Hget Hjson Hnext).
    apply IH.
Qed.

(** X6.  Nothing bounds the pages [GetGroups] follows: against a server
    whose first page names itself as the next one and answers the same every
    time, the loop never ends, whatever fuel it is given. *)
Theorem GetGroups_self_link_never_returns
    (s : SocialGitlab) (st : S) (response : HttpGetResponse) (grps : list Group)
    (post : string) (others : list string) :
  HttpGet remote (apiUrl s +:+ "/groups") st = (Val response, st) ->
  json_Unmarshal remote (Body response) = Val grps ->
  Headers response !! "Link"
    = Some ((regexp.linkNext (apiUrl s +:+ "/groups") +:+ post) :: others) ->
  regexp.noGt (apiUrl s +:+ "/groups") = true ->
  forall fuel, GetGroups remote fuel s st = (Done None, st).
Proof.
  intros Hget Hjson Hlink Hgt fuel.
  pose proof (SocialFacts.groups_url_nonempty (apiUrl s)) as Hurl.
  pose proof (SocialFacts.nextOf_linkNext _ _ _ _ Hurl Hgt Hlink) as Hnext.
  unfold GetGroups, bind.
  rewrite (SocialFacts.GetGroupsPage_page remote s _ _ _ _ _ _ Hurl Hget Hjson Hnext).
  apply (GetGroups_loop_cycle s _ _ _ _ Hurl Hget Hjson Hnext).
Qed.

End Connector.

End SocialMore.


(** ** [UserInfo] of the GitLab connector *)

Module UserInfoFacts.
Import social userinfo.

Section UserInfo.
Context {S : Type} (remote : Remote S).
Variable json_Unmarshal_user : string -> res UserData.
Variable Error : error -> string.

(** X7.  An account whose state is not "active" is rejected with an error
    naming the user, and the groups are never asked for: the world is left
    as the one request for the user left it. *)
Theorem UserInfo_rejects_inactive
    (fuel : nat) (s : SocialGitlab) (st st1 : S)
    (response : HttpGetResponse) (data : UserData) :
  HttpGet remote (apiUrl s +:+ "/user") st = (Val response, st1) ->
  json_Unmarshal_user (Body response) = Val data ->
  data_State data <> "active" ->
  UserInfo remote json_Unmarshal_user Error fuel s st =
  (Done (Some (Err (ErrExternal ("User " +:+ data_Username data +:+ " is inactive")))),
   st1).
Proof.
  intros Hget Hjson Hstate. apply String.eqb_neq in Hstate.
  unfold UserInfo, bind, call. rewrite Hget, Hjson, Hstate. reflexivity.
Qed.

(** X8.  Whoever [UserInfo] admits is an active account that passes the
    group policy, and the groups it reports are exactly the ones the group
    listing returned; login, name, email and the decimal id come from the
    decoded user. *)
Theorem UserInfo_admits_only_active_members
    (fuel : nat) (s : SocialGitlab) (st st' : S) (info : BasicUserInfo) :
  UserInfo remote json_Unmarshal_user Error fuel s st = (Done (Some (Val info)), st') ->
  exists response data st1,
    HttpGet remote (apiUrl s +:+ "/user") st = (Val response, st1) /\
    json_Unmarshal_user (Body response) = Val data /\
    data_State data = "active" /\
    GetGroups remote fuel s st1 = (Done (Some (bui_Groups info)), st') /\
    IsGroupMember s (bui_Groups info) = true /\
    bui_Login info = data_Username data /\
    bui_Name info = data_Name data /\
    bui_Email info = data_Email data /\
    bui_Id info = Sprintf_d (data_Id data).
Proof.
  unfold UserInfo, bind, call. intros H.
  destruct (HttpGet remote (apiUrl s +:+ "/user") st) as [[response|e] st1] eqn:Hget;
    [|discriminate].
  destruct (json_Unmarshal_user (Body response)) as [data|e] eqn:Hjson; [|discriminate].
  destruct (String.eqb_spec (data_State data) "active") as [Hstate|_];
    [|discriminate]. cbn [negb] in H.
  destruct (GetGroups remote fuel s st1) as [[[groups|]|] st2] eqn:Hgroups;
    try discriminate.
  destruct (IsGroupMember s groups) eqn:Hmember; [|discriminate].
  cbn [negb] in H. inversion H; subst; clear H.
  exists response, data, st1. cbn [bui_Groups bui_Login bui_Name bui_Email bui_Id].
  split_and!; try reflexivity; assumption.
Qed.

Lemma IsGroupMember_no_groups (s : SocialGitlab) :
  allowedGroups s <> [] -> IsGroupMember s [] = false.
Proof.
  intros Hne. unfold IsGroupMember.
  destruct (allowedGroups s) as [|a allowed]; [contradiction|].
  cbn [length Nat.eqb]. generalize (a :: allowed). intros l.
  induction l as [|x l IH]; [reflexivity | exact IH].
Qed.

(** X9.  When the first request for the groups fails, an active user is
    admitted with an empty group list if no allow-list is configured, and
    rejected for missing group membership if one is: the failure itself is
    not reported. *)
Theorem UserInfo_when_groups_fail
    (fuel : nat) (s : SocialGitlab) (st st1 st2 : S)
    (response : HttpGetResponse) (data : UserData) (e : error) :
  HttpGet remote (apiUrl s +:+ "/user") st = (Val response, st1) ->
  json_Unmarshal_user (Body response) = Val data ->
  data_State data = "active" ->
  HttpGet remote (apiUrl s +:+ "/groups") st1 = (Err e, st2) ->
  (allowedGroups s = [] ->
   exists info,
     UserInfo remote json_Unmarshal_user Error fuel s st = (Done (Some (Val info)), st2) /\
     bui_Groups info = [] /\ bui_Login info = data_Username data) /\
  (allowedGroups s <> [] ->
   UserInfo remote json_Unmarshal_user Error fuel s st
   = (Done (Some (Err ErrMissingGroupMembership)), st2)).
Proof.
  intros Hget Hjson Hstate Hgroups.
  assert (HG : GetGroups remote fuel s st1 = (Done (Some []), st2)).
  { apply (SocialFacts.GetGroups_pages remote s st1 [] st2 fuel); [|simpl; lia].
    apply pages_http_error with (e := e);
      [apply SocialFacts.groups_url_nonempty | exact Hgroups]. }
  assert (Ha : negb (String.eqb (data_State data) "active") = false)
    by (rewrite Hstate; reflexivity).
  unfold UserInfo, bind, call. rewrite Hget, Hjson, Ha, HG.
  split.
  - intros Hempty. unfold IsGroupMember. rewrite Hempty. cbn [length Nat.eqb negb].
    eexists. split; [reflexivity|]. split; reflexivity.
  - intros Hne. rewrite (IsGroupMember_no_groups s Hne). reflexivity.
Qed.

End UserInfo.

End UserInfoFacts.


(** ** The fake dashboard service *)

Module FakeFacts.
Import models dashboards fake more.

Lemma SaveDashboard_records s dto :
  SavedDashboards (fst (SaveDashboard s dto)) = SavedDashboards s ++ [dto].
Proof.
  unfold SaveDashboard. cbn.
  destruct (SaveDashboardResult s), (SaveDashboardError s); reflexivity.
Qed.

(** X10.  A fake without preset answer adopts the dashboard of the first
    request it is given and answers every later save with that same
    dashboard, not with the one being saved; each request is recorded. *)
Theorem fake_first_dashboard_sticks
    (s : FakeDashboardService) (dto1 dto2 : SaveDashboardDTO) (d1 : Dashboard) :
  SaveDashboardResult s = None -> SaveDashboardError s = None ->
  dto_Dashboard dto1 = Some d1 ->
  snd (SaveDashboard s dto1) = (Some d1, None) /\
  snd (SaveDashboard (fst (SaveDashboard s dto1)) dto2) = (Some d1, None) /\
  SavedDashboards (fst (SaveDashboard (fst (SaveDashboard s dto1)) dto2))
  = SavedDashboards s ++ [dto1; dto2].
Proof.
  intros Hr He Hd. split_and!.
  - unfold SaveDashboard. cbn. rewrite Hr, He. cbn. rewrite Hd. reflexivity.
  - unfold SaveDashboard. cbn. rewrite Hr, He. cbn. rewrite Hd. reflexivity.
  - rewrite !SaveDashboard_records, <- app_assoc. reflexivity.
Qed.

Lemma findSaved_first_match pre x post index dashboardId orgId :
  Forall (savedOther dashboardId orgId) pre -> savedAs dashboardId orgId x ->
  findSaved (pre ++ x :: post) index dashboardId orgId
  = Done (Some (index + length pre)%nat).
Proof.
  intros Hpre (d & Hd & Hid & Horg). revert index.
  induction Hpre as [|y pre (dy & Hdy & Hne) _ IH]; intros index; simpl.
  - rewrite Hd. apply Z.eqb_eq in Hid, Horg. rewrite Hid, Horg.
    rewrite Nat.add_0_r. reflexivity.
  - rewrite Hdy.
    destruct (Z.eqb_spec (Id dy) dashboardId) as [H1|_];
      [destruct (Z.eqb_spec (dto_OrgId y) orgId) as [H2|_]; [tauto|] |];
      cbn [andb]; rewrite IH; f_equal; f_equal; lia.
Qed.

Lemma findSaved_no_match saved index dashboardId orgId :
  Forall (savedOther dashboardId orgId) saved ->
  findSaved saved index dashboardId orgId = Done None.
Proof.
  intros H. revert index.
  induction H as [|y saved (dy & Hdy & Hne) _ IH]; intros index; simpl;
    [reflexivity|].
  rewrite Hdy.
  destruct (Z.eqb_spec (Id dy) dashboardId) as [H1|_];
    [destruct (Z.eqb_spec (dto_OrgId y) orgId) as [H2|_]; [tauto|] |];
    cbn [andb]; apply IH.
Qed.

(** X11.  [DeleteDashboard] of the fake forgets the first recorded request
    for the dashboard id and org, keeps every other one in order (later
    requests for the same dashboard included), and leaves the record
    untouched when none matches; it returns nil either way. *)
Theorem fake_DeleteDashboard_removes_first_match
    (s : FakeDashboardService) (dashboardId orgId : Z) :
  (forall pre x post,
     SavedDashboards s = pre ++ x :: post ->
     Forall (savedOther dashboardId orgId) pre -> savedAs dashboardId orgId x ->
     DeleteDashboard s dashboardId orgId =
     Done ({| SaveDashboardResult := SaveDashboardResult s;
              SaveDashboardError := SaveDashboardError s;
              SavedDashboards := pre ++ post |}, None)) /\
  (Forall (savedOther dashboardId orgId) (SavedDashboards s) ->
   DeleteDashboard s dashboardId orgId = Done (s, None)).
Proof.
  split.
  - intros pre x post Hs Hpre Hx. unfold DeleteDashboard. rewrite Hs.
    rewrite (findSaved_first_match pre x post 0 _ _ Hpre Hx). cbn [Nat.add].
    rewrite take_app_length.
    change (Datatypes.S (length pre)) with (1 + length pre)%nat.
    rewrite Nat.add_comm, <- drop_drop, drop_app_length. reflexivity.
  - intros H. unfold DeleteDashboard. rewrite (findSaved_no_match _ 0 _ _ H).
    reflexivity.
Qed.

(** X12.  Saving a request and then deleting its dashboard brings the
    record of the fake back to what it was, provided no request recorded
    before was for the same dashboard and org. *)
Theorem fake_save_then_delete
    (s : FakeDashboardService) (dto : SaveDashboardDTO) (d : Dashboard) :
  dto_Dashboard dto = Some d ->
  Forall (savedOther (Id d) (dto_OrgId dto)) (SavedDashboards s) ->
  exists s',
    DeleteDashboard (fst (SaveDashboard s dto)) (Id d) (dto_OrgId dto)
    = Done (s', None) /\
    SavedDashboards s' = SavedDashboards s.
Proof.
  intros Hd Hs. unfold DeleteDashboard. rewrite SaveDashboard_records.
  rewrite (findSaved_first_match (SavedDashboards s) dto [] 0 _ _ Hs);
    [|exists d; auto].
  cbn [Nat.add]. eexists. split; [reflexivity|]. cbn [SavedDashboards].
  rewrite take_app_length.
  change (Datatypes.S (length (SavedDashboards s)))
    with (1 + length (SavedDashboards s))%nat.
  rewrite Nat.add_comm, <- drop_drop, drop_app_length. simpl. apply app_nil_r.
Qed.

End FakeFacts.


(** ** The provider registry *)

Module RegistryFacts.
Import social registry more.

#[local] Set Warnings "-clear-no-such-hyp".

Lemma list_ascii_of_string_app (a b : string) :
  list_ascii_of_string (a +:+ b) = list_ascii_of_string a ++ list_ascii_of_string b.
Proof.
  induction a as [|c a IH]; [reflexivity|].
  rewrite RegexpFacts.append_cons. simpl. rewrite IH. reflexivity.
Qed.

Lemma TrimSuffix_slash (u : string) : TrimSuffix (u +:+ "/") "/" = u.
Proof.
  unfold TrimSuffix. rewrite list_ascii_of_string_app.
  change (list_ascii_of_string "/") with ["/"%char].
  rewrite length_app. cbn [length].
  replace (length (list_ascii_of_string u) + 1 - 1)%nat
    with (length (list_ascii_of_string u)) by lia.
  rewrite drop_app_length, take_app_length.
  replace (Nat.leb 1 (length (list_ascii_of_string u) + 1)) with true
    by (symmetry; apply Nat.leb_le; lia).
  rewrite bool_decide_eq_true_2 by reflexivity.
  apply string_of_list_ascii_of_string.
Qed.

Lemma TrimSuffix_no_slash (u : string) :
  (forall v, u <> v +:+ "/") -> TrimSuffix u "/" = u.
Proof.
  intros H. unfold TrimSuffix.
  change (list_ascii_of_string "/") with ["/"%char]. cbn [length].
  destruct (Nat.leb 1 (length (list_ascii_of_string u))) eqn:Hl; [|reflexivity].
  destruct (bool_decide_reflect
              (drop (length (list_ascii_of_string u) - 1) (list_ascii_of_string u)
               = ["/"%char])) as [Hd|_]; [|reflexivity].
  exfalso.
  apply (H (string_of_list_ascii
              (take (length (list_ascii_of_string u) - 1) (list_ascii_of_string u)))).
  rewrite <- (string_of_list_ascii_of_string u) at 1.
  rewrite <- (take_drop (length (list_ascii_of_string u) - 1) (list_ascii_of_string u)) at 1.
  rewrite Hd.
  rewrite <- (list_ascii_of_string_of_list_ascii
                (take (length (list_ascii_of_string u) - 1) (list_ascii_of_string u))) at 1.
  change ["/"%char] with (list_ascii_of_string "/").
  rewrite <- list_ascii_of_string_app. apply string_of_list_ascii_of_string.
Qed.

Section Registry.
Context (ini : Ini).

(** One turn of the loop, for a name of [allOauthes] whose section exists. *)
Lemma registerProvider_step st name g sec :
  Section_ (Raw st) ("auth." +:+ name) = Some sec -> In name allOauthes ->
  exists g',
    registerProvider ini st name g = Done g' /\
    OAuthInfos g' =
      (if MustBool ini (sec "enabled")
       then <[registeredAs name := readInfo ini name sec]> (OAuthInfos g)
       else OAuthInfos g) /\
    dom (SocialMap g') =
      (if MustBool ini (sec "enabled")
       then {[registeredAs name]} ∪ dom (SocialMap g) else dom (SocialMap g)).
Proof.
  intros Hsec Hin. unfold registerProvider. rewrite Hsec.
  cbn [Enabled readInfo SendClientCredentialsViaPost].
  destruct (MustBool ini (sec "enabled")); cbn [negb];
    [|eexists; split_and!; reflexivity].
  destruct (MustBool ini (sec "send_client_credentials_via_post"));
    (repeat (destruct Hin as [<-|Hin]); [..|destruct Hin]);
    eexists; (split; [reflexivity|]); cbn; rewrite ?dom_insert_L;
    split; reflexivity.
Qed.

Lemma registerProvider_done st name g g' :
  registerProvider ini st name g = Done g' ->
  exists sec, Section_ (Raw st) ("auth." +:+ name) = Some sec.
Proof.
  unfold registerProvider.
  destruct (Section_ (Raw st) ("auth." +:+ name)) as [sec|]; [eauto | discriminate].
Qed.

Lemma registeredAs_providerNames name :
  In name allOauthes -> registeredAs name ∈ providerNames.
Proof.
  intros Hin. unfold providerNames.
  repeat (destruct Hin as [<-|Hin]); [..|destruct Hin]; cbn; set_solver.
Qed.

Lemma registerAll_invariants st names g g' :
  (forall name, In name names -> In name allOauthes) ->
  registerAll ini st names g = Done g' ->
  dom (SocialMap g) ⊆ dom (SocialMap g') /\
  dom (SocialMap g') ⊆ dom (SocialMap g) ∪ providerNames /\
  (dom (OAuthInfos g) ⊆ dom (SocialMap g) -> dom (OAuthInfos g') ⊆ dom (SocialMap g')).
Proof.
  revert g. induction names as [|name names IH]; intros g Hnames H.
  - simpl in H. injection H as <-. set_solver.
  - simpl in H. destruct (registerProvider ini st name g) as [g1|] eqn:E; [|discriminate].
    destruct (registerProvider_done _ _ _ _ E) as [sec Hsec].
    destruct (registerProvider_step st name g sec Hsec (Hnames name (or_introl eq_refl)))
      as (g1' & E' & Hi & Hd).
    rewrite E in E'. injection E' as <-.
    destruct (IH g1 (fun n Hn => Hnames n (or_intror Hn)) H) as (H1 & H2 & H3).
    pose proof (registeredAs_providerNames name (Hnames name (or_introl eq_refl))) as Hp.
    rewrite Hd in H1, H2. rewrite Hd, Hi in H3.
    clear IH E Hsec Hd Hi H. set (names5 := providerNames) in *. clearbody names5.
    destruct (MustBool ini (sec "enabled")).
    + split_and!; [set_solver | set_solver |].
      intros Hsub. apply H3. rewrite dom_insert_L. set_solver.
    + split_and!; [exact H1 | exact H2 | exact H3].
Qed.

(** X13.  [NewOAuthService] only adds to [SocialMap]: what was registered
    stays registered, also for a provider that is no longer enabled; what it
    adds is among github, gitlab, google, generic_oauth and grafana_com; and
    every provider it leaves an OAuth info for has a connector. *)
Theorem NewOAuthService_invariants (st : Settings) (g g' : Globals) :
  NewOAuthService ini st g = Done g' ->
  dom (SocialMap g) ⊆ dom (SocialMap g') /\
  dom (SocialMap g') ⊆ dom (SocialMap g) ∪ providerNames /\
  dom (OAuthInfos g') ⊆ dom (SocialMap g').
Proof.
  unfold NewOAuthService. intros H.
  apply registerAll_invariants in H as (H1 & H2 & H3); [|auto].
  cbn [SocialMap OAuthInfos] in *. split_and!; [exact H1 | exact H2 |].
  apply H3. rewrite dom_empty_L. set_solver.
Qed.

Lemma lookup_cond_insert_ne {A} (b : bool) (k j : string) (v : A) (m : gmap string A) :
  k <> j -> (if b then <[k := v]> m else m) !! j = m !! j.
Proof. intros H. destruct b; [apply lookup_insert_ne, H | reflexivity]. Qed.

Lemma lookup_cond_insert_eq {A} (b : bool) (k : string) (v : A) (m : gmap string A) :
  (if b then <[k := v]> m else m) !! k = if b then Some v else m !! k.
Proof. destruct b; [apply lookup_insert_eq | reflexivity]. Qed.

Lemma elem_of_cond_union_ne (b : bool) (k j : string) (d : gset string) :
  k <> j -> j ∈ (if b then {[k]} ∪ d else d) <-> j ∈ d.
Proof. intros H. destruct b; [set_solver | reflexivity]. Qed.

Lemma elem_of_cond_union_eq (b : bool) (k : string) (d : gset string) :
  k ∈ (if b then {[k]} ∪ d else d) <-> b = true \/ k ∈ d.
Proof. destruct b; [set_solver | intuition discriminate]. Qed.

(** The whole run, when the six sections exist. *)
Lemma NewOAuthService_run st g (secs : string -> IniSection) :
  (forall name, In name allOauthes ->
                Section_ (Raw st) ("auth." +:+ name) = Some (secs name)) ->
  let on name := MustBool ini (secs name "enabled") in
  let info name (m : gmap string OAuthInfo) :=
    if on name then <[registeredAs name := readInfo ini name (secs name)]> m else m in
  let key name (d : gset string) :=
    if on name then {[registeredAs name]} ∪ d else d in
  exists g',
    NewOAuthService ini st g = Done g' /\
    OAuthInfos g' =
      info "grafana_com" (info "grafananet" (info "generic_oauth"
        (info "google" (info "gitlab" (info "github" ∅))))) /\
    dom (SocialMap g') =
      key "grafana_com" (key "grafananet" (key "generic_oauth"
        (key "google" (key "gitlab" (key "github" (dom (SocialMap g))))))).
Proof.
  intros Hsec on info key. unfold NewOAuthService, allOauthes, grafanaCom.
  cbn [registerAll].
  repeat match goal with
  | |- context [registerProvider ini st ?name ?g0] =>
      let g1 := fresh "g" in
      let Hi := fresh "Hi" in
      let Hd := fresh "Hd" in
      destruct (registerProvider_step st name g0 (secs name))
        as (g1 & -> & Hi & Hd);
      [apply Hsec; cbn; tauto | cbn; tauto |]
  end.
  eexists. split; [reflexivity|].
  subst info key on. cbn beta.
  repeat match goal with H : OAuthInfos _ = _ |- _ => rewrite H; clear H end.
  repeat match goal with H : dom (SocialMap _) = _ |- _ => rewrite H; clear H end.
  split; reflexivity.
Qed.

(** X14.  With the six sections present, [NewOAuthService] registers github,
    gitlab, google and generic_oauth exactly when their own section enables
    them, each with the info read from that section.  grafana_com is
    registered when [auth.grafana_com] or the legacy [auth.grafananet]
    enables it, with the info of [auth.grafana_com] when both do; nothing is
    ever registered under the name grafananet. *)
Theorem NewOAuthService_registers_enabled
    (st : Settings) (g : Globals) (secs : string -> IniSection) :
  (forall name, In name allOauthes ->
                Section_ (Raw st) ("auth." +:+ name) = Some (secs name)) ->
  exists g',
    NewOAuthService ini st g = Done g' /\
    (forall name, In name ["github"; "gitlab"; "google"; "generic_oauth"] ->
       (name ∈ dom (SocialMap g') <->
        name ∈ dom (SocialMap g) \/ MustBool ini (secs name "enabled") = true) /\
       OAuthInfos g' !! name =
         (if MustBool ini (secs name "enabled")
          then Some (readInfo ini name (secs name)) else None)) /\
    ("grafana_com" ∈ dom (SocialMap g') <->
     "grafana_com" ∈ dom (SocialMap g) \/
     MustBool ini (secs "grafananet" "enabled") = true \/
     MustBool ini (secs "grafana_com" "enabled") = true) /\
    OAuthInfos g' !! "grafana_com" =
      (if MustBool ini (secs "grafana_com" "enabled")
       then Some (readInfo ini "grafana_com" (secs "grafana_com"))
       else if MustBool ini (secs "grafananet" "enabled")
            then Some (readInfo ini "grafananet" (secs "grafananet")) else None) /\
    OAuthInfos g' !! "grafananet" = None /\
    ("grafananet" ∈ dom (SocialMap g') <-> "grafananet" ∈ dom (SocialMap g)).
Proof.
  intros Hsec. destruct (NewOAuthService_run st g secs Hsec) as (g' & Hrun & Hi & Hd).
  exists g'. split; [exact Hrun|]. rewrite Hi, Hd. clear Hrun Hi Hd Hsec.
  unfold registeredAs, grafanaCom. cbn [String.eqb Ascii.eqb Bool.eqb].
  split_and!;
    [intros name Hin; repeat (destruct Hin as [<-|Hin]); [..|destruct Hin]; split|..];
    repeat first [ rewrite lookup_cond_insert_ne by discriminate
                 | rewrite lookup_cond_insert_eq
                 | rewrite elem_of_cond_union_ne by discriminate
                 | rewrite elem_of_cond_union_eq ];
    first [reflexivity | tauto].
Qed.

Lemma registerAll_AppUrl st st' names g :
  Raw st = Raw st' -> GrafanaComUrl st = GrafanaComUrl st' ->
  TrimSuffix (AppUrl st) "/" = TrimSuffix (AppUrl st') "/" ->
  registerAll ini st names g = registerAll ini st' names g.
Proof.
  intros Hr Hg Ha. revert g. induction names as [|name names IH]; intros g;
    [reflexivity|].
  cbn [registerAll].
  assert (E : registerProvider ini st name g = registerProvider ini st' name g).
  { unfold registerProvider. rewrite Hr, Hg, Ha. reflexivity. }
  rewrite E. destruct (registerProvider ini st' name g); [apply IH | reflexivity].
Qed.

(** X15.  One trailing slash of the application URL makes no difference to
    what [NewOAuthService] registers, the redirect URLs included. *)
Theorem NewOAuthService_ignores_trailing_slash
    (raw : File) (appUrl grafanaComUrl : string) (g : Globals) :
  (forall v, appUrl <> v +:+ "/") ->
  NewOAuthService ini
    {| Raw := raw; AppUrl := appUrl +:+ "/"; GrafanaComUrl := grafanaComUrl |} g
  = NewOAuthService ini
      {| Raw := raw; AppUrl := appUrl; GrafanaComUrl := grafanaComUrl |} g.
Proof.
  intros H. unfold NewOAuthService. apply registerAll_AppUrl; [reflexivity..|].
  cbn [AppUrl]. rewrite TrimSuffix_slash, (TrimSuffix_no_slash _ H). reflexivity.
Qed.

(** What [GetOAuthProviders] reports for a name. *)
Lemma GetOAuthProviders_lookup (raw : File) (name : string) :
  In name ["github"; "gitlab"; "google"; "generic_oauth"; "grafana_com"] ->
  GetOAuthProviders ini (Some {| cfg_Raw := Some raw |}) !! name
  = (fun sec : IniSection => MustBool ini (sec "enabled"))
      <$> Section_ raw ("auth." +:+ name).
Proof.
  intros Hin. unfold GetOAuthProviders, allOauthes, grafanaCom.
  cbn [cfg_Raw fold_left String.eqb Ascii.eqb Bool.eqb].
  repeat (destruct Hin as [<-|Hin]); [..|destruct Hin];
    destruct (Section_ raw ("auth." +:+ "github")),
             (Section_ raw ("auth." +:+ "gitlab")),
             (Section_ raw ("auth." +:+ "google")),
             (Section_ raw ("auth." +:+ "generic_oauth")),
             (Section_ raw ("auth." +:+ "grafana_com"));
    by simplify_map_eq.
Qed.

(** X16.  [GetOAuthProviders] answers the empty map without configuration.
    Otherwise it reports, for each of github, gitlab, google, generic_oauth
    and grafana_com whose section exists, the enabled flag of that section
    and nothing else: it has no entry for grafananet and never reads the
    legacy section. *)
Theorem GetOAuthProviders_reports_sections (raw : File) :
  GetOAuthProviders ini None = ∅ /\
  GetOAuthProviders ini (Some {| cfg_Raw := None |}) = ∅ /\
  (forall name,
     In name ["github"; "gitlab"; "google"; "generic_oauth"; "grafana_com"] ->
     GetOAuthProviders ini (Some {| cfg_Raw := Some raw |}) !! name
     = (fun sec : IniSection => MustBool ini (sec "enabled"))
         <$> Section_ raw ("auth." +:+ name)) /\
  dom (GetOAuthProviders ini (Some {| cfg_Raw := Some raw |})) ⊆ providerNames.
Proof.
  split_and!; [reflexivity | reflexivity | apply GetOAuthProviders_lookup |].
  unfold GetOAuthProviders, allOauthes, grafanaCom, providerNames.
  cbn [cfg_Raw fold_left String.eqb Ascii.eqb Bool.eqb].
  destruct (Section_ raw ("auth." +:+ "github")),
           (Section_ raw ("auth." +:+ "gitlab")),
           (Section_ raw ("auth." +:+ "google")),
           (Section_ raw ("auth." +:+ "generic_oauth")),
           (Section_ raw ("auth." +:+ "grafana_com"));
    rewrite ?dom_insert_L, ?dom_empty_L; set_solver.
Qed.

(** X17.  A provider enabled only through the legacy section
    [auth.grafananet] gets its connector registered as grafana_com by
    [NewOAuthService], while [GetOAuthProviders] on the same file reports
    grafana_com as not enabled. *)
Theorem legacy_grafananet_registered_but_reported_disabled
    (st : Settings) (g : Globals) (secs : string -> IniSection) :
  (forall name, In name allOauthes ->
                Section_ (Raw st) ("auth." +:+ name) = Some (secs name)) ->
  MustBool ini (secs "grafananet" "enabled") = true ->
  MustBool ini (secs "grafana_com" "enabled") = false ->
  exists g',
    NewOAuthService ini st g = Done g' /\
    "grafana_com" ∈ dom (SocialMap g') /\
    OAuthInfos g' !! "grafana_com"
    = Some (readInfo ini "grafananet" (secs "grafananet")) /\
    GetOAuthProviders ini (Some {| cfg_Raw := Some (Raw st) |}) !! "grafana_com"
    = Some false.
Proof.
  intros Hsec Hnet Hcom.
  destruct (NewOAuthService_run st g secs Hsec) as (g' & Hrun & Hi & Hd).
  exists g'. split; [exact Hrun|]. rewrite Hi, Hd, Hnet, Hcom.
  unfold registeredAs, grafanaCom. cbn [String.eqb Ascii.eqb Bool.eqb].
  split_and!.
  - set_solver.
  - by simplify_map_eq.
  - rewrite GetOAuthProviders_lookup by (cbn; tauto).
    rewrite (Hsec "grafana_com") by (cbn; tauto). cbn. rewrite Hcom. reflexivity.
Qed.

End Registry.

End RegistryFacts.


(** ** Further properties of the dashboard service *)

Module DashboardMore.
Import models dashboards more DashboardFacts.

Section Service.
Context {S : Type} (env : Collaborators S).

(** What a build that returns leaves behind, whatever it returns. *)
Lemma build_result dto validateAlerts validateProvisioned w dash' r w' :
  buildSaveDashboardCommand env dto validateAlerts validateProvisioned w
    = (Done (dash', r), w') ->
  exists dash,
    dto_Dashboard dto = Some dash /\ dash' = normalized dash /\
    match r with
    | Err _ => True
    | Val cmd =>
        cmd_Dashboard cmd = Data (normalized dash) /\
        cmd_Message cmd = dto_Message dto /\
        cmd_OrgId cmd = dto_OrgId dto /\
        cmd_Overwrite cmd = dto_Overwrite dto /\
        cmd_FolderId cmd = FolderId dash /\
        cmd_IsFolder cmd = IsFolder dash /\
        cmd_PluginId cmd = PluginId dash /\
        cmd_UpdatedAt cmd = dto_UpdatedAt dto
    end.
Proof.
  intros H. unfold buildSaveDashboardCommand in H. unfold_go.
  split_run H; inversion H; subst; clear H.
  all: eexists; split; [reflexivity|]; split; [reflexivity|]; try exact I.
  all: destruct (Z.eqb_spec (dto_UpdatedAt dto) 0) as [E|E];
    unfold IsZero in *; cbn;
    repeat match goal with
           | Hz : negb (_ =? _)%Z = _ |- _ => apply negb_true_iff in Hz || apply negb_false_iff in Hz
           end;
    try (rewrite E in *); split_and!; try reflexivity; try congruence; try lia.
  all: try (exfalso; match goal with Hz : (_ =? _)%Z = _ |- _ =>
                       first [apply Z.eqb_eq in Hz | apply Z.eqb_neq in Hz] end;
            congruence).
Qed.


Lemma normalized_fields dash :
  normalized dash =
  {| Id := Id dash; Uid := strings.TrimSpace (Uid dash); dash_OrgId := dash_OrgId dash;
     Title := strings.TrimSpace (Title dash); FolderId := FolderId dash;
     IsFolder := IsFolder dash; Version := Version dash; PluginId := PluginId dash;
     Slug := Slug dash;
     Data := <["uid" := JString (strings.TrimSpace (Uid dash))]>
               (<["title" := JString (strings.TrimSpace (Title dash))]> (Data dash)) |}.
Proof. reflexivity. Qed.

Lemma normalized_idem dash : normalized (normalized dash) = normalized dash.
Proof.
  rewrite (normalized_fields (normalized dash)), (normalized_fields dash).
  cbn [Id Uid dash_OrgId Title FolderId IsFolder Version PluginId Slug Data].
  rewrite !StringsFacts.TrimSpace_idem. f_equal.
  apply map_eq. intros key.
  destruct (decide (key = "uid")) as [->|H1]; [by simplify_map_eq|].
  destruct (decide (key = "title")) as [->|H2]; by simplify_map_eq.
Qed.

(** X19.  Normalising is idempotent: building again from the dashboard a
    build has left behind leaves the very same dashboard, whatever the two
    builds return. *)
Theorem buildSaveDashboardCommand_normalizes_once
    dto va vp w dash' r w' va2 vp2 w2 dash'' r2 w3 :
  buildSaveDashboardCommand env dto va vp w = (Done (dash', r), w') ->
  buildSaveDashboardCommand env (withDashboard dto dash') va2 vp2 w2
    = (Done (dash'', r2), w3) ->
  dash'' = dash'.
Proof.
  intros H1 H2.
  apply build_result in H1 as (dash & _ & -> & _).
  apply build_result in H2 as (dash2 & Hd & -> & _).
  cbn in Hd. injection Hd as <-. apply normalized_idem.
Qed.

(** X20.  A folder that names a parent folder is refused with
    [ErrDashboardFolderCannotHaveParent] as soon as its title is not empty,
    before anything is dispatched; a save of it leaves the world as it
    was. *)
Theorem folder_with_parent_is_refused dto w dash :
  dto_Dashboard dto = Some dash ->
  strings.TrimSpace (Title dash) <> "" ->
  IsFolder dash = true -> (0 < FolderId dash)%Z ->
  (forall validateAlerts validateProvisioned,
     buildSaveDashboardCommand env dto validateAlerts validateProvisioned w
     = (Done (normalized dash, Err ErrDashboardFolderCannotHaveParent), w)) /\
  SaveDashboard env dto w = (Done (Err ErrDashboardFolderCannotHaveParent), w) /\
  ImportDashboard env dto w = (Done (Err ErrDashboardFolderCannotHaveParent), w).
Proof.
  intros Hd Ht Hf Hp. apply String.eqb_neq in Ht. apply Z.ltb_lt in Hp.
  assert (Hb : forall va vp,
             buildSaveDashboardCommand env dto va vp w
             = (Done (normalized dash, Err ErrDashboardFolderCannotHaveParent), w)).
  { intros va vp. unfold buildSaveDashboardCommand. rewrite Hd. unfold_go.
    read_fields. rewrite Ht, Hf, Hp. reflexivity. }
  split_and!; [exact Hb | |].
  - unfold SaveDashboard, bind. rewrite Hb. reflexivity.
  - unfold ImportDashboard, bind. rewrite Hb. reflexivity.
Qed.

(** X21.  An error of the build ends each of the four flows then and
    there: the flow returns that error in the world the build left, and
    nothing the build did was a persistence dispatch or a mirror
    operation. *)
Theorem build_error_ends_every_flow dto w dash e w' :
  (buildSaveDashboardCommand env dto true true w = (Done (dash, Err e), w') ->
   SaveDashboard env dto w = (Done (Err e), w')) /\
  (buildSaveDashboardCommand env dto false true w = (Done (dash, Err e), w') ->
   ImportDashboard env dto w = (Done (Err e), w')) /\
  (forall provisioning,
     buildSaveDashboardCommand env
       (withUser dto (Some (syntheticAdmin (dto_OrgId dto)))) true false w
       = (Done (dash, Err e), w') ->
     SaveProvisionedDashboard env dto provisioning w
     = (Done (requestAfter (withUser dto (Some (syntheticAdmin (dto_OrgId dto)))) dash,
              Err e), w')) /\
  (buildSaveDashboardCommand env (withUser dto (Some (syntheticAdmin 0))) false false w
     = (Done (dash, Err e), w') ->
   SaveFolderForProvisionedDashboards env dto w
   = (Done (requestAfter (withUser dto (Some (syntheticAdmin 0))) dash, Err e), w')) /\
  (forall dto0 va vp,
     buildSaveDashboardCommand env dto0 va vp w = (Done (dash, Err e), w') ->
     exists evs, trace w' = trace w ++ evs /\
                 Forall (fun ev => isPersist ev = false /\ mirrorOf ev = None) evs).
Proof.
  split_and!.
  - intros H. unfold SaveDashboard, bind. rewrite H. reflexivity.
  - intros H. unfold ImportDashboard, bind. rewrite H. reflexivity.
  - intros provisioning H. unfold SaveProvisionedDashboard, bind.
    unfold syntheticAdmin in H. rewrite H. reflexivity.
  - intros H. unfold SaveFolderForProvisionedDashboards, bind.
    unfold syntheticAdmin in H. rewrite H. reflexivity.
  - intros dto0 va vp H. apply build_spec in H as (evs & Ht & Hq & _).
    exists evs. split; [exact Ht|].
    eapply Forall_impl; [exact Hq|]. apply buildEvent_quiet.
Qed.

Lemma build_events_by_flags dto va vp w o w' :
  buildSaveDashboardCommand env dto va vp w = (o, w') ->
  exists evs, trace w' = trace w ++ evs /\
    Forall (fun e => isDashboardLookup e = false /\
                     (vp = false -> isProvisioningLookup e = false) /\
                     (va = false -> isAlerting e = false)) evs.
Proof.
  intros H. unfold buildSaveDashboardCommand in H. unfold_go.
  split_run H; inversion H; subst; clear H; close_trace.
  all: repeat first [apply List.Forall_nil | apply List.Forall_cons].
  all: cbn; split_and!; try reflexivity; intros; discriminate.
Qed.

(** The events of a flow that gets no command from the build. *)
Lemma flows_without_command dto w :
  (forall va vp dto0 dash cmd w',
     buildSaveDashboardCommand env dto0 va vp w <> (Done (dash, Val cmd), w')) ->
  (exists evs, trace (snd (SaveDashboard env dto w)) = trace w ++ evs /\
               Forall quiet evs) /\
  (exists evs, trace (snd (ImportDashboard env dto w)) = trace w ++ evs /\
               Forall quiet evs) /\
  (forall provisioning,
     exists evs,
       trace (snd (SaveProvisionedDashboard env dto provisioning w)) = trace w ++ evs /\
       Forall quiet evs) /\
  (exists evs,
     trace (snd (SaveFolderForProvisionedDashboards env dto w)) = trace w ++ evs /\
     Forall quiet evs).
Proof.
  intros H.
  assert (Hq : forall va vp dto0 k,
            exists evs,
              trace (snd (bind (buildSaveDashboardCommand env dto0 va vp)
                            (fun x : Dashboard * res SaveDashboardCommand =>
                               match x with
                               | (dash, Err err) =>
                                   ret (Err err : res (option Dashboard))
                               | (dash, Val cmd) => k dash cmd
                               end) w))
              = trace w ++ evs /\ Forall quiet evs).
  { intros va vp dto0 k. unfold bind.
    destruct (buildSaveDashboardCommand env dto0 va vp w) as [[[dash r]|] w1] eqn:E.
    - destruct r as [cmd|e]; [exfalso; exact (H _ _ _ _ _ _ E)|].
      apply build_spec in E as (evs & Ht & Hev & _). exists evs. cbn.
      split; [exact Ht|]. eapply Forall_impl; [exact Hev|]. apply buildEvent_quiet.
    - apply build_spec in E as (evs & Ht & Hev & _). exists evs. cbn.
      split; [exact Ht|]. eapply Forall_impl; [exact Hev|]. apply buildEvent_quiet. }
  assert (Hp : forall va dto0 (k : Dashboard -> SaveDashboardCommand ->
                                   M (res (option Dashboard))),
            exists evs,
              trace (snd (bind (buildSaveDashboardCommand env dto0 va false)
                            (fun x : Dashboard * res SaveDashboardCommand =>
                               let '(dash, r) := x in
                               bind (match r with
                                     | Err err => ret (Err err)
                                     | Val cmd => k dash cmd
                                     end)
                                 (fun r => ret (requestAfter dto0 dash, r))) w))
              = trace w ++ evs /\ Forall quiet evs).
  { intros va dto0 k. unfold bind at 1.
    destruct (buildSaveDashboardCommand env dto0 va false w) as [[[dash r]|] w1] eqn:E.
    - destruct r as [cmd|e]; [exfalso; exact (H _ _ _ _ _ _ E)|].
      apply build_spec in E as (evs & Ht & Hev & _). exists evs. cbn.
      split; [exact Ht|]. eapply Forall_impl; [exact Hev|]. apply buildEvent_quiet.
    - apply build_spec in E as (evs & Ht & Hev & _). exists evs. cbn.
      split; [exact Ht|]. eapply Forall_impl; [exact Hev|]. apply buildEvent_quiet. }
  split_and!.
  - apply (Hq true true dto).
  - apply (Hq false true dto).
  - intros provisioning. apply (Hp true).
  - apply (Hp false).
Qed.

(** X22.  No command is built without the guardian's consent: if the
    guardian never answers yes without an error, no build returns a command,
    and no flow dispatches a persistence command or mirrors anything. *)
Theorem nothing_is_saved_without_guardian_consent dto w :
  (forall id orgId user s0,
     fst (guardian_CanSave env id orgId user s0) <> (true, None)) ->
  (forall va vp dto0 dash cmd w',
     buildSaveDashboardCommand env dto0 va vp w <> (Done (dash, Val cmd), w')) /\
  (exists evs, trace (snd (SaveDashboard env dto w)) = trace w ++ evs /\
               Forall (fun e => isPersist e = false /\ mirrorOf e = None) evs) /\
  (exists evs, trace (snd (ImportDashboard env dto w)) = trace w ++ evs /\
               Forall (fun e => isPersist e = false /\ mirrorOf e = None) evs) /\
  (forall provisioning,
     exists evs,
       trace (snd (SaveProvisionedDashboard env dto provisioning w)) = trace w ++ evs /\
       Forall (fun e => isPersist e = false /\ mirrorOf e = None) evs) /\
  (exists evs,
     trace (snd (SaveFolderForProvisionedDashboards env dto w)) = trace w ++ evs /\
     Forall (fun e => isPersist e = false /\ mirrorOf e = None) evs).
Proof.
  intros Hg.
  assert (Hb : forall va vp dto0 dash cmd w',
             buildSaveDashboardCommand env dto0 va vp w <> (Done (dash, Val cmd), w')).
  { intros va vp dto0 dash cmd w' H.
    unfold buildSaveDashboardCommand in H. unfold_go.
    split_run H; inversion H; subst; clear H;
      match goal with
      | E : guardian_CanSave env ?i ?o ?u ?x = (?b, None, _),
        Hn : negb ?b = false |- _ =>
          apply negb_false_iff in Hn; rewrite Hn in E;
          apply (Hg i o u x); rewrite E; reflexivity
      end. }
  split; [exact Hb|]. exact (flows_without_command dto w Hb).
Qed.

(** X23.  While the bus reports every dashboard as provisioned, a build
    that validates provisioning returns no command: [SaveDashboard] and
    [ImportDashboard] dispatch no persistence command and mirror nothing. *)
Theorem provisioned_dashboards_are_not_saved dto w :
  (forall id s0, exists provisioning s1,
     bus_GetProvisionedDashboardDataById env id s0 = (Val (Some provisioning), s1)) ->
  (forall va dto0 dash cmd w',
     buildSaveDashboardCommand env dto0 va true w <> (Done (dash, Val cmd), w')) /\
  (exists evs, trace (snd (SaveDashboard env dto w)) = trace w ++ evs /\
               Forall (fun e => isPersist e = false /\ mirrorOf e = None) evs) /\
  (exists evs, trace (snd (ImportDashboard env dto w)) = trace w ++ evs /\
               Forall (fun e => isPersist e = false /\ mirrorOf e = None) evs).
Proof.
  intros Hp.
  assert (Hb : forall va dto0 dash cmd w',
             buildSaveDashboardCommand env dto0 va true w <> (Done (dash, Val cmd), w')).
  { intros va dto0 dash cmd w' H.
    unfold buildSaveDashboardCommand in H. unfold_go.
    split_run H; inversion H; subst; clear H;
      match goal with
      | E : bus_GetProvisionedDashboardDataById env ?i ?x = (Val None, _) |- _ =>
          destruct (Hp i x) as (? & ? & E'); rewrite E' in E; discriminate
      end. }
  split; [exact Hb|].
  assert (Hq : forall va,
            exists evs,
              trace (snd (bind (buildSaveDashboardCommand env dto va true)
                            (fun x : Dashboard * res SaveDashboardCommand =>
                               match x with
                               | (dash, Err err) =>
                                   ret (Err err : res (option Dashboard))
                               | (dash, Val cmd) => ret (Val None)
                               end) w))
              = trace w ++ evs /\ Forall quiet evs).
  { intros va. unfold bind.
    destruct (buildSaveDashboardCommand env dto va true w) as [[[dash r]|] w1] eqn:E.
    - destruct r as [cmd|e]; [exfalso; exact (Hb _ _ _ _ _ E)|].
      apply build_spec in E as (evs & Ht & Hev & _). exists evs. cbn.
      split; [exact Ht|]. eapply Forall_impl; [exact Hev|]. apply buildEvent_quiet.
    - apply build_spec in E as (evs & Ht & Hev & _). exists evs. cbn.
      split; [exact Ht|]. eapply Forall_impl; [exact Hev|]. apply buildEvent_quiet. }
  split.
  - destruct (Hq true) as (evs & Ht & Hev). exists evs. split; [|exact Hev].
    rewrite <- Ht. unfold SaveDashboard, bind.
    destruct (buildSaveDashboardCommand env dto true true w) as [[[dash r]|] w1] eqn:E;
      [|reflexivity].
    destruct r as [cmd|e]; [exfalso; exact (Hb _ _ _ _ _ E) | reflexivity].
  - destruct (Hq false) as (evs & Ht & Hev). exists evs. split; [|exact Hev].
    rewrite <- Ht. unfold ImportDashboard, bind.
    destruct (buildSaveDashboardCommand env dto false true w) as [[[dash r]|] w1] eqn:E;
      [|reflexivity].
    destruct r as [cmd|e]; [exfalso; exact (Hb _ _ _ _ _ E) | reflexivity].
Qed.

Lemma updateDashboard_events dashboard action user message w o w' :
  updateDashboard env dashboard action user message w = (o, w') ->
  exists evs, trace w' = trace w ++ evs /\
    Forall (fun e => isAlerting e = false /\ isProvisioningLookup e = false /\
                     isPersist e = false) evs.
Proof.
  intros H. unfold updateDashboard, getDashboardFolder in H. unfold_go.
  split_run H; inversion H; subst; clear H; close_trace.
  all: repeat first [apply List.Forall_nil | apply List.Forall_cons].
  all: cbn; split_and!; reflexivity.
Qed.

(** X24.  The two provisioning flows never ask whether the dashboard is
    provisioned, and [ImportDashboard] never touches the alerts: it neither
    validates nor updates them. *)
Theorem flows_skip_what_their_flags_say dto w :
  (forall provisioning,
     exists evs,
       trace (snd (SaveProvisionedDashboard env dto provisioning w)) = trace w ++ evs /\
       Forall (fun e => isProvisioningLookup e = false) evs) /\
  (exists evs,
     trace (snd (SaveFolderForProvisionedDashboards env dto w)) = trace w ++ evs /\
     Forall (fun e => isProvisioningLookup e = false) evs) /\
  (exists evs,
     trace (snd (ImportDashboard env dto w)) = trace w ++ evs /\
     Forall (fun e => isAlerting e = false) evs).
Proof.
  split_and!.
  - intros provisioning.
    destruct (SaveProvisionedDashboard env dto provisioning w) as [o w'] eqn:H.
    unfold SaveProvisionedDashboard in H. unfold_go.
    split_run H; inversion H; subst; clear H;
      match goal with
      | Hb : buildSaveDashboardCommand _ _ _ _ _ = _ |- _ =>
          apply build_events_by_flags in Hb as (evs & Htr & Hev)
      end;
      simpl in Htr; simpl; rewrite Htr, <- ?app_assoc; simpl;
      (eexists; split; [reflexivity|]);
      rewrite ?Forall_app; split_and?;
      try (eapply Forall_impl; [exact Hev|]; cbn; intros ? (_ & Hl & _); auto);
      repeat first [apply List.Forall_nil | apply List.Forall_cons]; reflexivity.
  - destruct (SaveFolderForProvisionedDashboards env dto w) as [o w'] eqn:H.
    unfold SaveFolderForProvisionedDashboards in H. unfold_go.
    split_run H; inversion H; subst; clear H;
      match goal with
      | Hb : buildSaveDashboardCommand _ _ _ _ _ = _ |- _ =>
          apply build_events_by_flags in Hb as (evs & Htr & Hev)
      end;
      simpl in Htr; simpl; rewrite Htr, <- ?app_assoc; simpl;
      (eexists; split; [reflexivity|]);
      rewrite ?Forall_app; split_and?;
      try (eapply Forall_impl; [exact Hev|]; cbn; intros ? (_ & Hl & _); auto);
      repeat first [apply List.Forall_nil | apply List.Forall_cons]; reflexivity.
  - destruct (ImportDashboard env dto w) as [o w'] eqn:H.
    unfold ImportDashboard in H. unfold bind at 1 in H.
    destruct (buildSaveDashboardCommand env dto false true w) as [[[dash r]|] w1] eqn:Hb;
      apply build_events_by_flags in Hb as (evs1 & Ht1 & Hev1);
      assert (Hq1 : Forall (fun e => isAlerting e = false) evs1)
        by (eapply Forall_impl; [exact Hev1|]; cbn; intros ? (_ & _ & Hl); auto);
      [|inversion H; subst; exists evs1; split; [exact Ht1 | exact Hq1]].
    destruct r as [cmd|e];
      [|inversion H; subst; exists evs1; split; [exact Ht1 | exact Hq1]].
    destruct (dto_User dto) as [user|];
      [|inversion H; subst; exists evs1; split; [exact Ht1 | exact Hq1]].
    unfold bind at 1 in H.
    destruct (negb (String.eqb (Token user) "")).
    + destruct (updateDashboard env dash social.CreateDashboard user (dto_Message dto) w1)
        as [o2 w2] eqn:Hu.
      apply updateDashboard_events in Hu as (evs2 & Ht2 & Hev2).
      assert (Hq2 : Forall (fun e => isAlerting e = false) evs2)
        by (eapply Forall_impl; [exact Hev2|]; cbn; intros ? (Hl & _); auto).
      unfold_go.
      split_run H; inversion H; subst; clear H; simpl;
        rewrite ?Ht2, ?Ht1, <- ?app_assoc;
        (eexists; split; [reflexivity|]);
        rewrite ?Forall_app; split_and?; try assumption;
        repeat first [apply List.Forall_nil | apply List.Forall_cons]; reflexivity.
    + unfold_go. inversion H; subst. exists evs1. split; [exact Ht1 | exact Hq1].
Qed.

(** X25.  A save by a user without token, once the build has given a
    command: neither a dashboard lookup nor a mirror operation happens.  The
    command is dispatched; if that fails the error is returned and the
    alerts are left alone; otherwise the alerts are updated for the
    dashboard the bus returned, and an error there is returned although the
    dashboard is persisted. *)
Theorem SaveDashboard_without_token dto w dash cmd w1 user :
  buildSaveDashboardCommand env dto true true w = (Done (dash, Val cmd), w1) ->
  dto_User dto = Some user -> Token user = "" ->
  SaveDashboard env dto w =
  (let '(r, s1) := bus_SaveDashboard env cmd (outside w1) in
   match r with
   | Err e =>
       (Done (Err e),
        {| outside := s1; trace := trace w1 ++ [EvDispatch (SaveDashboardCmd cmd)] |})
   | Val result =>
       let '(err, s2) :=
         bus_UpdateDashboardAlerts env (dto_OrgId dto) result (dto_User dto) s1 in
       (Done match err with Some e => Err e | None => Val result end,
        {| outside := s2;
           trace := trace w1 ++
             [EvDispatch (SaveDashboardCmd cmd);
              EvDispatch (UpdateDashboardAlertsCommand (dto_OrgId dto) result
                            (dto_User dto))] |})
   end).
Proof.
  intros Hb Hu Ht.
  unfold SaveDashboard. unfold_go. rewrite Hb. cbn beta iota. rewrite Hu, Ht. cbn.
  destruct (bus_SaveDashboard env cmd (outside w1)) as [[result|e] s1];
    [|reflexivity]. cbn.
  destruct (bus_UpdateDashboardAlerts env (dto_OrgId dto) result (Some user) s1)
    as [[e|] s2]; cbn; rewrite <- app_assoc; reflexivity.
Qed.

(** X26.  Nothing is undone when persistence fails after the mirror: if the
    mirror step answered nil and the bus refuses the command, the save
    returns the bus's error, everything the mirror step did stays done, and
    after the failed dispatch nothing more is dispatched. *)
Theorem SaveDashboard_keeps_mirror_when_persistence_fails
    dto w dash cmd w1 user prev w2 w3 e s4 :
  buildSaveDashboardCommand env dto true true w = (Done (dash, Val cmd), w1) ->
  dto_User dto = Some user -> Token user <> "" ->
  getPreviousDashboard env dash w1 = (Done prev, w2) ->
  mirrorStep env dto dash user prev w2 = (Done None, w3) ->
  bus_SaveDashboard env cmd (outside w3) = (Err e, s4) ->
  SaveDashboard env dto w =
  (Done (Err e),
   {| outside := s4; trace := trace w3 ++ [EvDispatch (SaveDashboardCmd cmd)] |}).
Proof.
  intros Hb Hu Ht Hp Hm Hs.
  rewrite (SaveDashboard_after_build env _ _ _ _ _ _ _ _ Hb Hu Ht Hp).
  unfold bind at 1. rewrite Hm. unfold saveTail. unfold_go. cbn. rewrite Hs.
  reflexivity.
Qed.

(** X27.  An import by a user with a token, once the build has given a
    command, makes one mirror step, a create carrying the request's message.
    If the step answers an error the import returns it and dispatches
    nothing; if it answers nil the command is dispatched and the import
    returns what the bus returns, without an alert update. *)
Theorem ImportDashboard_with_token dto w dash cmd w1 user :
  buildSaveDashboardCommand env dto false true w = (Done (dash, Val cmd), w1) ->
  dto_User dto = Some user -> Token user <> "" ->
  (forall e w2,
     updateDashboard env dash social.CreateDashboard user (dto_Message dto) w1
       = (Done (Some e), w2) ->
     ImportDashboard env dto w = (Done (Err e), w2)) /\
  (forall w2,
     updateDashboard env dash social.CreateDashboard user (dto_Message dto) w1
       = (Done None, w2) ->
     ImportDashboard env dto w =
     (let '(r, s3) := bus_SaveDashboard env cmd (outside w2) in
      (Done match r with Err e => Err e | Val result => Val result end,
       {| outside := s3; trace := trace w2 ++ [EvDispatch (SaveDashboardCmd cmd)] |}))).
Proof.
  intros Hb Hu Ht. apply String.eqb_neq in Ht.
  split.
  - intros e w2 Hm. unfold ImportDashboard. unfold bind at 1.
    rewrite Hb, Hu, Ht. cbn [negb]. unfold bind at 1. rewrite Hm. reflexivity.
  - intros w2 Hm. unfold ImportDashboard. unfold bind at 1.
    rewrite Hb, Hu, Ht. cbn [negb]. unfold bind at 1. rewrite Hm.
    unfold_go. cbn.
    destruct (bus_SaveDashboard env cmd (outside w2)) as [[result|e] s3]; reflexivity.
Qed.

(** X29.  The plain delete, when the provisioning lookup itself fails,
    returns that error wrapped and dispatches no delete; when the lookup
    finds no record, it goes on exactly as the override path does from
    there. *)
Theorem DeleteDashboard_lookup_outcomes dashboardId orgId w :
  (forall e s',
     bus_GetProvisionedDashboardDataById env dashboardId (outside w) = (Err e, s') ->
     DeleteDashboard env dashboardId orgId w =
     (Done (Some (ErrWrap "failed to check if dashboard is provisioned" e)),
      {| outside := s';
         trace := trace w ++
           [EvDispatch (GetProvisionedDashboardDataByIdQuery dashboardId)] |})) /\
  (forall s',
     bus_GetProvisionedDashboardDataById env dashboardId (outside w) = (Val None, s') ->
     DeleteDashboard env dashboardId orgId w =
     DeleteProvisionedDashboard env dashboardId orgId
       {| outside := s';
          trace := trace w ++
            [EvDispatch (GetProvisionedDashboardDataByIdQuery dashboardId)] |}).
Proof.
  split.
  - intros e s' H. unfold DeleteDashboard, deleteDashboard. unfold_go. cbn.
    rewrite H. reflexivity.
  - intros s' H. unfold DeleteDashboard, DeleteProvisionedDashboard, deleteDashboard.
    unfold_go. cbn. rewrite H. reflexivity.
Qed.

(** X28.  The mirror step end to end, for a user whose connector is the
    GitLab one: once the payload is encoded and the folder name is known,
    and the connector has a repository for the dashboard's org, the step is
    exactly one commit call against that repository with the user's token.
    The commit has one action, and its file path is [path.Join] of the
    repository's dashboards path, the folder name as the lookup gave it and
    [<slug>.json]: the folder name is passed on unchanged, whatever it is.
    Any failure of the call comes back as the one sync error. *)
Theorem updateDashboard_commits_to_gitlab
    (remote : social.Remote S) (s : social.SocialGitlab)
    dashboard action user message w model folderName w1 repo :
  SocialMap env !! AuthModule user = Some (social.SocialGitlab_connector remote s) ->
  json_MarshalIndent env (Data dashboard) = Val model ->
  getDashboardFolder env dashboard w = (Done folderName, w1) ->
  social.getRepo s (dash_OrgId dashboard) = Some repo ->
  let options :=
    {| social.opt_Dashboard := model;
       social.opt_Message := message;
       social.opt_OrgId := dash_OrgId dashboard;
       social.opt_Action := action;
       social.opt_Title := Title dashboard;
       social.opt_Folder := folderName;
       social.opt_Name := Slug dashboard |} in
  let commit :=
    {| social.cc_Branch := social.repo_Branch repo;
       social.cc_CommitMessage := social.createCommitMessage options;
       social.cc_Actions :=
         [ {| social.ca_Action := social.getGitlabAction action;
              social.ca_Content := model;
              social.ca_FilePath :=
                social.path_Join remote
                  [social.repo_DashboardsPath repo; folderName;
                   Slug dashboard +:+ ".json"] |} ] |} in
  updateDashboard env dashboard action user message w =
  (let '(err, st') :=
     social.CreateCommit remote (social.repo_Url repo) (Token user)
       (social.repo_RepoId repo) commit (outside w1) in
   (Done match err with Some _ => Some ErrDashboardGitlabSync | None => None end,
    {| outside := st'; trace := trace w1 ++ [EvMirror options (Token user)] |})).
Proof.
  intros Hreg Hm Hf Hrepo options commit.
  unfold updateDashboard. rewrite Hreg, Hm. unfold bind at 1. rewrite Hf.
  unfold_go. cbn.
  unfold social.SocialGitlab_UpdateDashboard. cbn. rewrite Hrepo.
  unfold social.call, bind, ret. fold options. fold commit.
  destruct (social.CreateCommit remote (social.repo_Url repo) (Token user)
              (social.repo_RepoId repo) commit (outside w1)) as [[e|] st'];
    reflexivity.
Qed.

End Service.

End DashboardMore.


(** ** The properties at work on the concrete installation *)

Module Witnesses.
Import models dashboards social Scenario.

(** C1.  Dashboard 5 moves from the General folder to folder 7.  GitLab
    refuses the delete of the old file, so the first mirror step returns the
    sync error; the create that follows succeeds and its nil overwrites the
    error.  The save goes on: the persistence command is dispatched and the
    call returns the saved dashboard, with the old file still in the
    repository next to the new one. *)
Theorem SaveDashboard_loses_delete_error :
  fst (updateDashboard env previous social.DeleteDashboard editor ""
         {| outside := [];
            trace := builtTrace editor true ++ [EvDispatch (GetDashboardQuery 5)] |})
  = Done (Some ErrDashboardGitlabSync) /\
  SaveDashboard env (request editor moved) world0 =
  (Done (Val (Some saved)),
   {| outside := ["Create CPU dashboard"];
      trace := builtTrace editor true ++
        [EvDispatch (GetDashboardQuery 5);
         EvMirror deleteOld "oauth-token";
         EvDispatch (GetDashboardQuery 7);
         EvMirror createNew "oauth-token";
         EvDispatch (SaveDashboardCmd (builtCommand editor));
         EvDispatch (UpdateDashboardAlertsCommand 1 (Some saved) (Some editor))] |}).
Proof. split; vm_compute; reflexivity. Qed.

Lemma UpdateDashboard_missing_mapping_witness :
  (forall repo, In repo (repos gitlab) -> repo_OrgId repo <> opt_OrgId createForOrg2) /\
  SocialGitlab_UpdateDashboard remote gitlab createForOrg2 "oauth-token" []
  = (Panic, []).
Proof.
  assert (H : forall repo, In repo (repos gitlab) ->
                           repo_OrgId repo <> opt_OrgId createForOrg2).
  { intros repo [<-|[]]. discriminate. }
  split; [exact H|].
  exact (SocialFacts.UpdateDashboard_missing_mapping_panics remote gitlab
           createForOrg2 "oauth-token" [] H).
Defined.

Lemma buildSaveDashboardCommand_validates_witness :
  (buildSaveDashboardCommand env (request editor moved) true true world0
   = (Done (builtDashboard, Val (builtCommand editor)), builtWorld editor true) /\
   exists dash,
     dto_Dashboard (request editor moved) = Some dash /\
     Title builtDashboard = strings.TrimSpace (Title dash) /\
     strings.TrimSpace (Title builtDashboard) = Title builtDashboard /\
     Title builtDashboard <> "" /\
     Data builtDashboard !! "title" = Some (JString (Title builtDashboard)) /\
     cmd_Dashboard (builtCommand editor) = Data builtDashboard /\
     Uid builtDashboard = strings.TrimSpace (Uid dash) /\
     IsValidShortUID env (Uid builtDashboard) = true /\
     (String.length (Uid builtDashboard) <= 40)%nat) /\
  (exists dash',
     buildSaveDashboardCommand env
       (request editor
          (incoming "a uid of the wrong shape, and too long as well" "CPU" 0 0))
       true true world0
     = (Done (dash', Err ErrDashboardInvalidUid), world0)) /\
  (exists dash',
     buildSaveDashboardCommand env
       (request editor
          (incoming "a-uid-of-the-right-shape-but-much-too-long" "CPU" 0 0))
       true true world0
     = (Done (dash', Err ErrDashboardUidToLong), world0)) /\
  (exists dash',
     buildSaveDashboardCommand env (request editor (incoming "cpu-1" "  " 0 0))
       true true world0
     = (Done (dash', Err ErrDashboardTitleEmpty), world0)).
Proof.
  pose proof (DashboardFacts.buildSaveDashboardCommand_validates env)
    as (Hok & Huid & Hws).
  split_and!.
  - vm_compute; reflexivity.
  - apply (Hok (request editor moved) true true world0 builtDashboard
             (builtCommand editor) (builtWorld editor true)).
    vm_compute; reflexivity.
  - refine (proj1 (Huid (request editor _) true true world0
                     (incoming "a uid of the wrong shape, and too long as well" "CPU" 0 0)
                     eq_refl _ eq_refl eq_refl) _).
    + vm_compute; discriminate.
    + vm_compute; reflexivity.
  - refine (proj2 (Huid (request editor _) true true world0
                     (incoming "a-uid-of-the-right-shape-but-much-too-long" "CPU" 0 0)
                     eq_refl _ eq_refl eq_refl) _ _).
    + vm_compute; discriminate.
    + vm_compute; reflexivity.
    + vm_compute. lia.
  - refine (Hws (request editor _) true true world0
              (incoming "cpu-1" "  " 0 0) eq_refl _).
    apply strings.ws_1; [reflexivity|]. apply strings.ws_1; [reflexivity|].
    apply strings.ws_nil.
Defined.

Lemma ImportDashboard_requires_token_witness :
  buildSaveDashboardCommand env (request localEditor moved) false true world0
  = (Done (builtDashboard, Val (builtCommand localEditor)), builtWorld localEditor false) /\
  dto_User (request localEditor moved) = Some localEditor /\
  Token localEditor = "" /\
  ImportDashboard env (request localEditor moved) world0
  = (Done (Err ErrDashboardGitlabSync), builtWorld localEditor false) /\
  exists evs, trace (builtWorld localEditor false) = trace world0 ++ evs /\
              Forall (fun e => isPersist e = false /\ mirrorOf e = None) evs.
Proof.
  assert (Hb : buildSaveDashboardCommand env (request localEditor moved) false true world0
               = (Done (builtDashboard, Val (builtCommand localEditor)),
                  builtWorld localEditor false)) by (vm_compute; reflexivity).
  split; [exact Hb|]. split; [reflexivity|]. split; [reflexivity|].
  exact (DashboardFacts.ImportDashboard_requires_token env _ _ _ _ _ _ Hb eq_refl eq_refl).
Defined.


Lemma provisioned_saves_act_as_synthetic_admin_witness :
  (SaveProvisionedDashboard env (request editor moved) provisioning world0 =
   (Done (requestAfter (withUser (request editor moved) (Some (syntheticAdmin 1)))
            builtDashboard,
          Val (Some saved)),
    {| outside := [];
       trace :=
         [EvDispatch (ValidateDashboardAlertsCommand 1 builtDashboard
                        (Some (syntheticAdmin 1)));
          EvDispatch (ValidateDashboardBeforeSaveCommand 1 builtDashboard false);
          EvGuardian 5 1 (Some (syntheticAdmin 1));
          EvDispatch (SaveProvisionedDashboardCommand
                        (builtCommand (syntheticAdmin 1)) provisioning);
          EvDispatch (UpdateDashboardAlertsCommand 1 (Some saved)
                        (Some (syntheticAdmin 1)))] |}) /\
   exists dash cmd folderCheck,
     dto_Dashboard (requestAfter (withUser (request editor moved)
                                    (Some (syntheticAdmin 1))) builtDashboard)
     = Some dash /\
     cmd_UserId cmd = 0%Z /\
     (folderCheck = [] \/
      folderCheck = [EvGuardian (FolderId dash) 1 (Some (syntheticAdmin 1))]) /\
     trace (snd (SaveProvisionedDashboard env (request editor moved) provisioning world0))
     = trace world0 ++
       [EvDispatch (ValidateDashboardAlertsCommand 1 dash (Some (syntheticAdmin 1)));
        EvDispatch (ValidateDashboardBeforeSaveCommand 1 dash false)] ++
       folderCheck ++
       [EvGuardian (GetDashboardIdForSavePermissionCheck dash) 1
          (Some (syntheticAdmin 1));
        EvDispatch (SaveProvisionedDashboardCommand cmd provisioning);
        EvDispatch (UpdateDashboardAlertsCommand 1 (Some saved)
                      (Some (syntheticAdmin 1)))]) /\
  (SaveFolderForProvisionedDashboards env (request editor folder) world0 =
   (Done (requestAfter (withUser (request editor folder) (Some (syntheticAdmin 0)))
            (more.normalized folder),
          Val (Some saved)),
    {| outside := [];
       trace :=
         [EvDispatch (ValidateDashboardBeforeSaveCommand 1 (more.normalized folder) false);
          EvGuardian 7 1 (Some (syntheticAdmin 0));
          EvDispatch (SaveDashboardCmd
                        {| cmd_Dashboard := Data (more.normalized folder);
                           cmd_Message := "move to Ops"; cmd_OrgId := 1;
                           cmd_Overwrite := false; cmd_UserId := 0; cmd_FolderId := 0;
                           cmd_IsFolder := true; cmd_PluginId := "";
                           cmd_UpdatedAt := 0%Z; cmd_Result := None |});
          EvDispatch (UpdateDashboardAlertsCommand 1 (Some saved)
                        (Some (syntheticAdmin 0)))] |}) /\
   exists dash cmd folderCheck,
     dto_Dashboard (requestAfter (withUser (request editor folder)
                                    (Some (syntheticAdmin 0))) (more.normalized folder))
     = Some dash /\
     cmd_UserId cmd = 0%Z /\
     (folderCheck = [] \/
      folderCheck = [EvGuardian (FolderId dash) 1 (Some (syntheticAdmin 0))]) /\
     trace (snd (SaveFolderForProvisionedDashboards env (request editor folder) world0))
     = trace world0 ++
       [EvDispatch (ValidateDashboardBeforeSaveCommand 1 dash false)] ++
       folderCheck ++
       [EvGuardian (GetDashboardIdForSavePermissionCheck dash) 1
          (Some (syntheticAdmin 0));
        EvDispatch (SaveDashboardCmd cmd);
        EvDispatch (UpdateDashboardAlertsCommand 1 (Some saved)
                      (Some (syntheticAdmin 0)))]).
Proof.
  pose proof (DashboardFacts.provisioned_saves_act_as_synthetic_admin env
                (request editor moved) provisioning world0)
    as (_ & _ & _ & Hrun & _).
  pose proof (DashboardFacts.provisioned_saves_act_as_synthetic_admin env
                (request editor folder) provisioning world0)
    as (_ & _ & _ & _ & _ & _ & _ & Hrun0).
  assert (H1 : SaveProvisionedDashboard env (request editor moved) provisioning world0 =
    (Done (requestAfter (withUser (request editor moved) (Some (syntheticAdmin 1)))
             builtDashboard,
           Val (Some saved)),
     {| outside := [];
        trace :=
          [EvDispatch (ValidateDashboardAlertsCommand 1 builtDashboard
                         (Some (syntheticAdmin 1)));
           EvDispatch (ValidateDashboardBeforeSaveCommand 1 builtDashboard false);
           EvGuardian 5 1 (Some (syntheticAdmin 1));
           EvDispatch (SaveProvisionedDashboardCommand
                         (builtCommand (syntheticAdmin 1)) provisioning);
           EvDispatch (UpdateDashboardAlertsCommand 1 (Some saved)
                         (Some (syntheticAdmin 1)))] |}))
    by (vm_compute; reflexivity).
  assert (H2 : SaveFolderForProvisionedDashboards env (request editor folder) world0 =
    (Done (requestAfter (withUser (request editor folder) (Some (syntheticAdmin 0)))
             (more.normalized folder),
           Val (Some saved)),
     {| outside := [];
        trace :=
          [EvDispatch (ValidateDashboardBeforeSaveCommand 1 (more.normalized folder) false);
           EvGuardian 7 1 (Some (syntheticAdmin 0));
           EvDispatch (SaveDashboardCmd
                         {| cmd_Dashboard := Data (more.normalized folder);
                            cmd_Message := "move to Ops"; cmd_OrgId := 1;
                            cmd_Overwrite := false; cmd_UserId := 0; cmd_FolderId := 0;
                            cmd_IsFolder := true; cmd_PluginId := "";
                            cmd_UpdatedAt := 0%Z; cmd_Result := None |});
           EvDispatch (UpdateDashboardAlertsCommand 1 (Some saved)
                         (Some (syntheticAdmin 0)))] |}))
    by (vm_compute; reflexivity).
  split; split.
  - exact H1.
  - destruct (Hrun _ _ _ H1) as (dash & cmd & fc & Hd & Hc & Hfc & Htr).
    exists dash, cmd, fc. rewrite H1. split_and!; assumption.
  - exact H2.
  - destruct (Hrun0 _ _ _ H2) as (dash & cmd & fc & Hd & Hc & Hfc & Htr).
    exists dash, cmd, fc. rewrite H2. split_and!; assumption.
Defined.

Lemma IsGroupMember_spec_witness :
  (allowedGroups openGitlab = [] /\ IsGroupMember openGitlab [] = true) /\
  (allowedGroups gitlab <> [] /\
   (IsGroupMember gitlab ["dev"; "ops"] = true <->
    exists g, In g ["dev"; "ops"] /\ In g (allowedGroups gitlab))).
Proof.
  split.
  - split; [reflexivity|].
    exact (proj1 (SocialFacts.IsGroupMember_spec openGitlab []) eq_refl).
  - assert (H : allowedGroups gitlab <> []) by discriminate.
    split; [exact H|].
    exact (proj2 (SocialFacts.IsGroupMember_spec gitlab ["dev"; "ops"]) H).
Defined.

Lemma GetGroups_follows_next_links_witness :
  (Pages remote (apiUrl gitlab +:+ "/groups") []
     [["ops"; "ops/infra"]; ["dev"]; ["ops"]] [] /\
   GetGroups remote 3 gitlab [] = (Done (Some ["ops"; "ops/infra"; "dev"; "ops"]), [])) /\
  GetGroups remote 3 gitlab [] =
  (Done (Some (map FullPath [ {| FullPath := "ops" |}; {| FullPath := "ops/infra" |} ]
               ++ map FullPath [ {| FullPath := "dev" |} ]
               ++ map FullPath [ {| FullPath := "ops" |} ])), []).
Proof.
  pose proof (SocialFacts.GetGroups_follows_next_links remote gitlab) as [Hall Hthree].
  assert (HP : Pages remote (apiUrl gitlab +:+ "/groups") []
                 [["ops"; "ops/infra"]; ["dev"]; ["ops"]] []).
  { eapply (pages_page remote groupsUrl [] _
              [ {| FullPath := "ops" |}; {| FullPath := "ops/infra" |} ] page2);
      [discriminate | reflexivity | reflexivity | vm_compute; reflexivity |].
    eapply (pages_page remote page2 [] _ [ {| FullPath := "dev" |} ] page3);
      [discriminate | reflexivity | reflexivity | vm_compute; reflexivity |].
    eapply (pages_page remote page3 [] _ [ {| FullPath := "ops" |} ] "");
      [discriminate | reflexivity | reflexivity | vm_compute; reflexivity |].
    apply pages_no_link. }
  split; [split; [exact HP | exact (Hall [] _ [] 3%nat HP (le_n 3))]|].
  refine (Hthree [] [] [] [] _ _ _ _ _ _ page2 page3 "" _ [] [] 3%nat
            eq_refl eq_refl _ _ eq_refl eq_refl eq_refl _ _ eq_refl eq_refl eq_refl eq_refl
            (le_n 3)).
  - vm_compute; reflexivity.
  - discriminate.
  - vm_compute; reflexivity.
  - discriminate.
Defined.

Lemma DeleteDashboard_provisioned_witness :
  bus_GetProvisionedDashboardDataById env 9 (outside world0)
  = (Val (Some provisioning), []) /\
  dashboards.DeleteDashboard env 9 1 world0 =
  (Done (Some ErrDashboardCannotDeleteProvisionedDashboard),
   {| outside := [];
      trace := trace world0 ++ [EvDispatch (GetProvisionedDashboardDataByIdQuery 9)] |}).
Proof.
  split; [reflexivity|].
  exact (proj1 (DashboardFacts.DeleteDashboard_provisioned env 9 1 world0)
           provisioning [] eq_refl).
Defined.

Lemma updateDashboard_needs_registered_connector_witness :
  (SocialMap env !! AuthModule ldapEditor = None /\
   fst (updateDashboard env builtDashboard social.CreateDashboard ldapEditor "" world0)
   = Panic) /\
  (buildSaveDashboardCommand env (request ldapEditor moved) true true world0
   = (Done (builtDashboard, Val (builtCommand ldapEditor)), builtWorld ldapEditor true) /\
   fst (SaveDashboard env (request ldapEditor moved) world0) = Panic) /\
  (buildSaveDashboardCommand env (request ldapEditor moved) false true world0
   = (Done (builtDashboard, Val (builtCommand ldapEditor)), builtWorld ldapEditor false) /\
   fst (ImportDashboard env (request ldapEditor moved) world0) = Panic).
Proof.
  pose proof (DashboardFacts.updateDashboard_needs_registered_connector env)
    as (Hstep & Hsave & Himport).
  assert (Hreg : SocialMap env !! AuthModule ldapEditor = None)
    by (vm_compute; reflexivity).
  assert (Hm : forall data, exists m, json_MarshalIndent env data = Val m)
    by (intros data; exists "{}"; reflexivity).
  assert (Hb1 : buildSaveDashboardCommand env (request ldapEditor moved) true true world0
                = (Done (builtDashboard, Val (builtCommand ldapEditor)),
                   builtWorld ldapEditor true)) by (vm_compute; reflexivity).
  assert (Hb2 : buildSaveDashboardCommand env (request ldapEditor moved) false true world0
                = (Done (builtDashboard, Val (builtCommand ldapEditor)),
                   builtWorld ldapEditor false)) by (vm_compute; reflexivity).
  split_and!.
  - exact Hreg.
  - exact (Hstep builtDashboard social.CreateDashboard ldapEditor "" world0 Hreg (Hm _)).
  - exact Hb1.
  - refine (Hsave _ world0 _ _ _ ldapEditor Hb1 eq_refl _ Hreg Hm). discriminate.
  - exact Hb2.
  - refine (Himport _ world0 _ _ _ ldapEditor Hb2 eq_refl _ Hreg Hm). discriminate.
Defined.

End Witnesses.


(** ** The further properties at work *)

Module Examples.
Import models dashboards social Scenario Cases.

#[local] Set Warnings "-clear-no-such-hyp".

Lemma getRepo_first_match_witness :
  getRepo twoRepos 1 = Some mainRepo /\
  exists pre post,
    repos twoRepos = pre ++ mainRepo :: post /\ repo_OrgId mainRepo = 1%Z /\
    forall r, In r pre -> repo_OrgId r <> 1%Z.
Proof.
  assert (H : getRepo twoRepos 1 = Some mainRepo) by reflexivity.
  split; [exact H|].
  exact (proj1 (SocialMore.getRepo_first_match twoRepos 1 mainRepo) H).
Defined.

Lemma unknown_action_is_update_without_message_witness :
  opt_Action archive <> UpdateDashboard /\
  opt_Action archive <> CreateDashboard /\
  opt_Action archive <> DeleteDashboard /\
  getGitlabAction (opt_Action archive) = FileUpdate /\
  createCommitMessage archive = "".
Proof.
  assert (Hu : opt_Action archive <> UpdateDashboard) by discriminate.
  assert (Hc : opt_Action archive <> CreateDashboard) by discriminate.
  assert (Hd : opt_Action archive <> DeleteDashboard) by discriminate.
  split_and!; [exact Hu | exact Hc | exact Hd | |];
    apply (SocialMore.unknown_action_is_update_without_message archive Hu Hc Hd).
Defined.

Lemma UpdateDashboard_ignores_message_unless_update_witness :
  (opt_Action createNew = CreateDashboard \/ opt_Action createNew = DeleteDashboard) /\
  SocialGitlab_UpdateDashboard remote gitlab
    (more.withMessage createNew "a message nobody reads") "oauth-token"
  = SocialGitlab_UpdateDashboard remote gitlab createNew "oauth-token".
Proof.
  assert (H : opt_Action createNew = CreateDashboard \/
              opt_Action createNew = DeleteDashboard) by (left; reflexivity).
  split; [exact H|].
  exact (SocialMore.UpdateDashboard_ignores_message_unless_update remote gitlab
           createNew "a message nobody reads" "oauth-token" H).
Defined.

Lemma UpdateDashboard_with_mapping_witness :
  getRepo gitlab (opt_OrgId createNew) = Some mainRepo /\
  exists commit,
    SocialGitlab_UpdateDashboard remote gitlab createNew "oauth-token" [] =
    (let '(err, st') :=
       CreateCommit remote (repo_Url mainRepo) "oauth-token" (repo_RepoId mainRepo)
         commit [] in
     (Done match err with Some _ => Some ErrDashboardGitlabSync | None => None end,
      st')) /\
    cc_Branch commit = repo_Branch mainRepo /\
    cc_CommitMessage commit = createCommitMessage createNew /\
    exists action, cc_Actions commit = [action] /\
                   ca_Action action = getGitlabAction (opt_Action createNew) /\
                   ca_Content action = opt_Dashboard createNew /\
                   ca_FilePath action =
                     path_Join remote [repo_DashboardsPath mainRepo; opt_Folder createNew;
                                       opt_Name createNew +:+ ".json"].
Proof.
  assert (H : getRepo gitlab (opt_OrgId createNew) = Some mainRepo) by reflexivity.
  split; [exact H|].
  exact (SocialMore.UpdateDashboard_with_mapping remote gitlab createNew
           "oauth-token" [] mainRepo H).
Defined.

Lemma without_lt (l0 : string) :
  forallb (fun c => negb (Ascii.eqb c "<"%char)) (list_ascii_of_string l0) = true ->
  forall pre post, l0 <> pre +:+ String "<"%char post.
Proof.
  intros H pre post ->. rewrite RegistryFacts.list_ascii_of_string_app in H.
  rewrite forallb_app in H. apply andb_true_iff in H as [_ H].
  simpl in H. discriminate.
Qed.

Lemma GetGroupsPage_reads_first_link_value_witness :
  (page2 <> "" /\ HttpGet remote page2 [] = (Val secondPage, []) /\
   json_Unmarshal remote (Body secondPage) = Val [ {| FullPath := "dev" |} ] /\
   exists next, next <> "" /\
     GetGroupsPage remote gitlab page2 [] = (Done (Some ["dev"], next), [])) /\
  (HttpGet (fixedRemote unlinkedPage) groupsUrl [] = (Val unlinkedPage, []) /\
   Headers unlinkedPage !! "Link" = Some ["rel=last"; regexp.linkNext page2] /\
   GetGroupsPage (fixedRemote unlinkedPage) gitlab groupsUrl []
   = (Done (Some ["ops"], ""), [])).
Proof.
  split.
  - assert (Hurl : page2 <> "") by discriminate.
    assert (Hget : HttpGet remote page2 [] = (Val secondPage, [])) by reflexivity.
    assert (Hjson : json_Unmarshal remote (Body secondPage)
                    = Val [ {| FullPath := "dev" |} ]) by reflexivity.
    split_and!; [exact Hurl | exact Hget | exact Hjson |].
    refine (proj1 (SocialMore.GetGroupsPage_reads_first_link_value remote gitlab
                     page2 [] [] secondPage _ _ [] Hurl Hget Hjson _)
              "" page3 (", <" +:+ groupsUrl +:+ ">; rel=first") _ _ _).
    + vm_compute; reflexivity.
    + vm_compute; reflexivity.
    + discriminate.
    + vm_compute; reflexivity.
  - assert (Hurl : groupsUrl <> "") by discriminate.
    assert (Hget : HttpGet (fixedRemote unlinkedPage) groupsUrl []
                   = (Val unlinkedPage, [])) by reflexivity.
    assert (Hlink : Headers unlinkedPage !! "Link"
                    = Some ["rel=last"; regexp.linkNext page2])
      by (vm_compute; reflexivity).
    split_and!; [exact Hget | exact Hlink |].
    refine (proj2 (SocialMore.GetGroupsPage_reads_first_link_value
                     (fixedRemote unlinkedPage) gitlab groupsUrl [] [] unlinkedPage
                     [ {| FullPath := "ops" |} ] "rel=last" [regexp.linkNext page2]
                     Hurl Hget eq_refl Hlink) _).
    apply without_lt. vm_compute; reflexivity.
Defined.

Lemma GetGroups_self_link_never_returns_witness :
  HttpGet (fixedRemote selfLinkedPage) (apiUrl gitlab +:+ "/groups") []
  = (Val selfLinkedPage, []) /\
  Headers selfLinkedPage !! "Link"
  = Some [regexp.linkNext (apiUrl gitlab +:+ "/groups") +:+ ""] /\
  forall fuel, GetGroups (fixedRemote selfLinkedPage) fuel gitlab [] = (Done None, []).
Proof.
  assert (Hget : HttpGet (fixedRemote selfLinkedPage) (apiUrl gitlab +:+ "/groups") []
                 = (Val selfLinkedPage, [])) by reflexivity.
  assert (Hlink : Headers selfLinkedPage !! "Link"
                  = Some [regexp.linkNext (apiUrl gitlab +:+ "/groups") +:+ ""])
    by (vm_compute; reflexivity).
  split_and!; [exact Hget | exact Hlink |].
  refine (SocialMore.GetGroups_self_link_never_returns (fixedRemote selfLinkedPage)
            gitlab [] selfLinkedPage
            [ {| FullPath := "ops" |}; {| FullPath := "ops/infra" |} ] "" []
            Hget eq_refl Hlink _).
  vm_compute; reflexivity.
Defined.

Lemma UserInfo_rejects_inactive_witness :
  HttpGet userRemote (apiUrl stagingGitlab +:+ "/user") []
  = (Val {| Body := "user 8"; Headers := ∅ |}, []) /\
  parseUser "user 8" = Val bob /\
  userinfo.data_State bob <> "active" /\
  userinfo.UserInfo userRemote parseUser errorText 3 stagingGitlab []
  = (Done (Some (Err (ErrExternal "User bob is inactive"))), []).
Proof.
  assert (Hget : HttpGet userRemote (apiUrl stagingGitlab +:+ "/user") []
                 = (Val {| Body := "user 8"; Headers := ∅ |}, [])) by reflexivity.
  assert (Hjson : parseUser (Body {| Body := "user 8"; Headers := ∅ |}) = Val bob)
    by reflexivity.
  assert (Hstate : userinfo.data_State bob <> "active") by discriminate.
  split_and!; [exact Hget | exact Hjson | exact Hstate |].
  exact (UserInfoFacts.UserInfo_rejects_inactive userRemote parseUser errorText 3
           stagingGitlab [] [] _ bob Hget Hjson Hstate).
Defined.

Lemma UserInfo_admits_only_active_members_witness :
  userinfo.UserInfo userRemote parseUser errorText 3 gitlab [] = (Done (Some (Val annInfo)), []) /\
  exists response data st1,
    HttpGet userRemote (apiUrl gitlab +:+ "/user") [] = (Val response, st1) /\
    parseUser (Body response) = Val data /\
    userinfo.data_State data = "active" /\
    GetGroups userRemote 3 gitlab st1 = (Done (Some (userinfo.bui_Groups annInfo)), []) /\
    IsGroupMember gitlab (userinfo.bui_Groups annInfo) = true /\
    userinfo.bui_Login annInfo = userinfo.data_Username data /\
    userinfo.bui_Name annInfo = userinfo.data_Name data /\
    userinfo.bui_Email annInfo = userinfo.data_Email data /\
    userinfo.bui_Id annInfo = userinfo.Sprintf_d (userinfo.data_Id data).
Proof.
  assert (H : userinfo.UserInfo userRemote parseUser errorText 3 gitlab []
              = (Done (Some (Val annInfo)), [])) by (vm_compute; reflexivity).
  split; [exact H|].
  exact (UserInfoFacts.UserInfo_admits_only_active_members userRemote parseUser
           errorText 3 gitlab [] [] annInfo H).
Defined.

Lemma UserInfo_when_groups_fail_witness :
  (HttpGet userRemote (apiUrl oldOpenGitlab +:+ "/groups") []
   = (Err (ErrExternal "404 Not Found"), []) /\
   allowedGroups oldOpenGitlab = [] /\
   exists info,
     userinfo.UserInfo userRemote parseUser errorText 3 oldOpenGitlab []
     = (Done (Some (Val info)), []) /\
     userinfo.bui_Groups info = [] /\
     userinfo.bui_Login info = userinfo.data_Username ann) /\
  (allowedGroups oldGitlab <> [] /\
   userinfo.UserInfo userRemote parseUser errorText 3 oldGitlab []
   = (Done (Some (Err ErrMissingGroupMembership)), [])).
Proof.
  assert (Hget : forall s, apiUrl s = "https://old.example/api/v3" ->
                 HttpGet userRemote (apiUrl s +:+ "/user") []
                 = (Val {| Body := "user 3"; Headers := ∅ |}, []))
    by (intros s ->; reflexivity).
  assert (Hgroups : forall s, apiUrl s = "https://old.example/api/v3" ->
                    HttpGet userRemote (apiUrl s +:+ "/groups") []
                    = (Err (ErrExternal "404 Not Found"), []))
    by (intros s ->; reflexivity).
  assert (Hjson : parseUser (Body {| Body := "user 3"; Headers := ∅ |}) = Val ann)
    by reflexivity.
  split.
  - split; [exact (Hgroups oldOpenGitlab eq_refl)|]. split; [reflexivity|].
    exact (proj1 (UserInfoFacts.UserInfo_when_groups_fail userRemote parseUser
                    errorText 3 oldOpenGitlab [] [] [] _ ann _
                    (Hget oldOpenGitlab eq_refl) Hjson eq_refl
                    (Hgroups oldOpenGitlab eq_refl)) eq_refl).
  - assert (Hne : allowedGroups oldGitlab <> []) by discriminate.
    split; [exact Hne|].
    exact (proj2 (UserInfoFacts.UserInfo_when_groups_fail userRemote parseUser
                    errorText 3 oldGitlab [] [] [] _ ann _
                    (Hget oldGitlab eq_refl) Hjson eq_refl
                    (Hgroups oldGitlab eq_refl)) Hne).
Defined.

Lemma fake_first_dashboard_sticks_witness :
  fake.SaveDashboardResult freshFake = None /\
  fake.SaveDashboardError freshFake = None /\
  snd (fake.SaveDashboard freshFake (request editor previous)) = (Some previous, None) /\
  snd (fake.SaveDashboard (fst (fake.SaveDashboard freshFake (request editor previous)))
         (request editor folder))
  = (Some previous, None) /\
  fake.SavedDashboards
    (fst (fake.SaveDashboard (fst (fake.SaveDashboard freshFake (request editor previous)))
            (request editor folder)))
  = fake.SavedDashboards freshFake ++ [request editor previous; request editor folder].
Proof.
  split; [reflexivity|]. split; [reflexivity|].
  exact (FakeFacts.fake_first_dashboard_sticks freshFake (request editor previous)
           (request editor folder) previous eq_refl eq_refl eq_refl).
Defined.

Lemma folder_is_other (dashboardId : Z) (user : SignedInUser) :
  dashboardId <> 7%Z -> more.savedOther dashboardId 1 (request user folder).
Proof. intros H. exists folder. split; [reflexivity|]. intros [E _]. exact (H (eq_sym E)). Qed.

Lemma previous_is_other (dashboardId : Z) (user : SignedInUser) :
  dashboardId <> 5%Z -> more.savedOther dashboardId 1 (request user previous).
Proof. intros H. exists previous. split; [reflexivity|]. intros [E _]. exact (H (eq_sym E)). Qed.

Lemma fake_DeleteDashboard_removes_first_match_witness :
  fake.DeleteDashboard usedFake 5 1 =
  Done ({| fake.SaveDashboardResult := Some folder;
           fake.SaveDashboardError := None;
           fake.SavedDashboards := [request editor folder; request ldapEditor previous] |},
        None) /\
  fake.DeleteDashboard usedFake 11 1 = Done (usedFake, None).
Proof.
  pose proof (FakeFacts.fake_DeleteDashboard_removes_first_match usedFake 5 1) as [H _].
  pose proof (FakeFacts.fake_DeleteDashboard_removes_first_match usedFake 11 1) as [_ H'].
  split.
  - apply (H [request editor folder] (request editor previous)
             [request ldapEditor previous] eq_refl).
    + apply List.Forall_cons; [apply folder_is_other; discriminate | apply List.Forall_nil].
    + exists previous. split_and!; reflexivity.
  - apply H'.
    repeat first [apply List.Forall_nil | apply List.Forall_cons];
      first [apply folder_is_other | apply previous_is_other]; discriminate.
Defined.

Lemma fake_save_then_delete_witness :
  Forall (more.savedOther (Id disk) (dto_OrgId (request editor disk)))
    (fake.SavedDashboards usedFake) /\
  exists s',
    fake.DeleteDashboard (fst (fake.SaveDashboard usedFake (request editor disk)))
      (Id disk) (dto_OrgId (request editor disk))
    = Done (s', None) /\
    fake.SavedDashboards s' = fake.SavedDashboards usedFake.
Proof.
  assert (H : Forall (more.savedOther (Id disk) (dto_OrgId (request editor disk)))
                (fake.SavedDashboards usedFake)).
  { repeat first [apply List.Forall_nil | apply List.Forall_cons];
      first [apply folder_is_other | apply previous_is_other]; discriminate. }
  split; [exact H|].
  exact (FakeFacts.fake_save_then_delete usedFake (request editor disk) disk eq_refl H).
Defined.

Lemma sections_exist (appUrl name : string) :
  In name registry.allOauthes ->
  registry.Section_ (registry.Raw (settings appUrl)) ("auth." +:+ name)
  = Some (sectionOf ("auth." +:+ name)).
Proof. intros _. reflexivity. Qed.

Lemma NewOAuthService_invariants_witness :
  registry.NewOAuthService ini (settings "https://grafana.example/") noGlobals
  = Done registered /\
  dom (registry.SocialMap noGlobals) ⊆ dom (registry.SocialMap registered) /\
  dom (registry.SocialMap registered)
    ⊆ dom (registry.SocialMap noGlobals) ∪ more.providerNames /\
  dom (registry.OAuthInfos registered) ⊆ dom (registry.SocialMap registered).
Proof.
  assert (H : registry.NewOAuthService ini (settings "https://grafana.example/") noGlobals
              = Done registered) by (vm_compute; reflexivity).
  split; [exact H|].
  exact (RegistryFacts.NewOAuthService_invariants ini _ _ _ H).
Defined.

Lemma NewOAuthService_registers_enabled_witness :
  exists g',
    registry.NewOAuthService ini (settings "https://grafana.example/") noGlobals = Done g' /\
    ("gitlab" ∈ dom (registry.SocialMap g') <->
     "gitlab" ∈ dom (registry.SocialMap noGlobals) \/
     registry.MustBool ini (gitlabSection "enabled") = true) /\
    registry.OAuthInfos g' !! "google" = None /\
    registry.OAuthInfos g' !! "grafana_com"
    = Some (registry.readInfo ini "grafananet" legacySection) /\
    registry.OAuthInfos g' !! "grafananet" = None.
Proof.
  destruct (RegistryFacts.NewOAuthService_registers_enabled ini
              (settings "https://grafana.example/") noGlobals
              (fun name => sectionOf ("auth." +:+ name))
              (sections_exist "https://grafana.example/"))
    as (g' & Hrun & Hnames & _ & Hcom & Hnet & _).
  exists g'. split; [exact Hrun|].
  split; [exact (proj1 (Hnames "gitlab" ltac:(cbn; tauto)))|].
  split; [exact (proj2 (Hnames "google" ltac:(cbn; tauto)))|].
  split; [exact Hcom | exact Hnet].
Defined.

Lemma not_slash_terminated (u : string) :
  List.last (list_ascii_of_string u) "a"%char <> "/"%char ->
  forall v, u <> v +:+ "/".
Proof.
  intros H v ->. apply H. rewrite RegistryFacts.list_ascii_of_string_app.
  change (list_ascii_of_string "/") with ["/"%char]. apply last_last.
Qed.

Lemma NewOAuthService_ignores_trailing_slash_witness :
  (forall v, "https://grafana.example" <> v +:+ "/") /\
  registry.NewOAuthService ini (settings ("https://grafana.example" +:+ "/")) noGlobals
  = registry.NewOAuthService ini (settings "https://grafana.example") noGlobals.
Proof.
  assert (H : forall v, "https://grafana.example" <> v +:+ "/")
    by (apply not_slash_terminated; vm_compute; discriminate).
  split; [exact H|].
  exact (RegistryFacts.NewOAuthService_ignores_trailing_slash ini file
           "https://grafana.example" "https://grafana.com" noGlobals H).
Defined.

Lemma GetOAuthProviders_reports_sections_witness :
  In "gitlab" ["github"; "gitlab"; "google"; "generic_oauth"; "grafana_com"] /\
  registry.GetOAuthProviders ini (Some {| registry.cfg_Raw := Some file |}) !! "gitlab"
  = Some true /\
  registry.GetOAuthProviders ini (Some {| registry.cfg_Raw := Some file |}) !! "grafananet"
  = None.
Proof.
  pose proof (RegistryFacts.GetOAuthProviders_reports_sections ini file)
    as (_ & _ & Hlookup & Hdom).
  assert (Hin : In "gitlab" ["github"; "gitlab"; "google"; "generic_oauth"; "grafana_com"])
    by (cbn; tauto).
  split; [exact Hin|]. split.
  - rewrite (Hlookup "gitlab" Hin). reflexivity.
  - apply not_elem_of_dom. intros Hd. apply Hdom in Hd.
    unfold more.providerNames in Hd. set_solver.
Defined.

Lemma legacy_grafananet_registered_but_reported_disabled_witness :
  registry.MustBool ini (sectionOf ("auth." +:+ "grafananet") "enabled") = true /\
  registry.MustBool ini (sectionOf ("auth." +:+ "grafana_com") "enabled") = false /\
  exists g',
    registry.NewOAuthService ini (settings "https://grafana.example/") noGlobals = Done g' /\
    "grafana_com" ∈ dom (registry.SocialMap g') /\
    registry.OAuthInfos g' !! "grafana_com"
    = Some (registry.readInfo ini "grafananet" (sectionOf ("auth." +:+ "grafananet"))) /\
    registry.GetOAuthProviders ini
      (Some {| registry.cfg_Raw := Some (registry.Raw (settings "https://grafana.example/")) |})
      !! "grafana_com"
    = Some false.
Proof.
  split; [reflexivity|]. split; [reflexivity|].
  exact (RegistryFacts.legacy_grafananet_registered_but_reported_disabled ini
           (settings "https://grafana.example/") noGlobals
           (fun name => sectionOf ("auth." +:+ name))
           (sections_exist "https://grafana.example/") eq_refl eq_refl).
Defined.


Lemma buildSaveDashboardCommand_normalizes_once_witness :
  buildSaveDashboardCommand env (request editor moved) true true world0
  = (Done (builtDashboard, Val (builtCommand editor)), builtWorld editor true) /\
  buildSaveDashboardCommand env
    (more.withDashboard (request editor moved) builtDashboard) false true world0
  = (Done (builtDashboard, Val (builtCommand editor)), builtWorld editor false) /\
  builtDashboard = builtDashboard.
Proof.
  assert (H1 : buildSaveDashboardCommand env (request editor moved) true true world0
               = (Done (builtDashboard, Val (builtCommand editor)),
                  builtWorld editor true)) by (vm_compute; reflexivity).
  assert (H2 : buildSaveDashboardCommand env
                 (more.withDashboard (request editor moved) builtDashboard)
                 false true world0
               = (Done (builtDashboard, Val (builtCommand editor)),
                  builtWorld editor false)) by (vm_compute; reflexivity).
  split; [exact H1|]. split; [exact H2|].
  exact (DashboardMore.buildSaveDashboardCommand_normalizes_once env
           _ _ _ _ _ _ _ _ _ _ _ _ _ H1 H2).
Defined.

Lemma folder_with_parent_is_refused_witness :
  strings.TrimSpace (Title teamFolder) <> "" /\
  IsFolder teamFolder = true /\ (0 < FolderId teamFolder)%Z /\
  SaveDashboard env (request editor teamFolder) world0
  = (Done (Err ErrDashboardFolderCannotHaveParent), world0) /\
  ImportDashboard env (request editor teamFolder) world0
  = (Done (Err ErrDashboardFolderCannotHaveParent), world0).
Proof.
  assert (Ht : strings.TrimSpace (Title teamFolder) <> "")
    by (vm_compute; discriminate).
  assert (Hp : (0 < FolderId teamFolder)%Z) by reflexivity.
  split; [exact Ht|]. split; [reflexivity|]. split; [exact Hp|].
  exact (proj2 (DashboardMore.folder_with_parent_is_refused env
                  (request editor teamFolder) world0 teamFolder eq_refl Ht eq_refl Hp)).
Defined.

Lemma build_error_ends_every_flow_witness :
  buildSaveDashboardCommand env (request editor untitled) true true world0
  = (Done (more.normalized untitled, Err ErrDashboardTitleEmpty), world0) /\
  SaveDashboard env (request editor untitled) world0
  = (Done (Err ErrDashboardTitleEmpty), world0).
Proof.
  assert (H : buildSaveDashboardCommand env (request editor untitled) true true world0
              = (Done (more.normalized untitled, Err ErrDashboardTitleEmpty), world0))
    by (vm_compute; reflexivity).
  split; [exact H|].
  exact (proj1 (DashboardMore.build_error_ends_every_flow env (request editor untitled)
                  world0 (more.normalized untitled) ErrDashboardTitleEmpty world0) H).
Defined.

Lemma nothing_is_saved_without_guardian_consent_witness :
  (forall id orgId user s0,
     fst (guardian_CanSave denying id orgId user s0) <> (true, None)) /\
  (exists evs,
     trace (snd (SaveDashboard denying (request editor moved) world0))
     = trace world0 ++ evs /\
     Forall (fun e => isPersist e = false /\ mirrorOf e = None) evs) /\
  SaveDashboard denying (request editor moved) world0
  = (Done (Err ErrDashboardUpdateAccessDenied), builtWorld editor true).
Proof.
  assert (H : forall id orgId user s0,
              fst (guardian_CanSave denying id orgId user s0) <> (true, None))
    by (intros id orgId user s0; discriminate).
  split; [exact H|]. split.
  - exact (proj1 (proj2 (DashboardMore.nothing_is_saved_without_guardian_consent
                           denying (request editor moved) world0 H))).
  - vm_compute; reflexivity.
Defined.

Lemma provisioned_dashboards_are_not_saved_witness :
  (forall id s0, exists provisioning s1,
     bus_GetProvisionedDashboardDataById allProvisioned id s0
     = (Val (Some provisioning), s1)) /\
  (exists evs,
     trace (snd (SaveDashboard allProvisioned (request editor moved) world0))
     = trace world0 ++ evs /\
     Forall (fun e => isPersist e = false /\ mirrorOf e = None) evs) /\
  fst (SaveDashboard allProvisioned (request editor moved) world0)
  = Done (Err ErrDashboardCannotSaveProvisionedDashboard).
Proof.
  assert (H : forall id s0, exists provisioning s1,
              bus_GetProvisionedDashboardDataById allProvisioned id s0
              = (Val (Some provisioning), s1))
    by (intros id s0; exists provisioning, s0; reflexivity).
  split; [exact H|]. split.
  - exact (proj1 (proj2 (DashboardMore.provisioned_dashboards_are_not_saved
                           allProvisioned (request editor moved) world0 H))).
  - vm_compute; reflexivity.
Defined.

Lemma SaveDashboard_without_token_witness :
  buildSaveDashboardCommand env (request localEditor moved) true true world0
  = (Done (builtDashboard, Val (builtCommand localEditor)), builtWorld localEditor true) /\
  Token localEditor = "" /\
  SaveDashboard env (request localEditor moved) world0 =
  (Done (Val (Some saved)),
   {| outside := [];
      trace := builtTrace localEditor true ++
        [EvDispatch (SaveDashboardCmd (builtCommand localEditor));
         EvDispatch (UpdateDashboardAlertsCommand 1 (Some saved) (Some localEditor))] |}).
Proof.
  assert (H : buildSaveDashboardCommand env (request localEditor moved) true true world0
              = (Done (builtDashboard, Val (builtCommand localEditor)),
                 builtWorld localEditor true)) by (vm_compute; reflexivity).
  split; [exact H|]. split; [reflexivity|].
  etransitivity;
    [exact (DashboardMore.SaveDashboard_without_token env _ _ _ _ _ localEditor
              H eq_refl eq_refl)
    | vm_compute; reflexivity].
Defined.

Lemma SaveDashboard_keeps_mirror_when_persistence_fails_witness :
  buildSaveDashboardCommand lockedDb (request editor brandNew) true true world0
  = (Done (more.normalized brandNew, Val (brandNewCommand editor)),
     {| outside := []; trace := brandNewTrace editor |}) /\
  Token editor <> "" /\
  mirrorStep lockedDb (request editor brandNew) (more.normalized brandNew) editor None
    {| outside := []; trace := brandNewTrace editor |}
  = (Done None,
     {| outside := ["Create CPU dashboard"];
        trace := brandNewTrace editor ++ [EvMirror createBrandNew "oauth-token"] |}) /\
  SaveDashboard lockedDb (request editor brandNew) world0 =
  (Done (Err (ErrExternal "database is locked")),
   {| outside := ["Create CPU dashboard"];
      trace := (brandNewTrace editor ++ [EvMirror createBrandNew "oauth-token"])
               ++ [EvDispatch (SaveDashboardCmd (brandNewCommand editor))] |}).
Proof.
  assert (Hb : buildSaveDashboardCommand lockedDb (request editor brandNew) true true world0
               = (Done (more.normalized brandNew, Val (brandNewCommand editor)),
                  {| outside := []; trace := brandNewTrace editor |}))
    by (vm_compute; reflexivity).
  assert (Ht : Token editor <> "") by discriminate.
  assert (Hm : mirrorStep lockedDb (request editor brandNew) (more.normalized brandNew)
                 editor None {| outside := []; trace := brandNewTrace editor |}
               = (Done None,
                  {| outside := ["Create CPU dashboard"];
                     trace := brandNewTrace editor
                              ++ [EvMirror createBrandNew "oauth-token"] |}))
    by (vm_compute; reflexivity).
  split; [exact Hb|]. split; [exact Ht|]. split; [exact Hm|].
  exact (DashboardMore.SaveDashboard_keeps_mirror_when_persistence_fails lockedDb
           (request editor brandNew) world0 _ _ _ editor None
           {| outside := []; trace := brandNewTrace editor |} _
           (ErrExternal "database is locked") ["Create CPU dashboard"]
           Hb eq_refl Ht eq_refl Hm eq_refl).
Defined.

Lemma ImportDashboard_with_token_witness :
  (updateDashboard env builtDashboard social.CreateDashboard editor "move to Ops"
     (builtWorld editor false)
   = (Done None,
      {| outside := ["Create CPU dashboard"];
         trace := builtTrace editor false ++
           [EvDispatch (GetDashboardQuery 7); EvMirror importMoved "oauth-token"] |}) /\
   ImportDashboard env (request editor moved) world0 =
   (Done (Val (Some saved)),
    {| outside := ["Create CPU dashboard"];
       trace := (builtTrace editor false ++
           [EvDispatch (GetDashboardQuery 7); EvMirror importMoved "oauth-token"])
         ++ [EvDispatch (SaveDashboardCmd (builtCommand editor))] |})) /\
  (updateDashboard readOnly builtDashboard social.CreateDashboard editor "move to Ops"
     (builtWorld editor false)
   = (Done (Some ErrDashboardGitlabSync),
      {| outside := [];
         trace := builtTrace editor false ++
           [EvDispatch (GetDashboardQuery 7); EvMirror importMoved "oauth-token"] |}) /\
   ImportDashboard readOnly (request editor moved) world0 =
   (Done (Err ErrDashboardGitlabSync),
    {| outside := [];
       trace := builtTrace editor false ++
         [EvDispatch (GetDashboardQuery 7); EvMirror importMoved "oauth-token"] |})).
Proof.
  assert (Ht : Token editor <> "") by discriminate.
  split.
  - assert (Hb : buildSaveDashboardCommand env (request editor moved) false true world0
                 = (Done (builtDashboard, Val (builtCommand editor)),
                    builtWorld editor false)) by (vm_compute; reflexivity).
    assert (Hm : updateDashboard env builtDashboard social.CreateDashboard editor
                   "move to Ops" (builtWorld editor false)
                 = (Done None,
                    {| outside := ["Create CPU dashboard"];
                       trace := builtTrace editor false ++
                         [EvDispatch (GetDashboardQuery 7);
                          EvMirror importMoved "oauth-token"] |}))
      by (vm_compute; reflexivity).
    split; [exact Hm|].
    etransitivity;
      [exact (proj2 (DashboardMore.ImportDashboard_with_token env _ _ _ _ _ editor
                       Hb eq_refl Ht) _ Hm)
      | vm_compute; reflexivity].
  - assert (Hb : buildSaveDashboardCommand readOnly (request editor moved) false true world0
                 = (Done (builtDashboard, Val (builtCommand editor)),
                    builtWorld editor false)) by (vm_compute; reflexivity).
    assert (Hm : updateDashboard readOnly builtDashboard social.CreateDashboard editor
                   "move to Ops" (builtWorld editor false)
                 = (Done (Some ErrDashboardGitlabSync),
                    {| outside := [];
                       trace := builtTrace editor false ++
                         [EvDispatch (GetDashboardQuery 7);
                          EvMirror importMoved "oauth-token"] |}))
      by (vm_compute; reflexivity).
    split; [exact Hm|].
    exact (proj1 (DashboardMore.ImportDashboard_with_token readOnly _ _ _ _ _ editor
                    Hb eq_refl Ht) _ _ Hm).
Defined.

Lemma updateDashboard_commits_to_gitlab_witness :
  SocialMap env !! AuthModule editor = Some (SocialGitlab_connector remote gitlab) /\
  getDashboardFolder env builtDashboard world0
  = (Done "Ops", {| outside := []; trace := [EvDispatch (GetDashboardQuery 7)] |}) /\
  getRepo gitlab (dash_OrgId builtDashboard) = Some mainRepo /\
  updateDashboard env builtDashboard social.CreateDashboard editor "" world0 =
  (let '(err, st') :=
     CreateCommit remote "https://gitlab.example/api/v4" "oauth-token" 42
       createNewCommit [] in
   (Done match err with Some _ => Some ErrDashboardGitlabSync | None => None end,
    {| outside := st';
       trace := [EvDispatch (GetDashboardQuery 7); EvMirror createNew "oauth-token"] |})).
Proof.
  assert (Hreg : SocialMap env !! AuthModule editor
                 = Some (SocialGitlab_connector remote gitlab))
    by (vm_compute; reflexivity).
  assert (Hf : getDashboardFolder env builtDashboard world0
               = (Done "Ops",
                  {| outside := []; trace := [EvDispatch (GetDashboardQuery 7)] |}))
    by (vm_compute; reflexivity).
  split; [exact Hreg|]. split; [exact Hf|]. split; [reflexivity|].
  etransitivity;
    [exact (DashboardMore.updateDashboard_commits_to_gitlab env remote gitlab
              builtDashboard social.CreateDashboard editor "" world0 "{}" "Ops" _
              mainRepo Hreg eq_refl Hf eq_refl)
    | vm_compute; reflexivity].
Defined.

Lemma DeleteDashboard_lookup_outcomes_witness :
  bus_GetProvisionedDashboardDataById env 5 (outside world0) = (Val None, []) /\
  dashboards.DeleteDashboard env 5 1 world0 =
  DeleteProvisionedDashboard env 5 1
    {| outside := [];
       trace := trace world0 ++ [EvDispatch (GetProvisionedDashboardDataByIdQuery 5)] |}.
Proof.
  split; [reflexivity|].
  exact (proj2 (DashboardMore.DeleteDashboard_lookup_outcomes env 5 1 world0)
           [] eq_refl).
Defined.

End Examples.
